(** * vis.contour_plot: a shallow embedding of [src/vis/seaborn.py]

    The module draws a contour plot on a matplotlib Axes.  Its two functions,
    [contour_plot] and [_contour_plot], are embedded as computations in a
    state-and-exception monad over a [world] that holds the Axes objects the
    caller can reach.  Python objects are references into that store, so the
    in-place mutation of the surface and the identity of the returned Axes
    are both visible.  What matplotlib decides on its own (whether a drawing
    call is rejected, which collections a contour call produces, which
    colormap names are registered) is the [Host] interface.  What numpy does
    to the inputs (the shape it finds, the rounding to binary64, the
    numbers it cannot hold) is computed. *)

From Stdlib Require Import QArith.
From stdpp Require Import gmap strings list fin_maps.

Close Scope Q_scope.
Set Warnings "-register-all".

Local Open Scope string_scope.
Local Open Scope list_scope.

(** ** Python values *)

(** Values that travel through [**kwargs].  Colormap objects are kept
    symbolic: a colormap is named by the call that built it, and a colour
    read off a colormap by the colormap and the position it was read at. *)
Inductive pyval : Type :=
| PNone
| PBool (b : bool)
| PNum (q : Q)
| PStr (s : string)
| PList (items : list pyval)
| LightPalette (color : pyval)   (* seaborn light_palette(color, as_cmap=True) *)
| DarkPalette (color : pyval)    (* seaborn dark_palette(color, as_cmap=True) *)
| PaletteColor (name : string) (n_colors i : nat)
                                 (* i-th entry of seaborn color_palette(name, n_colors) *)
| BlendPalette (stops : list pyval)
                                 (* seaborn blend_palette(stops, as_cmap=True) *)
| NamedCmap (name : string)      (* mpl.cm.get_cmap(name) *)
| CmapObject (id : nat)          (* a Colormap instance built by the caller *)
| Sampled (cmap : pyval) (pos : Q).
                                 (* the RGBA tuple cmap(pos) *)

Definition is_none (v : pyval) : bool :=
  match v with PNone => true | _ => false end.

(** Objects that can be called as [cmap(pos)]. *)
Definition is_colormap (v : pyval) : bool :=
  match v with
  | LightPalette _ | DarkPalette _ | BlendPalette _ | NamedCmap _ | CmapObject _ => true
  | _ => false
  end.

(** Numeric payload of the inputs: numbers, possibly nested (a grid is a
    list of rows).  A number is the exact value of a Python [int], [float]
    or [Fraction]. *)
Inductive pydata : Type :=
| Num (v : Q)
| Row (items : list pydata).

(** The three shapes of input the entry point tells apart: a Python list,
    a numpy array, and a labelled sequence that carries a [name] attribute
    (a pandas Series). *)
Inductive arraylike : Type :=
| PyList (items : list pydata)
| NdArray (items : list pydata)
| Series (items : list pydata) (name : pyval).

Definition items_of (a : arraylike) : list pydata :=
  match a with PyList l | NdArray l | Series l _ => l end.

(** [len(a)] *)
Definition len (a : arraylike) : nat := length (items_of a).

(** [isinstance(a, list)] *)
Definition is_list (a : arraylike) : bool :=
  match a with PyList _ => true | _ => false end.

(** The array [np.asarray(a)] answers when it answers one. *)
Definition np_asarray (a : arraylike) : arraylike :=
  match a with PyList l => NdArray l | _ => a end.

(** The shape numpy finds in nested data: at every level all the entries
    have the shape of the first one.  Data that has none is ragged. *)
Fixpoint shape (d : pydata) : option (list nat) :=
  match d with
  | Num _ => Some []
  | Row l =>
      match l with
      | [] => Some [0]
      | d0 :: rest =>
          match shape d0 with
          | Some s =>
              if forallb (fun d' => bool_decide (shape d' = Some s)) rest
              then Some (length l :: s)
              else None
          | None => None
          end
      end
  end.

Definition shape_of (a : arraylike) : option (list nat) := shape (Row (items_of a)).

(** The binary64 number nearest to a rational, ties to even: what
    [float(n)], [int64 -> float64] and [Fraction.__float__] compute.  [k]
    is the exponent of the leading bit and [e] that of the last kept bit,
    which is never below that of the subnormal numbers. *)
Definition round_float64 (q : Q) : Q :=
  let n := Qnum q in
  let d := Zpos (Qden q) in
  let a := Z.abs n in
  if (a =? 0)%Z then 0%Q
  else
    let l := (Z.log2 a - Z.log2 d)%Z in
    let k := if (d * 2 ^ Z.max 0 l <=? a * 2 ^ Z.max 0 (- l))%Z then l else (l - 1)%Z in
    let e := Z.max (k - 52) (-1074) in
    let num := (a * 2 ^ Z.max 0 (- e))%Z in
    let den := (d * 2 ^ Z.max 0 e)%Z in
    let m := (num / den)%Z in
    let r := (num mod den)%Z in
    let m' := if (2 * r <? den)%Z then m
              else if (2 * r =? den)%Z then (if Z.even m then m else m + 1)%Z
              else (m + 1)%Z in
    Qred (Qmake (Z.sgn n * m' * 2 ^ Z.max 0 e) (Z.to_pos (2 ^ Z.max 0 (- e)))).

(** A number too large for binary64: its rounding reaches [2 ^ 1024]. *)
Definition overflows (q : Q) : bool :=
  let r := round_float64 q in
  (2 ^ 1024 * Zpos (Qden r) <=? Z.abs (Qnum r))%Z.

Fixpoint map_num (f : Q -> Q) (d : pydata) : pydata :=
  match d with
  | Num q => Num (f q)
  | Row l => Row (map (map_num f) l)
  end.

Fixpoint any_num (p : Q -> bool) (d : pydata) : bool :=
  match d with
  | Num q => p q
  | Row l => existsb (any_num p) l
  end.

(** The array [a.astype(np.float64)] answers when it answers one; a
    Series keeps its name. *)
Definition as_float64 (a : arraylike) : arraylike :=
  match a with
  | PyList l | NdArray l => NdArray (map (map_num round_float64) l)
  | Series l n => Series (map (map_num round_float64) l) n
  end.

(** [getattr(a, "name")] when [hasattr(a, "name")], else nothing. *)
Definition name_attr (a : arraylike) : option pyval :=
  match a with Series _ n => Some n | _ => None end.

(** ** String methods used on colormap names *)

Fixpoint str_rev_aux (s acc : string) : string :=
  match s with
  | EmptyString => acc
  | String c r => str_rev_aux r (String c acc)
  end.

Definition str_rev (s : string) : string := str_rev_aux s EmptyString.

(** [s.endswith(suffix)] *)
Definition endswith (s suffix : string) : bool :=
  String.prefix (str_rev suffix) (str_rev s).

(** [s.replace(old, new)] for a non-empty [old]: occurrences are found
    left to right and do not overlap.  [skip] counts the characters of the
    occurrence just replaced that are still to be passed over. *)
Fixpoint replace_from (old new s : string) (skip : nat) : string :=
  match s with
  | EmptyString => EmptyString
  | String c r =>
      match skip with
      | S k => replace_from old new r k
      | O =>
          if String.prefix old s
          then (new ++ replace_from old new r (String.length old - 1))%string
          else String c (replace_from old new r 0)
      end
  end.

Definition str_replace (s old new : string) : string := replace_from old new s 0.

(** ** Exceptions *)

Inductive exn : Type :=
| NameError (name : string)          (* a global name that is not bound *)
| UnboundLocalError (name : string)  (* a local read before any assignment *)
| AttributeError (attr : string)
| IndexError
| TypeError
| ValueError (msg : string)
| OverflowError.

(** What numpy raises when it is to make a float64 array of [a]:
    [ValueError] for ragged data (from [np.asarray] on a list, from [astype]
    on an array of objects), [OverflowError] for a number beyond the range
    of binary64. *)
Definition conversion_error (a : arraylike) : option exn :=
  match shape_of a with
  | None => Some (ValueError "setting an array element with a sequence")
  | Some _ =>
      if existsb (any_num overflows) (items_of a) then Some OverflowError else None
  end.

Inductive outcome (A : Type) : Type :=
| Returned (a : A)
| Raised (e : exn).
Arguments Returned {A} a.
Arguments Raised {A} e.

(** ** The drawing surface *)

(** An Axes object is a reference. *)
Definition surface := nat.

(** One member of [ContourSet.collections]: a band (filled) or a level line,
    with the opacity set on it ([None] until [set_alpha] is called). *)
Record collection := { level : Q; alpha : option Q }.

Definition set_alpha (a : Q) (c : collection) : collection :=
  {| level := level c; alpha := Some a |}.

Inductive artist : Type :=
| Line2D (xdata ydata : list Q) (color label : pyval)          (* ax.plot *)
| PolyCollection (xdata ydata : list Q) (color label : pyval)  (* ax.fill_between *)
| ContourSet (filled : bool) (collections : list collection).  (* ax.contour{f} *)

Record axes := {
  artists : list artist;      (* in drawing order *)
  xlabel : option pyval;      (* [None]: no label was set *)
  ylabel : option pyval;
  prop_cycle : list string;   (* the colours lines cycle through *)
  cycle_pos : nat             (* how many colours were consumed *)
}.

(** An Axes nothing was drawn on, with matplotlib's default colour cycle. *)
Definition blank_axes : axes :=
  {| artists := []; xlabel := None; ylabel := None;
     prop_cycle := ["#1f77b4"; "#ff7f0e"; "#2ca02c"; "#d62728"; "#9467bd";
                    "#8c564b"; "#e377c2"; "#7f7f7f"; "#bcbd22"; "#17becf"];
     cycle_pos := 0 |}.

(** A handle on an artist: the Axes it lives in and its position there. *)
Definition handle : Type := surface * nat.

Record colorbar := {
  cb_mappable : handle;
  cb_cax : option surface;
  cb_ax : surface;
  cb_kws : gmap string pyval
}.

(** The calls whose acceptance matplotlib decides from what the caller
    passed in: the lookup of a colormap name, the contour call, the
    colorbar call and the drawing of the legend proxy.  Only these are
    recorded.  What the body calls besides -- [plt.gca()], the probe's
    [ax.plot([], [])], [get_color()] and [remove()], [set_alpha(0)],
    [set_xlabel] and [set_ylabel] -- acts on the store directly: it is taken
    to succeed and leaves no record. *)
Inductive call : Type :=
| CallGetCmap (name : string)
| CallContour (ax : surface) (filled : bool) (x y z : arraylike)
    (levels : pyval) (kw : gmap string pyval)
| CallColorbar (mappable : handle) (cax : option surface) (ax : surface)
    (kw : gmap string pyval)
| CallPlot (ax : surface) (xdata ydata : list Q) (color label : pyval)
| CallFillBetween (ax : surface) (xdata ydata : list Q) (color label : pyval).

Record world := {
  heap : gmap surface axes;   (* the Axes objects that were touched *)
  current_axes : surface;     (* what plt.gca() answers *)
  colorbars : list colorbar;  (* colorbars of the figure *)
  trace : list call           (* the recorded calls made so far, oldest first *)
}.

(** The state of an Axes; one the store has no entry for is still blank. *)
Definition get_axes (w : world) (ax : surface) : axes :=
  default blank_axes (heap w !! ax).

Definition set_axes (ax : surface) (a : axes) (w : world) : world :=
  {| heap := <[ax := a]> (heap w);
     current_axes := current_axes w;
     colorbars := colorbars w;
     trace := trace w |}.

Definition log_call (c : call) (w : world) : world :=
  {| heap := heap w;
     current_axes := current_axes w;
     colorbars := colorbars w;
     trace := trace w ++ [c] |}.

Definition add_colorbar (cb : colorbar) (w : world) : world :=
  {| heap := heap w;
     current_axes := current_axes w;
     colorbars := colorbars w ++ [cb];
     trace := trace w |}.

Definition with_artists (l : list artist) (a : axes) : axes :=
  {| artists := l; xlabel := xlabel a; ylabel := ylabel a;
     prop_cycle := prop_cycle a; cycle_pos := cycle_pos a |}.

Definition add_artist (x : artist) (a : axes) : axes :=
  with_artists (artists a ++ [x]) a.

Definition advance_cycle (a : axes) : axes :=
  {| artists := artists a; xlabel := xlabel a; ylabel := ylabel a;
     prop_cycle := prop_cycle a; cycle_pos := S (cycle_pos a) |}.

Definition with_xlabel (v : pyval) (a : axes) : axes :=
  {| artists := artists a; xlabel := Some v; ylabel := ylabel a;
     prop_cycle := prop_cycle a; cycle_pos := cycle_pos a |}.

Definition with_ylabel (v : pyval) (a : axes) : axes :=
  {| artists := artists a; xlabel := xlabel a; ylabel := Some v;
     prop_cycle := prop_cycle a; cycle_pos := cycle_pos a |}.

(** The colour the next unstyled line takes; ["C0"] is matplotlib's
    [lines.color] default, used when the cycle holds no colour. *)
Definition next_color (a : axes) : string :=
  nth (cycle_pos a mod length (prop_cycle a)) (prop_cycle a) "C0".

(** [dict.pop(key, default)] *)
Definition dict_pop (d : gmap string pyval) (key : string) (dflt : pyval)
  : pyval * gmap string pyval :=
  (default dflt (d !! key), delete key d).

(** ** The host library *)

(** What matplotlib decides.  A contour set is taken to have the
    [collections] attribute of line 167, as it has up to matplotlib 3.9. *)
Class Host := {
  (** the exception matplotlib raises on a call, if it rejects it *)
  rejects : call -> option exn;
  (** the collections a contour call yields when it is accepted *)
  contour_collections :
    bool -> arraylike -> arraylike -> arraylike -> pyval -> gmap string pyval ->
    list collection
}.

(** ** The monad: state that survives an exception *)

Definition M (A : Type) : Type := world -> world * outcome A.

Definition ret {A} (a : A) : M A := fun w => (w, Returned a).

Definition raise {A} (e : exn) : M A := fun w => (w, Raised e).

Definition bind {A B} (m : M A) (f : A -> M B) : M B :=
  fun w => match m w with
           | (w1, Returned a) => f a w1
           | (w1, Raised e) => (w1, Raised e)
           end.

#[global] Instance M_ret : MRet M := @ret.
#[global] Instance M_bind : MBind M := fun A B f m => bind m f.

Definition when (b : bool) (m : M unit) : M unit := if b then m else ret tt.

(** ** Primitive effects *)

Section Effects.
Context `{Host}.

(** A call into matplotlib: it is recorded, then accepted or rejected. *)
Definition host_call (c : call) : M unit :=
  fun w => (log_call c w,
            match rejects c with
            | Some e => Raised e
            | None => Returned tt
            end).

(** [plt.gca()] *)
Definition plt_gca : M surface := fun w => (w, Returned (current_axes w)).

(** [ax.plot(xdata, ydata)] with no styling: the line takes the next
    colour of the cycle. *)
Definition ax_plot_auto (ax : surface) (xdata ydata : list Q) : M handle :=
  fun w =>
    let a := get_axes w ax in
    (set_axes ax
       (advance_cycle (add_artist (Line2D xdata ydata (PStr (next_color a)) PNone) a)) w,
     Returned (ax, length (artists a))).

(** [line.get_color()] *)
Definition get_color (h : handle) : M pyval :=
  fun w => (w, match artists (get_axes w h.1) !! h.2 with
               | Some (Line2D _ _ c _) => Returned c
               | _ => Raised (AttributeError "get_color")
               end).

(** [artist.remove()] *)
Definition artist_remove (h : handle) : M unit :=
  fun w =>
    let a := get_axes w h.1 in
    (set_axes h.1 (with_artists (delete h.2 (artists a)) a) w, Returned tt).

(** [ax.plot(xdata, ydata, color=color, label=label)]; a colour of [None]
    falls back on the cycle. *)
Definition ax_plot (ax : surface) (xdata ydata : list Q) (color label : pyval)
  : M handle :=
  host_call (CallPlot ax xdata ydata color label);;
  ((fun w =>
      let a := get_axes w ax in
      (set_axes ax
         (if is_none color
          then advance_cycle
                 (add_artist (Line2D xdata ydata (PStr (next_color a)) label) a)
          else add_artist (Line2D xdata ydata color label) a) w,
       Returned (ax, length (artists a)))) : M handle).

(** [ax.fill_between(xdata, ydata, color=color, label=label)] *)
Definition ax_fill_between (ax : surface) (xdata ydata : list Q) (color label : pyval)
  : M handle :=
  host_call (CallFillBetween ax xdata ydata color label);;
  ((fun w =>
      let a := get_axes w ax in
      (set_axes ax (add_artist (PolyCollection xdata ydata color label) a) w,
       Returned (ax, length (artists a)))) : M handle).

(** [ax.contourf(x, y, z, levels, **kw)] when [filled], else [ax.contour]. *)
Definition ax_contour (ax : surface) (filled : bool) (x y z : arraylike)
    (levels : pyval) (kw : gmap string pyval) : M handle :=
  host_call (CallContour ax filled x y z levels kw);;
  ((fun w =>
      let a := get_axes w ax in
      (set_axes ax
         (add_artist (ContourSet filled (contour_collections filled x y z levels kw)) a)
         w,
       Returned (ax, length (artists a)))) : M handle).

(** [cset.collections[i].set_alpha(a)]: the contour set is the object the
    Axes holds, so the change shows on the surface. *)
Definition collection_set_alpha (cset : handle) (i : nat) (a : Q) : M unit :=
  fun w =>
    let s := get_axes w cset.1 in
    match artists s !! cset.2 with
    | Some (ContourSet f cs) =>
        match cs !! i with
        | Some c =>
            (set_axes cset.1
               (with_artists
                  (<[cset.2 := ContourSet f (<[i := set_alpha a c]> cs)]> (artists s)) s)
               w,
             Returned tt)
        | None => (w, Raised IndexError)
        end
    | _ => (w, Raised (AttributeError "collections"))
    end.

(** [ax.figure.colorbar(mappable, cax, ax, **kw)] *)
Definition figure_colorbar (mappable : handle) (cax : option surface) (ax : surface)
    (kw : gmap string pyval) : M unit :=
  host_call (CallColorbar mappable cax ax kw);;
  ((fun w => (add_colorbar {| cb_mappable := mappable; cb_cax := cax;
                              cb_ax := ax; cb_kws := kw |} w,
              Returned tt)) : M unit).

(** [ax.set_xlabel(v)] and [ax.set_ylabel(v)] *)
Definition set_xlabel (ax : surface) (v : pyval) : M unit :=
  fun w => (set_axes ax (with_xlabel v (get_axes w ax)) w, Returned tt).

Definition set_ylabel (ax : surface) (v : pyval) : M unit :=
  fun w => (set_axes ax (with_ylabel v (get_axes w ax)) w, Returned tt).

(** [mpl.cm.get_cmap(name)] *)
Definition get_cmap (name : string) : M pyval :=
  host_call (CallGetCmap name);; ret (NamedCmap name).

(** [cmap(pos)] *)
Definition call_colormap (cmap : pyval) (pos : Q) : M pyval :=
  if is_colormap cmap then ret (Sampled cmap pos) else raise TypeError.

(** Reading a local variable: [None] stands for a local that no
    assignment has reached. *)
Definition load_local (name : string) (v : option pyval) : M pyval :=
  match v with
  | Some x => ret x
  | None => raise (UnboundLocalError name)
  end.
End Effects.

(** ** The module [vis.seaborn] *)

(** The names bound at module level: the imports of lines 1-6 and the two
    functions the file defines.  Nothing else is ever assigned a global. *)
Definition module_globals : list string :=
  ["plt"; "sns"; "mpl"; "np"; "string_types"; "contour_plot"; "_contour_plot"].

(** The palette helpers of seaborn, which the body calls by bare name. *)
Definition seaborn_palettes : list string :=
  ["light_palette"; "dark_palette"; "color_palette"; "blend_palette"].

(** The namespace the module would have, had it imported the helpers. *)
Definition repaired_globals : list string := module_globals ++ seaborn_palettes.

Definition bound (globals : list string) (name : string) : bool :=
  existsb (String.eqb name) globals.

Section Body.
Context `{Host}.
(** The global namespace the functions run in. *)
Variable globals : list string.

(** Evaluating a global name. *)
Definition load_global (name : string) : M unit :=
  if bound globals name then ret tt else raise (NameError name).

(** [light_palette(color, as_cmap=True)] *)
Definition light_palette (color : pyval) : M pyval :=
  load_global "light_palette";; ret (LightPalette color).

(** [dark_palette(color, as_cmap=True)] *)
Definition dark_palette (color : pyval) : M pyval :=
  load_global "dark_palette";; ret (DarkPalette color).

(** [color_palette(name, n)] *)
Definition color_palette (name : string) (n : nat) : M (list pyval) :=
  load_global "color_palette";; ret (map (PaletteColor name n) (seq 0 n)).

(** [blend_palette(stops, as_cmap=True)] *)
Definition blend_palette (stops : list pyval) : M pyval :=
  load_global "blend_palette";; ret (BlendPalette stops).

(** [np.asarray(a)] when [a] is a list (lines 112-113, 118-119, 121-122);
    numpy refuses a ragged list. *)
Definition coerce_list (a : arraylike) : M arraylike :=
  if is_list a
  then load_global "np";;
       match shape_of a with
       | Some _ => ret (np_asarray a)
       | None => raise (ValueError "setting an array element with a sequence")
       end
  else ret a.

(** [a.astype(np.float64)] (lines 116, 120, 123): every number is rounded
    to binary64, unless numpy refuses the array. *)
Definition astype_float64 (a : arraylike) : M arraylike :=
  match a with
  | PyList _ => raise (AttributeError "astype")
  | _ => load_global "np";;
         match conversion_error a with
         | Some e => raise e
         | None => ret (as_float64 a)
         end
  end.

(** The parameters of [_contour_plot] (line 132).  Line 125 fills all of
    them by position, so a keyword of one of these names is a second value
    for it. *)
Definition _contour_plot_params : list string :=
  ["x"; "y"; "z"; "filled"; "fill_lowest"; "axlabel"; "cbar"; "cbar_ax"; "cbar_kws"; "ax"].

(** [kwargs] is what Python has left for [**kwargs] once the parameters
    of [contour_plot] are bound; of the names above it can hold [filled],
    [fill_lowest] and [axlabel]. *)
Definition collides (kwargs : gmap string pyval) : bool :=
  existsb (fun k => bool_decide (is_Some (kwargs !! k))) _contour_plot_params.

(** Lines 138-140: the colour a disposable empty line takes. *)
Definition probe_color (ax : surface) : M pyval :=
  scout ← ax_plot_auto ax [] [];
  default_color ← get_color scout;
  artist_remove scout;;
  ret default_color.

(** Lines 151-157: a colormap given by name is looked up. *)
Definition resolve_cmap_name (cmap : pyval) : M pyval :=
  load_global "string_types";;
  match cmap with
  | PStr name =>
      if endswith name "_d"
      then
        let pal := [PStr "#333333"] in
        sampled ← color_palette (str_replace name "_d" "_r") 2;
        let pal := pal ++ sampled in
        blend_palette pal
      else load_global "mpl";; get_cmap name
  | _ => ret cmap
  end.

(** Lines 144-158: the colormap branch.  It answers the locals [color]
    and [cmap] and the keyword dictionary with [cmap] stored in it. *)
Definition derive_cmap (filled : bool) (default_color : pyval)
    (kwargs : gmap string pyval) : M (pyval * pyval * gmap string pyval) :=
  let '(color, kwargs) := dict_pop kwargs "color" default_color in
  let '(cmap, kwargs) := dict_pop kwargs "cmap" PNone in
  cmap ← (if is_none cmap
          then if filled then light_palette color else dark_palette color
          else ret cmap);
  cmap ← resolve_cmap_name cmap;
  ret (color, cmap, <["cmap" := cmap]> kwargs).

(** Lines 142-160.  The locals [color] and [cmap] are assigned in the
    colormap branch only; [None] marks a local left unbound. *)
Definition resolve_colors (filled : bool) (default_color : pyval)
    (kwargs : gmap string pyval)
  : M (option pyval * option pyval * gmap string pyval) :=
  let '(colors, kwargs) := dict_pop kwargs "colors" PNone in
  if is_none colors
  then '(color, cmap, kwargs) ← derive_cmap filled default_color kwargs;
       ret (Some color, Some cmap, kwargs)
  else ret (None, None, <["colors" := colors]> kwargs).

(** Lines 164-167: the contour call and the hiding of the lowest band. *)
Definition draw (ax : surface) (filled fill_lowest : bool) (x y z : arraylike)
    (n_levels : pyval) (kwargs : gmap string pyval) : M handle :=
  cset ← ax_contour ax filled x y z n_levels kwargs;
  when (filled && negb fill_lowest) (collection_set_alpha cset 0 0%Q);;
  ret cset.

(** Lines 170-172 *)
Definition attach_colorbar (cbar : bool) (cset : handle) (cbar_ax : option surface)
    (cbar_kws : option (gmap string pyval)) (ax : surface) : M unit :=
  when cbar (figure_colorbar cset cbar_ax ax (default ∅ cbar_kws)).

(** Lines 175-178 *)
Definition label_axes (ax : surface) (x y : arraylike) (axlabel : bool) : M unit :=
  match name_attr x with
  | Some n => when axlabel (set_xlabel ax n)
  | None => ret tt
  end;;
  match name_attr y with
  | Some n => when axlabel (set_ylabel ax n)
  | None => ret tt
  end.

(** Lines 180-185: the legend proxy. *)
Definition legend_proxy (ax : surface) (filled : bool) (color cmap : option pyval)
    (label : pyval) : M unit :=
  if is_none label then ret tt
  else
    c ← load_local "color" color;
    legend_color ← (if is_none c
                    then m ← load_local "cmap" cmap; call_colormap m (95 # 100)%Q
                    else ret c);
    if filled
    then ax_fill_between ax [] [] legend_color label;; ret tt
    else ax_plot ax [] [] legend_color label;; ret tt.

Definition _contour_plot (x y z : arraylike) (filled fill_lowest axlabel cbar : bool)
    (cbar_ax : option surface) (cbar_kws : option (gmap string pyval))
    (ax : surface) (kwargs : gmap string pyval) : M surface :=
  let '(n_levels, kwargs) := dict_pop kwargs "n_levels" (PNum (10 # 1)%Q) in
  default_color ← probe_color ax;
  '(color, cmap, kwargs) ← resolve_colors filled default_color kwargs;
  let '(label, kwargs) := dict_pop kwargs "label" PNone in
  cset ← draw ax filled fill_lowest x y z n_levels kwargs;
  let kwargs := <["n_levels" := n_levels]> kwargs in
  attach_colorbar cbar cset cbar_ax cbar_kws ax;;
  label_axes ax x y axlabel;;
  legend_proxy ax filled color cmap label;;
  ret ax.

Definition contour_plot (x y z : arraylike) (shade legend shade_lowest cbar : bool)
    (cbar_ax : option surface) (cbar_kws : option (gmap string pyval))
    (ax : option surface) (kwargs : gmap string pyval) : M surface :=
  ax ← match ax with
       | None => load_global "plt";; plt_gca
       | Some a => ret a
       end;
  x ← coerce_list x;
  if decide (len x = 0) then ret ax
  else
    x ← astype_float64 x;
    y ← coerce_list y;
    y ← astype_float64 y;
    z ← coerce_list z;
    z ← astype_float64 z;
    if collides kwargs then raise TypeError
    else _contour_plot x y z shade shade_lowest legend cbar cbar_ax cbar_kws ax kwargs.
End Body.

(** * Vocabulary of the statements *)

(** The lowest collection made fully transparent. *)
Definition hide_lowest (cs : list collection) : list collection :=
  match cs with
  | c0 :: rest => set_alpha 0%Q c0 :: rest
  | [] => []
  end.

(** The zero-length artist that seeds a legend entry, and the call that
    draws it. *)
Definition proxy_artist (filled : bool) (color label : pyval) : artist :=
  if filled then PolyCollection [] [] color label else Line2D [] [] color label.

Definition proxy_call (ax : surface) (filled : bool) (color label : pyval) : call :=
  if filled then CallFillBetween ax [] [] color label else CallPlot ax [] [] color label.

(** What lines 175-178 do to the Axes. *)
Definition relabel (axlabel : bool) (x y : arraylike) (a : axes) : axes :=
  let a := match name_attr x with
           | Some n => if axlabel then with_xlabel n a else a
           | None => a
           end in
  match name_attr y with
  | Some n => if axlabel then with_ylabel n a else a
  | None => a
  end.

(** Drawing the proxy in a colour that is not [None]. *)
Definition draw_proxy `{Host} (ax : surface) (filled : bool) (color label : pyval)
  : world → world * outcome unit :=
  fun w =>
    let c := proxy_call ax filled color label in
    match rejects c with
    | Some e => (log_call c w, Raised e)
    | None =>
        (set_axes ax (add_artist (proxy_artist filled color label) (get_axes w ax))
           (log_call c w),
         Returned tt)
    end.

(** Resolving the colours draws nothing: at most one colormap lookup is
    added to the trace. *)
Definition only_looked_up (w w2 : world) : Prop :=
  w2 = w ∨ ∃ name, w2 = log_call (CallGetCmap name) w.

(** Line 181 as a function of the two locals: the colour of the legend
    proxy, or nothing when the line raises. *)
Definition legend_color (color cmap : option pyval) : option pyval :=
  match color with
  | None => None
  | Some c =>
      if is_none c
      then match cmap with
           | Some m => if is_colormap m then Some (Sampled m (95 # 100)%Q) else None
           | None => None
           end
      else Some c
  end.

(** [logs P m]: running [m] only appends calls that satisfy [P], whether
    it returns or raises. *)
Definition logs {A} (P : call → Prop) (m : M A) : Prop :=
  ∀ w, ∃ new, trace (m w).1 = trace w ++ new ∧ Forall P new.

(** A call that hands no [label] keyword to a contour primitive. *)
Definition label_free (c : call) : Prop :=
  match c with
  | CallContour _ _ _ _ _ _ kw => kw !! "label" = None
  | _ => True
  end.


(** The calls a run has added to the trace, in the order of the body: a
    colormap lookup, the contour call, the colorbar call, the proxy call.
    Each is there or not. *)
Definition protocol (lookup : option string) (contour : option call)
    (colorbar : option call) (proxy : option call) : list call :=
  option_list (CallGetCmap <$> lookup) ++ option_list contour
  ++ option_list colorbar ++ option_list proxy.

(** The artists a run has added to the surface behind the contour set:
    the legend proxy, or nothing. *)
Definition is_proxy_of (filled : bool) (label : pyval) (extra : list artist) : Prop :=
  extra = [] ∨ ∃ c, extra = [proxy_artist filled c label].

(** [forwards m]: an error matplotlib answers to a call made by [m] is
    the outcome of [m], and the refused call is the last one made. *)
Definition forwards `{Host} {A} (m : M A) : Prop :=
  ∀ w, ∃ new,
    trace (m w).1 = trace w ++ new
    ∧ ∀ c e, c ∈ new → rejects c = Some e → (m w).2 = Raised e ∧ last new = Some c.

(** The calls that draw contours. *)
Definition is_contour_call (c : call) : bool :=
  match c with
  | CallContour _ _ _ _ _ _ _ => true
  | _ => false
  end.

(** What lines 112-125 raise before the body of [_contour_plot] starts,
    for an [x] that is not empty: the first conversion that numpy refuses,
    else the [TypeError] of a keyword that names a parameter of
    [_contour_plot]. *)
Definition arguments_error (x y z : arraylike) (kwargs : gmap string pyval)
  : option exn :=
  match conversion_error x with
  | Some e => Some e
  | None =>
      match conversion_error y with
      | Some e => Some e
      | None =>
          match conversion_error z with
          | Some e => Some e
          | None => if collides kwargs then Some TypeError else None
          end
      end
  end.

(** * A concrete session *)

(** A host that behaves like matplotlib 3.7 on the points the module
    touches: a contour call is refused when it carries both a colour list
    and a colormap, or when the shapes of its arrays do not fit; a colormap
    lookup is refused for a name that is not registered; a contour call
    yields three collections. *)
Definition has_value (kw : gmap string pyval) (key : string) : bool :=
  negb (is_none (default PNone (kw !! key))).

(** [z] is a grid of at least two rows and two columns; [x] and [y] are
    either its column and row coordinates or grids of its shape. *)
Definition contour_shapes_fit (x y z : arraylike) : bool :=
  match shape_of z with
  | Some [ny; nx] =>
      (2 <=? ny)%nat && (2 <=? nx)%nat
      && match shape_of x, shape_of y with
         | Some [lx], Some [ly] => (lx =? nx)%nat && (ly =? ny)%nat
         | Some sx, Some sy => bool_decide (sx = [ny; nx]) && bool_decide (sy = [ny; nx])
         | _, _ => false
         end
  | _ => false
  end.

(** The colormaps of matplotlib and those seaborn registers when it is
    imported (line 2); each is also registered reversed, as [name_r]. *)
Definition colormap_names : list string :=
  ["viridis"; "plasma"; "inferno"; "magma"; "cividis";
   "Greys"; "Purples"; "Blues"; "Greens"; "Oranges"; "Reds";
   "YlOrBr"; "YlOrRd"; "OrRd"; "PuRd"; "RdPu"; "BuPu";
   "GnBu"; "PuBu"; "YlGnBu"; "PuBuGn"; "BuGn"; "YlGn";
   "binary"; "gist_yarg"; "gist_gray"; "gray"; "bone"; "pink";
   "spring"; "summer"; "autumn"; "winter"; "cool"; "Wistia";
   "hot"; "afmhot"; "gist_heat"; "copper";
   "PiYG"; "PRGn"; "BrBG"; "PuOr"; "RdGy"; "RdBu";
   "RdYlBu"; "RdYlGn"; "Spectral"; "coolwarm"; "bwr"; "seismic";
   "twilight"; "twilight_shifted"; "hsv";
   "Pastel1"; "Pastel2"; "Paired"; "Accent"; "Dark2";
   "Set1"; "Set2"; "Set3"; "tab10"; "tab20"; "tab20b"; "tab20c";
   "flag"; "prism"; "ocean"; "gist_earth"; "terrain"; "gist_stern";
   "gnuplot"; "gnuplot2"; "CMRmap"; "cubehelix"; "brg";
   "gist_rainbow"; "rainbow"; "jet"; "turbo"; "nipy_spectral"; "gist_ncar";
   "rocket"; "mako"; "icefire"; "vlag"; "flare"; "crest"].

Definition registered (name : string) : bool :=
  bound colormap_names name
  || existsb (fun base => String.eqb name (base ++ "_r")%string) colormap_names.

Definition mpl_host : Host :=
  {| rejects c :=
       match c with
       | CallContour _ _ x y z _ kw =>
           if has_value kw "colors" && has_value kw "cmap"
           then Some (ValueError "Either colors or cmap must be None")
           else if contour_shapes_fit x y z then None
           else Some TypeError
       | CallGetCmap name =>
           if registered name then None
           else Some (ValueError "not a valid value for name")
       | _ => None
       end;
     contour_collections _ _ _ _ _ _ :=
       [ {| level := 0%Q; alpha := None |};
         {| level := 1%Q; alpha := None |};
         {| level := 2%Q; alpha := None |} ] |}.

(** A session in which nothing was drawn yet; Axes 0 is the current one. *)
Definition blank_session : world :=
  {| heap := ∅; current_axes := 0; colorbars := []; trace := [] |}.

Definition xs : arraylike := PyList [Num 1%Q; Num 2%Q; Num 3%Q].
Definition ys : arraylike := NdArray [Num 1%Q; Num 2%Q; Num 3%Q].
Definition zs : arraylike :=
  NdArray [Row [Num 1%Q; Num 2%Q; Num 3%Q];
           Row [Num 2%Q; Num 4%Q; Num 6%Q];
           Row [Num 3%Q; Num 6%Q; Num 9%Q]].
Definition named_xs : arraylike := Series [Num 1%Q; Num 2%Q; Num 3%Q] (PStr "width").
Definition named_ys : arraylike := Series [Num 1%Q; Num 2%Q; Num 3%Q] (PStr "height").

(** [vis.contour_plot] as the module defines it, on the concrete host. *)
Definition session_plot := @contour_plot mpl_host module_globals.

(** * Reasoning about runs *)

(** ** The store *)

Lemma get_set_eq ax a w : get_axes (set_axes ax a w) ax = a.
Proof. unfold get_axes, set_axes; simpl. by rewrite lookup_insert_eq. Qed.

Lemma get_set_ne ax b a w : ax ≠ b → get_axes (set_axes ax a w) b = get_axes w b.
Proof. intros Hne. unfold get_axes, set_axes; simpl. by rewrite lookup_insert_ne. Qed.

Lemma get_log c w ax : get_axes (log_call c w) ax = get_axes w ax.
Proof. reflexivity. Qed.

Lemma get_add_colorbar cb w ax : get_axes (add_colorbar cb w) ax = get_axes w ax.
Proof. reflexivity. Qed.

Lemma set_set ax a b w : set_axes ax b (set_axes ax a w) = set_axes ax b w.
Proof. unfold set_axes; simpl. by rewrite insert_insert_eq. Qed.

Lemma trace_set ax a w : trace (set_axes ax a w) = trace w.
Proof. reflexivity. Qed.

Lemma trace_log c w : trace (log_call c w) = trace w ++ [c].
Proof. reflexivity. Qed.

Lemma trace_add_colorbar cb w : trace (add_colorbar cb w) = trace w.
Proof. reflexivity. Qed.

Lemma colorbars_set ax a w : colorbars (set_axes ax a w) = colorbars w.
Proof. reflexivity. Qed.

Lemma colorbars_log c w : colorbars (log_call c w) = colorbars w.
Proof. reflexivity. Qed.

Lemma colorbars_add cb w : colorbars (add_colorbar cb w) = colorbars w ++ [cb].
Proof. reflexivity. Qed.

Lemma current_set ax a w : current_axes (set_axes ax a w) = current_axes w.
Proof. reflexivity. Qed.

Lemma current_log c w : current_axes (log_call c w) = current_axes w.
Proof. reflexivity. Qed.

Lemma current_add_colorbar cb w : current_axes (add_colorbar cb w) = current_axes w.
Proof. reflexivity. Qed.

Create Rewrite HintDb world.
#[global] Hint Rewrite get_set_eq get_log get_add_colorbar set_set trace_set trace_log
  trace_add_colorbar colorbars_set colorbars_log colorbars_add current_set current_log
  current_add_colorbar : world.

(** ** The monad *)

Lemma bind_run {A B} (m : M A) (f : A → M B) w :
  (m ≫= f) w = match m w with
               | (w1, Returned a) => f a w1
               | (w1, Raised e) => (w1, Raised e)
               end.
Proof. reflexivity. Qed.

Lemma bind_returned {A B} (m : M A) (f : A → M B) w w' b :
  (m ≫= f) w = (w', Returned b) →
  ∃ a w1, m w = (w1, Returned a) ∧ f a w1 = (w', Returned b).
Proof.
  rewrite bind_run. destruct (m w) as [w1 [a|e]]; [eauto | discriminate].
Qed.

Lemma ret_run {A} (a : A) w : ret a w = (w, Returned a).
Proof. reflexivity. Qed.

Lemma mret_run {A} (a : A) w : (mret a : M A) w = (w, Returned a).
Proof. reflexivity. Qed.

Section Runs.
Context `{Host}.

Lemma host_call_run c w :
  host_call c w = (log_call c w,
                   match rejects c with Some e => Raised e | None => Returned tt end).
Proof. reflexivity. Qed.

Lemma advance_after_probe (x : artist) (a : axes) :
  with_artists (delete (length (artists a)) (artists (advance_cycle (add_artist x a))))
    (advance_cycle (add_artist x a)) = advance_cycle a.
Proof.
  destruct a as [l xl yl pc n]; unfold advance_cycle, add_artist, with_artists; simpl.
  f_equal. rewrite <- (app_nil_r l) at 3. apply delete_middle.
Qed.

(** The probe leaves no line behind; it costs the surface one colour of
    its cycle. *)
Lemma probe_color_run ax w :
  probe_color ax w =
    (set_axes ax (advance_cycle (get_axes w ax)) w,
     Returned (PStr (next_color (get_axes w ax)))).
Proof.
  unfold probe_color. rewrite bind_run. unfold ax_plot_auto.
  rewrite bind_run. unfold get_color. simpl fst; simpl snd.
  rewrite get_set_eq.
  assert (Hl : artists (advance_cycle
             (add_artist (Line2D [] [] (PStr (next_color (get_axes w ax))) PNone)
                (get_axes w ax))) !! length (artists (get_axes w ax))
          = Some (Line2D [] [] (PStr (next_color (get_axes w ax))) PNone)).
  { simpl. apply list_lookup_middle. reflexivity. }
  rewrite Hl. rewrite bind_run. unfold artist_remove. simpl fst; simpl snd.
  rewrite get_set_eq, set_set, advance_after_probe. reflexivity.
Qed.
End Runs.

(** ** Closed forms of the stages *)


Section Stages.
Context `{Host}.

Lemma add_then_insert (a : axes) (x y : artist) :
  with_artists (<[length (artists a) := y]> (artists (add_artist x a))) (add_artist x a)
  = add_artist y a.
Proof.
  unfold add_artist, with_artists; simpl. f_equal.
  rewrite insert_app_r_alt by lia. by rewrite Nat.sub_diag.
Qed.

Lemma draw_run ax f fl x y z lv kw w :
  draw ax f fl x y z lv kw w =
    let c := CallContour ax f x y z lv kw in
    let a := get_axes w ax in
    let cs := contour_collections f x y z lv kw in
    match rejects c with
    | Some e => (log_call c w, Raised e)
    | None =>
        if f && negb fl
        then match cs with
             | _ :: _ =>
                 (set_axes ax (add_artist (ContourSet f (hide_lowest cs)) a) (log_call c w),
                  Returned (ax, length (artists a)))
             | [] =>
                 (set_axes ax (add_artist (ContourSet f []) a) (log_call c w),
                  Raised IndexError)
             end
        else (set_axes ax (add_artist (ContourSet f cs) a) (log_call c w),
              Returned (ax, length (artists a)))
    end.
Proof.
  unfold draw, ax_contour. rewrite !bind_run, host_call_run.
  destruct (rejects _) as [e|]; [reflexivity|].
  cbv zeta. rewrite get_log.
  destruct (f && negb fl); [|reflexivity].
  unfold when. rewrite bind_run. unfold collection_set_alpha.
  cbn [fst snd]. rewrite get_set_eq.
  assert (Hl : ∀ X, artists (add_artist X (get_axes w ax)) !! length (artists (get_axes w ax))
                    = Some X).
  { intros X. simpl. by apply list_lookup_middle. }
  rewrite Hl. destruct (contour_collections f x y z lv kw) as [|c0 rest]; [reflexivity|].
  simpl lookup. cbv iota beta. rewrite set_set, add_then_insert. reflexivity.
Qed.

Lemma attach_colorbar_run cbar cset cax kws ax w :
  attach_colorbar cbar cset cax kws ax w =
    if cbar
    then let c := CallColorbar cset cax ax (default ∅ kws) in
         match rejects c with
         | Some e => (log_call c w, Raised e)
         | None =>
             (add_colorbar {| cb_mappable := cset; cb_cax := cax; cb_ax := ax;
                              cb_kws := default ∅ kws |} (log_call c w),
              Returned tt)
         end
    else (w, Returned tt).
Proof.
  unfold attach_colorbar, when. destruct cbar; [|reflexivity].
  unfold figure_colorbar. rewrite bind_run, host_call_run.
  by destruct (rejects _).
Qed.

(** Labelling never fails; it touches the labels of [ax] and nothing else. *)
Lemma label_axes_run ax x y axl w :
  ∃ w1, label_axes ax x y axl w = (w1, Returned tt)
        ∧ get_axes w1 ax = relabel axl x y (get_axes w ax)
        ∧ (∀ b, b ≠ ax → get_axes w1 b = get_axes w b)
        ∧ trace w1 = trace w ∧ colorbars w1 = colorbars w
        ∧ current_axes w1 = current_axes w.
Proof.
  unfold label_axes, relabel, when, set_xlabel, set_ylabel.
  rewrite bind_run.
  destruct (name_attr x) as [nx|], (name_attr y) as [ny|], axl; cbn;
    rewrite ?ret_run;
    eexists; (split; [reflexivity|]);
    autorewrite with world;
    repeat split; auto; intros b Hb; rewrite ?get_set_ne by auto; reflexivity.
Qed.
End Stages.

Section Legend.
Context `{Host}.


Lemma proxy_run ax (f : bool) lc label w :
  is_none lc = false →
  ((if f then ax_fill_between ax [] [] lc label;; ret tt
    else ax_plot ax [] [] lc label;; ret tt) : M unit) w
  = draw_proxy ax f lc label w.
Proof.
  intros Hlc. unfold draw_proxy, proxy_call, proxy_artist.
  destruct f; unfold ax_fill_between, ax_plot;
    rewrite !bind_run, host_call_run; destruct (rejects _); try reflexivity;
    rewrite ?Hlc; reflexivity.
Qed.

Lemma legend_proxy_run ax f color cmap label w :
  legend_proxy ax f color cmap label w =
    if is_none label then (w, Returned tt)
    else match color with
         | None => (w, Raised (UnboundLocalError "color"))
         | Some c =>
             if is_none c
             then match cmap with
                  | None => (w, Raised (UnboundLocalError "cmap"))
                  | Some m =>
                      if is_colormap m
                      then draw_proxy ax f (Sampled m (95 # 100)%Q) label w
                      else (w, Raised TypeError)
                  end
             else draw_proxy ax f c label w
         end.
Proof.
  unfold legend_proxy. destruct (is_none label); [reflexivity|].
  rewrite bind_run. destruct color as [c|]; [|reflexivity].
  cbn [load_local]. rewrite ret_run, bind_run.
  destruct (is_none c) eqn:Hc.
  - rewrite bind_run. destruct cmap as [m|]; [|reflexivity].
    cbn [load_local]. rewrite ret_run. unfold call_colormap.
    destruct (is_colormap m); [|reflexivity].
    rewrite ret_run. by apply proxy_run.
  - rewrite ret_run. by apply proxy_run.
Qed.
End Legend.

(** ** The colour branch *)

Section Colours.
Context `{Host}.
Variable G : list string.

Lemma load_global_run name w :
  load_global G name w =
    (w, if bound G name then Returned tt else Raised (NameError name)).
Proof. unfold load_global. by destruct (bound G name). Qed.

Lemma get_cmap_run name w :
  get_cmap name w =
    (log_call (CallGetCmap name) w,
     match rejects (CallGetCmap name) with
     | Some e => Raised e
     | None => Returned (NamedCmap name)
     end).
Proof.
  unfold get_cmap. rewrite bind_run, host_call_run. by destruct (rejects _).
Qed.


Lemma resolve_cmap_name_frame m w w2 r :
  resolve_cmap_name G m w = (w2, r) → only_looked_up w w2.
Proof.
  unfold resolve_cmap_name, color_palette, blend_palette, only_looked_up.
  rewrite bind_run, load_global_run.
  destruct (bound G "string_types"); [|intros [= <- _]; by left].
  destruct m; try (intros [= <- _]; by left).
  destruct (endswith s "_d").
  - rewrite !bind_run, load_global_run.
    destruct (bound G "color_palette"); [|intros [= <- _]; by left].
    rewrite ret_run, bind_run, load_global_run.
    destruct (bound G "blend_palette"); intros [= <- _]; by left.
  - rewrite bind_run, load_global_run.
    destruct (bound G "mpl"); [|intros [= <- _]; by left].
    rewrite get_cmap_run. intros [= <- _]. right; eauto.
Qed.

Lemma derive_cmap_frame f dc kw w w2 r :
  derive_cmap G f dc kw w = (w2, r) → only_looked_up w w2.
Proof.
  unfold derive_cmap, dict_pop. rewrite bind_run.
  set (m0 := if is_none _ then _ else _).
  assert (Hm0 : ∃ r0, m0 w = (w, r0)).
  { subst m0. destruct (is_none _); [|by eexists].
    destruct f; unfold light_palette, dark_palette;
      rewrite bind_run, load_global_run; destruct (bound G _); by eexists. }
  destruct Hm0 as [r0 ->]. destruct r0 as [m|e]; [|intros [= <- _]; by left].
  rewrite bind_run. destruct (resolve_cmap_name G m w) as [w1 [m'|e]] eqn:E;
    apply resolve_cmap_name_frame in E; by intros [= <- _].
Qed.

Lemma resolve_colors_frame f dc kw w w2 r :
  resolve_colors G f dc kw w = (w2, r) → only_looked_up w w2.
Proof.
  unfold resolve_colors, dict_pop. destruct (is_none _).
  - rewrite bind_run.
    destruct (derive_cmap G f dc (delete "colors" kw) w) as [w1 [[[c m] k]|e]] eqn:E;
      apply derive_cmap_frame in E; by intros [= <- _].
  - intros [= <- _]. by left.
Qed.

(** What a normal return of the colour stage says about the locals and
    the keywords that go on to the drawing call. *)
Lemma resolve_colors_returned f dc kw w w2 color cmap kwr :
  resolve_colors G f dc kw w = (w2, Returned (color, cmap, kwr)) →
  (is_none (default PNone (kw !! "colors")) = false
   ∧ color = None ∧ cmap = None ∧ w2 = w
   ∧ kwr = <["colors" := default PNone (kw !! "colors")]> (delete "colors" kw))
  ∨ (is_none (default PNone (kw !! "colors")) = true
     ∧ color = Some (default dc (kw !! "color"))
     ∧ ∃ m, cmap = Some m
            ∧ kwr = <["cmap" := m]> (delete "cmap" (delete "color" (delete "colors" kw)))).
Proof.
  unfold resolve_colors, dict_pop. destruct (is_none _).
  - intros Hr. right. split; [reflexivity|].
    apply bind_returned in Hr as ([[c m] k] & w1 & Hd & Hr).
    injection Hr as <- <- <- <-.
    unfold derive_cmap, dict_pop in Hd.
    apply bind_returned in Hd as (m0 & w3 & _ & Hd).
    apply bind_returned in Hd as (m1 & w4 & _ & Hd).
    injection Hd as <- <- <- <-.
    rewrite lookup_delete_ne by done. eauto.
  - intros [= <- <- <- <-]. left. auto.
Qed.
End Colours.

(** ** Runs of the two functions *)


Section Whole.
Context `{Host}.
Variable G : list string.

Lemma len_asarray x : len (np_asarray x) = len x.
Proof. by destruct x. Qed.

Lemma name_attr_asarray x : name_attr (np_asarray x) = name_attr x.
Proof. by destruct x. Qed.

Lemma name_attr_float64 x : name_attr (as_float64 x) = name_attr x.
Proof. by destruct x. Qed.

Lemma conversion_error_asarray x : conversion_error (np_asarray x) = conversion_error x.
Proof. by destruct x. Qed.

Lemma as_float64_asarray x : as_float64 (np_asarray x) = as_float64 x.
Proof. by destruct x. Qed.

(** Data without an entry has a shape and no number to overflow. *)
Lemma conversion_error_empty x : len x = 0 → conversion_error x = None.
Proof.
  unfold len, conversion_error, shape_of. intros Hx%nil_length_inv. by rewrite Hx.
Qed.

Lemma coerce_list_run x w :
  bound G "np" = true →
  coerce_list G x w
  = (w, if is_list x
        then match shape_of x with
             | Some _ => Returned (np_asarray x)
             | None => Raised (ValueError "setting an array element with a sequence")
             end
        else Returned x).
Proof.
  intros Hnp. unfold coerce_list. destruct (is_list x); [|reflexivity].
  rewrite bind_run, load_global_run, Hnp. by destruct (shape_of x).
Qed.

Lemma astype_float64_run x w :
  bound G "np" = true →
  astype_float64 G (np_asarray x) w
  = (w, match conversion_error x with
        | Some e => Raised e
        | None => Returned (as_float64 x)
        end).
Proof.
  intros Hnp. rewrite <- (conversion_error_asarray x), <- (as_float64_asarray x).
  destruct x; cbn [np_asarray astype_float64];
    rewrite bind_run, load_global_run, Hnp; by destruct (conversion_error _).
Qed.

(** Lines 118-120 and 121-123: a list becomes an array, the array becomes
    a float64 array, or numpy raises. *)
Lemma convert_run {A} x (k : arraylike → M A) w :
  bound G "np" = true →
  (a ← coerce_list G x; b ← astype_float64 G a; k b) w
  = match conversion_error x with
    | Some e => (w, Raised e)
    | None => k (as_float64 x) w
    end.
Proof.
  intros Hnp. rewrite bind_run, coerce_list_run by done.
  destruct (is_list x) eqn:Hl.
  - destruct x as [l| |]; try discriminate.
    unfold conversion_error. destruct (shape_of (PyList l)) eqn:Hs; [|reflexivity].
    rewrite bind_run, astype_float64_run by done.
    unfold conversion_error. rewrite Hs. by destruct (existsb _ _).
  - replace x with (np_asarray x) at 1 by (by destruct x).
    rewrite bind_run, astype_float64_run by done.
    by destruct (conversion_error x).
Qed.

(** The entry point: the target surface is settled; an empty [x] ends the
    call at once; otherwise the inputs become float64 arrays and the
    keywords are handed on, unless numpy refuses an input or a keyword
    names a parameter of [_contour_plot]. *)
Lemma contour_plot_run x y z sh lg sl cbar cax ckw ax kwargs w :
  bound G "plt" = true → bound G "np" = true →
  contour_plot G x y z sh lg sl cbar cax ckw ax kwargs w =
    if decide (len x = 0)
    then (w, Returned (default (current_axes w) ax))
    else match arguments_error x y z kwargs with
         | Some e => (w, Raised e)
         | None =>
             _contour_plot G (as_float64 x) (as_float64 y) (as_float64 z)
               sh sl lg cbar cax ckw (default (current_axes w) ax) kwargs w
         end.
Proof.
  intros Hplt Hnp. unfold contour_plot. rewrite bind_run.
  assert (Hax : (match ax with
                 | Some a => ret a
                 | None => load_global G "plt";; plt_gca
                 end : M surface) w = (w, Returned (default (current_axes w) ax))).
  { destruct ax; [reflexivity|]. by rewrite bind_run, load_global_run, Hplt. }
  rewrite Hax, bind_run, coerce_list_run by done.
  destruct (decide (len x = 0)) as [Hx|Hx].
  { pose proof (conversion_error_empty x Hx) as Hc.
    unfold conversion_error in Hc. destruct (shape_of x); [|done].
    destruct (is_list x); rewrite ?len_asarray; by destruct (decide (len _ = 0)). }
  unfold arguments_error.
  assert (Hrest : ∀ a, a = np_asarray x →
    (if decide (len a = 0) then ret (default (current_axes w) ax)
     else x0 ← astype_float64 G a;
          y0 ← coerce_list G y; y1 ← astype_float64 G y0;
          z0 ← coerce_list G z; z1 ← astype_float64 G z0;
          if collides kwargs then raise TypeError
          else _contour_plot G x0 y1 z1 sh sl lg cbar cax ckw
                 (default (current_axes w) ax) kwargs) w
    = match conversion_error x with
      | Some e => (w, Raised e)
      | None =>
          match conversion_error y with
          | Some e => (w, Raised e)
          | None =>
              match conversion_error z with
              | Some e => (w, Raised e)
              | None =>
                  if collides kwargs then (w, Raised TypeError)
                  else _contour_plot G (as_float64 x) (as_float64 y) (as_float64 z)
                         sh sl lg cbar cax ckw (default (current_axes w) ax) kwargs w
              end
          end
      end).
  { intros a ->. rewrite len_asarray. destruct (decide (len x = 0)); [done|].
    rewrite bind_run, astype_float64_run by done.
    destruct (conversion_error x); [reflexivity|].
    rewrite convert_run by done. destruct (conversion_error y); [reflexivity|].
    rewrite convert_run by done. destruct (conversion_error z); [reflexivity|].
    by destruct (collides kwargs). }
  destruct (is_list x) eqn:Hl.
  - unfold conversion_error at 1. destruct (shape_of x) eqn:Hs; [|reflexivity].
    rewrite (Hrest _ eq_refl). unfold conversion_error at 1. rewrite Hs.
    destruct (existsb _ _); [reflexivity|].
    destruct (conversion_error y); [reflexivity|].
    destruct (conversion_error z); [reflexivity|]. by destruct (collides kwargs).
  - rewrite (Hrest x) by (by destruct x).
    destruct (conversion_error x); [reflexivity|].
    destruct (conversion_error y); [reflexivity|].
    destruct (conversion_error z); [reflexivity|]. by destruct (collides kwargs).
Qed.

(** Everything a normal return of [_contour_plot] leaves behind. *)
Lemma _contour_plot_returned x y z f fl axl cbar cax ckw ax kwargs w w' r :
  _contour_plot G x y z f fl axl cbar cax ckw ax kwargs w = (w', Returned r) →
  ∃ w2 color cmap kwr,
    let a0 := get_axes w ax in
    let lv := default (PNum (10 # 1)%Q) (kwargs !! "n_levels") in
    let label := default PNone (kwr !! "label") in
    let kw := delete "label" kwr in
    let cs := contour_collections f x y z lv kw in
    let drawn := if f && negb fl then hide_lowest cs else cs in
    let cset := (ax, length (artists a0)) in
    let base := relabel axl x y (add_artist (ContourSet f drawn) (advance_cycle a0)) in
    let calls :=
      CallContour ax f x y z lv kw
      :: (if cbar then [CallColorbar cset cax ax (default ∅ ckw)] else []) in
    r = ax
    ∧ resolve_colors G f (PStr (next_color a0)) (delete "n_levels" kwargs)
        (set_axes ax (advance_cycle a0) w) = (w2, Returned (color, cmap, kwr))
    ∧ rejects (CallContour ax f x y z lv kw) = None
    ∧ (f && negb fl = true → cs ≠ [])
    ∧ ((is_none label = true
        ∧ get_axes w' ax = base ∧ trace w' = trace w2 ++ calls)
       ∨ (is_none label = false
          ∧ ∃ lc, legend_color color cmap = Some lc
                  ∧ rejects (proxy_call ax f lc label) = None
                  ∧ get_axes w' ax = add_artist (proxy_artist f lc label) base
                  ∧ trace w' = trace w2 ++ calls ++ [proxy_call ax f lc label])).
Proof.
  unfold _contour_plot, dict_pop. cbv beta iota zeta. intros Hrun.
  apply bind_returned in Hrun as (dc & w1 & Hp & Hrun).
  rewrite probe_color_run in Hp. injection Hp as <- <-.
  apply bind_returned in Hrun as ([[color cmap] kwr] & w2 & Hres & Hrun).
  cbv beta iota zeta in Hrun.
  apply bind_returned in Hrun as (cset & w3 & Hd & Hrun).
  apply bind_returned in Hrun as ([] & w4 & Hcb & Hrun).
  apply bind_returned in Hrun as ([] & w5 & Hlab & Hrun).
  apply bind_returned in Hrun as ([] & w6 & Hleg & Hrun).
  injection Hrun as <- <-.
  exists w2, color, cmap, kwr. cbv zeta.
  split; [reflexivity|]. split; [exact Hres|].
  (* the surface is as the probe left it when the drawing starts *)
  assert (Hax2 : get_axes w2 ax = advance_cycle (get_axes w ax)).
  { apply resolve_colors_frame in Hres as [->|[n ->]];
      by rewrite ?get_log, get_set_eq. }
  rewrite draw_run in Hd. cbv zeta in Hd. rewrite Hax2 in Hd.
  destruct (rejects (CallContour _ _ _ _ _ _ _)) as [e|] eqn:Hacc; [discriminate|].
  split; [reflexivity|].
  set (cs := contour_collections f x y z _ _) in *.
  set (drawn := if f && negb fl then hide_lowest cs else cs).
  assert (Hd' : (f && negb fl = true → cs ≠ [])
                ∧ cset = (ax, length (artists (get_axes w ax)))
                ∧ get_axes w3 ax = add_artist (ContourSet f drawn) (advance_cycle (get_axes w ax))
                ∧ trace w3 = trace w2 ++ [CallContour ax f x y z
                                (default (PNum (10 # 1)%Q) (kwargs !! "n_levels"))
                                (delete "label" kwr)]).
  { subst drawn. destruct (f && negb fl).
    - destruct cs as [|c0 rest]; [discriminate|].
      injection Hd as <- <-. autorewrite with world. by repeat split.
    - injection Hd as <- <-. autorewrite with world. by repeat split. }
  destruct Hd' as (Hne & -> & Hax3 & Htr3). split; [exact Hne|].
  rewrite attach_colorbar_run in Hcb.
  assert (Hcb' : get_axes w4 ax = get_axes w3 ax
                 ∧ trace w4 = trace w3 ++
                     (if cbar
                      then [CallColorbar (ax, length (artists (get_axes w ax))) cax ax
                              (default ∅ ckw)]
                      else [])).
  { destruct cbar.
    - cbv zeta in Hcb. destruct (rejects (CallColorbar _ _ _ _)); [discriminate|].
      injection Hcb as <-. by autorewrite with world.
    - injection Hcb as <-. by rewrite app_nil_r. }
  destruct Hcb' as (Hax4 & Htr4).
  destruct (label_axes_run ax x y axl w4) as (w5' & E & Hax5 & _ & Htr5 & _).
  rewrite E in Hlab. injection Hlab as <-.
  rewrite Hax4, Hax3 in Hax5. rewrite Htr4, Htr3, <- app_assoc in Htr5.
  rewrite legend_proxy_run in Hleg. unfold legend_color.
  destruct (is_none (default PNone (kwr !! "label"))).
  { injection Hleg as <-. left. by repeat split. }
  right. split; [reflexivity|].
  assert (Hdp : ∀ lc, draw_proxy ax f lc (default PNone (kwr !! "label")) w5'
                      = (w6, Returned ()) →
                rejects (proxy_call ax f lc (default PNone (kwr !! "label"))) = None
                ∧ get_axes w6 ax = add_artist (proxy_artist f lc (default PNone (kwr !! "label")))
                                     (get_axes w5' ax)
                ∧ trace w6 = trace w5' ++ [proxy_call ax f lc (default PNone (kwr !! "label"))]).
  { intros lc. unfold draw_proxy. cbv zeta.
    destruct (rejects (proxy_call ax f lc _)); [discriminate|].
    intros [= Hw6]. rewrite <- Hw6. by autorewrite with world. }
  destruct color as [c|]; [|discriminate].
  destruct (is_none c).
  - destruct cmap as [m|]; [|discriminate].
    destruct (is_colormap m); [|discriminate].
    apply Hdp in Hleg as (Hok & Hax6 & Htr6). eexists; split; [reflexivity|].
    rewrite Hax6, Htr6, Hax5, Htr5, <- app_assoc. auto.
  - apply Hdp in Hleg as (Hok & Hax6 & Htr6). eexists; split; [reflexivity|].
    rewrite Hax6, Htr6, Hax5, Htr5, <- app_assoc. auto.
Qed.

(** The colorbars of the figure after a normal return. *)
Lemma _contour_plot_colorbars x y z f fl axl cbar cax ckw ax kwargs w w' r :
  _contour_plot G x y z f fl axl cbar cax ckw ax kwargs w = (w', Returned r) →
  colorbars w'
  = colorbars w
    ++ (if cbar
        then [{| cb_mappable := (ax, length (artists (get_axes w ax)));
                 cb_cax := cax; cb_ax := ax; cb_kws := default ∅ ckw |}]
        else []).
Proof.
  unfold _contour_plot, dict_pop. cbv beta iota zeta. intros Hrun.
  apply bind_returned in Hrun as (dc & w1 & Hp & Hrun).
  rewrite probe_color_run in Hp. injection Hp as <- <-.
  apply bind_returned in Hrun as ([[color cmap] kwr] & w2 & Hres & Hrun).
  cbv beta iota zeta in Hrun.
  apply bind_returned in Hrun as (cset & w3 & Hd & Hrun).
  apply bind_returned in Hrun as ([] & w4 & Hcb & Hrun).
  apply bind_returned in Hrun as ([] & w5 & Hlab & Hrun).
  apply bind_returned in Hrun as ([] & w6 & Hleg & Hrun).
  injection Hrun as <- <-.
  assert (H2 : colorbars w2 = colorbars w
               ∧ get_axes w2 ax = advance_cycle (get_axes w ax)).
  { apply resolve_colors_frame in Hres as [->|[n ->]];
      by rewrite ?get_log, get_set_eq. }
  destruct H2 as (Hc2 & Hax2).
  rewrite draw_run in Hd. cbv zeta in Hd. rewrite Hax2 in Hd.
  assert (H3 : colorbars w3 = colorbars w2
               ∧ cset = (ax, length (artists (get_axes w ax)))).
  { destruct (rejects (CallContour _ _ _ _ _ _ _)); [discriminate|].
    destruct (f && negb fl).
    - destruct (contour_collections _ _ _ _ _ _); [discriminate|].
      by injection Hd as <- <-.
    - by injection Hd as <- <-. }
  destruct H3 as (Hc3 & ->).
  rewrite attach_colorbar_run in Hcb.
  assert (H4 : colorbars w4
               = colorbars w3
                 ++ (if cbar
                     then [{| cb_mappable := (ax, length (artists (get_axes w ax)));
                              cb_cax := cax; cb_ax := ax; cb_kws := default ∅ ckw |}]
                     else [])).
  { destruct cbar.
    - cbv zeta in Hcb. destruct (rejects (CallColorbar _ _ _ _)); [discriminate|].
      by injection Hcb as <-.
    - injection Hcb as <-. by rewrite app_nil_r. }
  destruct (label_axes_run ax x y axl w4) as (w5' & E & _ & _ & _ & Hc5 & _).
  rewrite E in Hlab. injection Hlab as <-.
  assert (H6 : colorbars w6 = colorbars w5').
  { rewrite legend_proxy_run in Hleg. unfold draw_proxy in Hleg. cbv zeta in Hleg.
    destruct (is_none _); [by injection Hleg as <-|].
    destruct color as [c|]; [|discriminate].
    destruct (is_none c).
    - destruct cmap as [m|]; [|discriminate].
      destruct (is_colormap m); [|discriminate].
      destruct (rejects (proxy_call ax f _ _)); [discriminate|]. by injection Hleg as <-.
    - destruct (rejects (proxy_call ax f _ _)); [discriminate|]. by injection Hleg as <-. }
  by rewrite H6, Hc5, H4, Hc3, Hc2.
Qed.
End Whole.

(** ** What a run may add to the trace, whatever its outcome *)


Lemma logs_quiet {A} P (m : M A) : (∀ w, trace (m w).1 = trace w) → logs P m.
Proof. intros Hq w. exists []. by rewrite Hq, app_nil_r. Qed.

Lemma logs_ret {A} P (a : A) : logs P (ret a).
Proof. by apply logs_quiet. Qed.

Lemma logs_mret {A} P (a : A) : logs P (mret a : M A).
Proof. by apply logs_quiet. Qed.

Lemma logs_raise {A} P e : logs P (@raise A e).
Proof. by apply logs_quiet. Qed.

Lemma logs_bind {A B} P (m : M A) (f : A → M B) :
  logs P m → (∀ a, logs P (f a)) → logs P (m ≫= f).
Proof.
  intros Hm Hf w. rewrite bind_run.
  destruct (Hm w) as (n1 & E1 & F1). destruct (m w) as [w1 [a|e]]; simpl in *.
  - destruct (Hf a w1) as (n2 & E2 & F2). exists (n1 ++ n2).
    rewrite E2, E1, app_assoc. split; [done | by apply Forall_app].
  - eauto.
Qed.

Section Logs.
Context `{Host}.
Variable G : list string.
Variable P : call → Prop.

Lemma logs_host_call c : P c → logs P (host_call c).
Proof. intros Hc w. exists [c]. split; [reflexivity | by constructor]. Qed.

Lemma logs_load_global name : logs P (load_global G name).
Proof. apply logs_quiet. intros w. by rewrite load_global_run. Qed.

Lemma logs_load_local name v : logs P (load_local name v).
Proof. destruct v; [apply logs_ret | apply logs_raise]. Qed.

Lemma logs_probe_color ax : logs P (probe_color ax).
Proof. apply logs_quiet. intros w. by rewrite probe_color_run. Qed.

Lemma logs_coerce_list a : logs P (coerce_list G a).
Proof.
  unfold coerce_list. destruct (is_list a); [|apply logs_ret].
  apply logs_bind; [apply logs_load_global | intros _].
  destruct (shape_of a); [apply logs_ret | apply logs_raise].
Qed.

Lemma logs_astype_float64 a : logs P (astype_float64 G a).
Proof.
  destruct a; [apply logs_raise | |];
    (apply logs_bind; [apply logs_load_global | intros _];
     destruct (conversion_error _); [apply logs_raise | apply logs_ret]).
Qed.

Lemma logs_label_axes ax x y axl : logs P (label_axes ax x y axl).
Proof.
  apply logs_quiet. intros w.
  destruct (label_axes_run ax x y axl w) as (w1 & E & _ & _ & Htr & _).
  by rewrite E.
Qed.

(** Colormap lookups are the only calls the colour stage makes. *)
Lemma logs_resolve_colors f dc kw :
  (∀ name, P (CallGetCmap name)) → logs P (resolve_colors G f dc kw).
Proof.
  intros HP w.
  destruct (resolve_colors G f dc kw w) as [w2 r] eqn:E.
  apply resolve_colors_frame in E as [->|[n ->]]; simpl.
  - exists []. by rewrite app_nil_r.
  - exists [CallGetCmap n]. split; [done | by constructor].
Qed.

Lemma logs_draw ax f fl x y z lv kw :
  P (CallContour ax f x y z lv kw) → logs P (draw ax f fl x y z lv kw).
Proof.
  intros HP w. exists [CallContour ax f x y z lv kw].
  split; [|by constructor].
  rewrite draw_run. cbv zeta.
  destruct (rejects _); [done|].
  destruct (f && negb fl); [|done].
  by destruct (contour_collections _ _ _ _ _ _).
Qed.

Lemma logs_attach_colorbar cbar cset cax kws ax :
  (∀ c, P (CallColorbar cset cax ax c)) → logs P (attach_colorbar cbar cset cax kws ax).
Proof.
  intros HP w. rewrite attach_colorbar_run. destruct cbar.
  - exists [CallColorbar cset cax ax (default ∅ kws)].
    split; [|by constructor]. cbv zeta. by destruct (rejects _).
  - exists []. by rewrite app_nil_r.
Qed.

Lemma logs_legend_proxy ax f color cmap label :
  (∀ c, P (proxy_call ax f c label)) → logs P (legend_proxy ax f color cmap label).
Proof.
  intros HP w. rewrite legend_proxy_run.
  assert (Hq : ∃ new, trace w = trace w ++ new ∧ Forall P new).
  { exists []. by rewrite app_nil_r. }
  assert (Hd : ∀ lc, ∃ new, trace (draw_proxy ax f lc label w).1 = trace w ++ new
                            ∧ Forall P new).
  { intros lc. exists [proxy_call ax f lc label]. split; [|by constructor].
    unfold draw_proxy. cbv zeta. by destruct (rejects _). }
  destruct (is_none label); [exact Hq|].
  destruct color as [c|]; [|exact Hq].
  destruct (is_none c); [|apply Hd].
  destruct cmap as [m|]; [|exact Hq].
  destruct (is_colormap m); [apply Hd | exact Hq].
Qed.
End Logs.

Section WholeLogs.
Context `{Host}.
Variable G : list string.
Variable P : call → Prop.
Hypothesis P_get_cmap : ∀ name, P (CallGetCmap name).
Hypothesis P_colorbar : ∀ cset cax ax kw, P (CallColorbar cset cax ax kw).
Hypothesis P_plot : ∀ ax xs ys c l, P (CallPlot ax xs ys c l).
Hypothesis P_fill : ∀ ax xs ys c l, P (CallFillBetween ax xs ys c l).

Lemma P_proxy ax f c l : P (proxy_call ax f c l).
Proof. destruct f; [apply P_fill | apply P_plot]. Qed.

(** Lines 170-187 *)
Lemma logs_after_draw cbar cset cax ckw ax x y axl f color cmap label :
  logs P (attach_colorbar cbar cset cax ckw ax;;
          label_axes ax x y axl;;
          legend_proxy ax f color cmap label;;
          ret ax).
Proof.
  apply logs_bind; [by apply logs_attach_colorbar | intros _].
  apply logs_bind; [apply logs_label_axes | intros _].
  apply logs_bind; [apply logs_legend_proxy; intros; apply P_proxy | intros _].
  apply logs_ret.
Qed.

Hypothesis P_contour :
  ∀ ax f x y z lv kw, kw !! "label" = None → P (CallContour ax f x y z lv kw).

Lemma logs__contour_plot x y z f fl axl cbar cax ckw ax kwargs :
  logs P (_contour_plot G x y z f fl axl cbar cax ckw ax kwargs).
Proof.
  unfold _contour_plot, dict_pop. cbv beta iota zeta.
  apply logs_bind; [apply logs_probe_color | intros dc].
  apply logs_bind; [by apply logs_resolve_colors | intros [[color cmap] kwr]].
  cbv beta iota zeta.
  apply logs_bind; [|intros cset; apply logs_after_draw].
  apply logs_draw, P_contour, lookup_delete_eq.
Qed.

Lemma logs_contour_plot x y z sh lg sl cbar cax ckw ax kwargs :
  logs P (contour_plot G x y z sh lg sl cbar cax ckw ax kwargs).
Proof.
  unfold contour_plot.
  apply logs_bind.
  { destruct ax; [apply logs_ret|].
    apply logs_bind; [apply logs_load_global | intros _; by apply logs_quiet]. }
  intros tgt. apply logs_bind; [apply logs_coerce_list | intros x'].
  destruct (decide (len x' = 0)); [apply logs_ret|].
  apply logs_bind; [apply logs_astype_float64 | intros x''].
  apply logs_bind; [apply logs_coerce_list | intros y'].
  apply logs_bind; [apply logs_astype_float64 | intros y''].
  apply logs_bind; [apply logs_coerce_list | intros z'].
  apply logs_bind; [apply logs_astype_float64 | intros z''].
  destruct (collides kwargs); [apply logs_raise | apply logs__contour_plot].
Qed.
End WholeLogs.


(** * The module as written: properties of [contour_plot] *)

Lemma is_none_false v : v ≠ PNone → is_none v = false.
Proof. by destruct v. Qed.

Lemma xlabel_relabel axl x y a :
  xlabel (relabel axl x y a)
  = match name_attr x with
    | Some n => if axl then Some n else xlabel a
    | None => xlabel a
    end.
Proof. unfold relabel. by destruct (name_attr x), (name_attr y), axl. Qed.

Lemma ylabel_relabel axl x y a :
  ylabel (relabel axl x y a)
  = match name_attr y with
    | Some n => if axl then Some n else ylabel a
    | None => ylabel a
    end.
Proof. unfold relabel. by destruct (name_attr x), (name_attr y), axl. Qed.

Lemma artists_relabel axl x y a : artists (relabel axl x y a) = artists a.
Proof. unfold relabel. by destruct (name_attr x), (name_attr y), axl. Qed.

Lemma artists_add p a : artists (add_artist p a) = artists a ++ [p].
Proof. reflexivity. Qed.

Lemma xlabel_add p a : xlabel (add_artist p a) = xlabel a.
Proof. reflexivity. Qed.

Lemma ylabel_add p a : ylabel (add_artist p a) = ylabel a.
Proof. reflexivity. Qed.

Lemma artists_advance a : artists (advance_cycle a) = artists a.
Proof. reflexivity. Qed.

Lemma xlabel_advance a : xlabel (advance_cycle a) = xlabel a.
Proof. reflexivity. Qed.

Lemma ylabel_advance a : ylabel (advance_cycle a) = ylabel a.
Proof. reflexivity. Qed.

Lemma cycle_pos_relabel axl x y a : cycle_pos (relabel axl x y a) = cycle_pos a.
Proof. unfold relabel. by destruct (name_attr x), (name_attr y), axl. Qed.

Lemma prop_cycle_relabel axl x y a : prop_cycle (relabel axl x y a) = prop_cycle a.
Proof. unfold relabel. by destruct (name_attr x), (name_attr y), axl. Qed.

Lemma cycle_pos_add p a : cycle_pos (add_artist p a) = cycle_pos a.
Proof. reflexivity. Qed.

Lemma prop_cycle_add p a : prop_cycle (add_artist p a) = prop_cycle a.
Proof. reflexivity. Qed.

Lemma cycle_pos_advance a : cycle_pos (advance_cycle a) = S (cycle_pos a).
Proof. reflexivity. Qed.

Lemma prop_cycle_advance a : prop_cycle (advance_cycle a) = prop_cycle a.
Proof. reflexivity. Qed.

Create Rewrite HintDb axes.
#[global] Hint Rewrite xlabel_relabel ylabel_relabel artists_relabel artists_add
  xlabel_add ylabel_add artists_advance xlabel_advance ylabel_advance
  cycle_pos_relabel prop_cycle_relabel cycle_pos_add prop_cycle_add
  cycle_pos_advance prop_cycle_advance : axes.

Section Outcomes.
Context `{Host}.

(** A normal return on the drawing path, read through [_contour_plot]. *)
Lemma drawing_path x y z sh lg sl cbar cax ckw ax kwargs w w' r :
  contour_plot module_globals x y z sh lg sl cbar cax ckw ax kwargs w = (w', Returned r) →
  len x ≠ 0 →
  _contour_plot module_globals (as_float64 x) (as_float64 y) (as_float64 z)
    sh sl lg cbar cax ckw (default (current_axes w) ax) kwargs w = (w', Returned r).
Proof.
  intros Hrun Hx. rewrite contour_plot_run in Hrun by reflexivity.
  destruct (decide (len x = 0)); [done|].
  by destruct (arguments_error x y z kwargs).
Qed.

(** The drawing path, for arguments that numpy and line 125 accept. *)
Lemma contour_plot_drawing x y z sh lg sl cbar cax ckw ax kwargs w :
  len x ≠ 0 → arguments_error x y z kwargs = None →
  contour_plot module_globals x y z sh lg sl cbar cax ckw ax kwargs w
  = _contour_plot module_globals (as_float64 x) (as_float64 y) (as_float64 z)
      sh sl lg cbar cax ckw (default (current_axes w) ax) kwargs w.
Proof.
  intros Hx Hargs. rewrite contour_plot_run by reflexivity.
  destruct (decide (len x = 0)); [done|]. by rewrite Hargs.
Qed.

(** A call that returns had arguments numpy and line 125 accept. *)
Lemma returned_arguments x y z sh lg sl cbar cax ckw ax kwargs w w' r :
  contour_plot module_globals x y z sh lg sl cbar cax ckw ax kwargs w = (w', Returned r) →
  len x ≠ 0 →
  arguments_error x y z kwargs = None.
Proof.
  intros Hrun Hx. rewrite contour_plot_run in Hrun by reflexivity.
  destruct (decide (len x = 0)); [done|].
  by destruct (arguments_error x y z kwargs).
Qed.

(** C7.  When [x] has no element once it is an array, the call returns
    the target surface and leaves the whole session as it was: nothing is
    drawn, no colorbar is attached, no axis label is set and no legend
    proxy is added. *)
Theorem empty_input_leaves_surface_untouched
    x y z sh lg sl cbar cax ckw ax kwargs w :
  len (np_asarray x) = 0 →
  contour_plot module_globals x y z sh lg sl cbar cax ckw ax kwargs w
  = (w, Returned (default (current_axes w) ax)).
Proof.
  rewrite len_asarray. intros Hx. rewrite contour_plot_run by reflexivity.
  by destruct (decide (len x = 0)).
Qed.

(** C8.  After a call that drew and returned, the x label is the [name]
    of [x] when [legend] is true and [x] has that attribute, and is what it
    was before otherwise; likewise for the y label and [y]. *)
Theorem axis_labels_follow_names
    x y z sh lg sl cbar cax ckw ax kwargs w w' r :
  contour_plot module_globals x y z sh lg sl cbar cax ckw ax kwargs w = (w', Returned r) →
  len x ≠ 0 →
  xlabel (get_axes w' r)
  = match name_attr x with
    | Some n => if lg then Some n else xlabel (get_axes w r)
    | None => xlabel (get_axes w r)
    end
  ∧ ylabel (get_axes w' r)
    = match name_attr y with
      | Some n => if lg then Some n else ylabel (get_axes w r)
      | None => ylabel (get_axes w r)
      end.
Proof.
  intros Hrun Hx. apply drawing_path in Hrun; [|done].
  apply _contour_plot_returned in Hrun
    as (w2 & c & m & kwr & -> & _ & _ & _ & Hend).
  cbv zeta in Hend.
  destruct Hend as [(_ & -> & _)|(_ & lc & _ & _ & -> & _)];
    autorewrite with axes; by rewrite !name_attr_float64.
Qed.

(** C3.  After a filled call with [shade_lowest=False] that drew and
    returned, the contour set on the surface is the one matplotlib
    computed for the call, every collection included, with the opacity of
    the first one set to zero and the others as computed. *)
Theorem lowest_band_made_transparent
    x y z lg cbar cax ckw ax kwargs w w' r :
  contour_plot module_globals x y z true lg false cbar cax ckw ax kwargs w
  = (w', Returned r) →
  len x ≠ 0 →
  ∃ kw c0 rest proxies,
    let lv := default (PNum (10 # 1)%Q) (kwargs !! "n_levels") in
    let cc := CallContour r true (as_float64 x) (as_float64 y) (as_float64 z) lv kw in
    cc ∈ trace w'
    ∧ rejects cc = None
    ∧ contour_collections true (as_float64 x) (as_float64 y) (as_float64 z) lv kw
      = c0 :: rest
    ∧ artists (get_axes w' r)
      = artists (get_axes w r)
        ++ ContourSet true ({| level := level c0; alpha := Some 0%Q |} :: rest)
        :: proxies.
Proof.
  intros Hrun Hx. apply drawing_path in Hrun; [|done].
  apply _contour_plot_returned in Hrun
    as (w2 & c & m & kwr & -> & _ & Hacc & Hne & Hend).
  cbv zeta in Hend, Hne. specialize (Hne eq_refl).
  destruct (contour_collections _ _ _ _ _ _) as [|c0 rest] eqn:Hcs; [done|].
  exists (delete "label" kwr), c0, rest.
  destruct Hend as [(_ & Hax & Htr)|(_ & lc & _ & _ & Hax & Htr)].
  - exists []. cbv zeta. rewrite Htr, Hax, Hcs. autorewrite with axes.
    repeat split; [set_solver | done..].
  - eexists [_]. cbv zeta. rewrite Htr, Hax, Hcs. autorewrite with axes.
    rewrite <- app_assoc. repeat split; [set_solver | done..].
Qed.
End Outcomes.

(** ** The colour stage, branch by branch *)

Section Branches.
Context `{Host}.
Variable G : list string.

(** An explicit colour list: nothing is derived, the list is stored back
    and every other keyword stays where it was. *)
Lemma resolve_colors_discrete f dc kw w cs :
  kw !! "colors" = Some cs → cs ≠ PNone →
  resolve_colors G f dc kw w
  = (w, Returned (None, None, <["colors" := cs]> (delete "colors" kw))).
Proof.
  intros Hcs Hne. unfold resolve_colors, dict_pop. rewrite Hcs.
  change (default PNone (Some cs)) with cs. by rewrite (is_none_false _ Hne).
Qed.

Lemma resolve_colors_absent f dc kw w :
  is_none (default PNone (kw !! "colors")) = true →
  resolve_colors G f dc kw w
  = match derive_cmap G f dc (delete "colors" kw) w with
    | (w1, Returned (color, cmap, kwr)) => (w1, Returned (Some color, Some cmap, kwr))
    | (w1, Raised e) => (w1, Raised e)
    end.
Proof.
  intros Hcs. unfold resolve_colors, dict_pop. rewrite Hcs, bind_run.
  by destruct (derive_cmap _ _ _ _ _) as [w1 [[[c m] k]|e]].
Qed.

(** No [cmap] given: the palette helper for the mode is called by name. *)
Lemma derive_cmap_from_colour f dc kw w :
  is_none (default PNone (kw !! "cmap")) = true →
  derive_cmap G f dc kw w
  = (w,
     let helper := if f then "light_palette" else "dark_palette" in
     let color := default dc (kw !! "color") in
     let cm := if f then LightPalette color else DarkPalette color in
     if bound G helper
     then if bound G "string_types"
          then Returned (color, cm, <["cmap" := cm]> (delete "cmap" (delete "color" kw)))
          else Raised (NameError "string_types")
     else Raised (NameError helper)).
Proof.
  intros Hcm. unfold derive_cmap, dict_pop.
  rewrite lookup_delete_ne by done. rewrite Hcm, bind_run.
  destruct f; unfold light_palette, dark_palette;
    rewrite bind_run, load_global_run; cbv zeta;
    (destruct (bound G _); [|reflexivity]);
    rewrite mret_run, bind_run; unfold resolve_cmap_name;
    rewrite bind_run, load_global_run;
    by destruct (bound G "string_types").
Qed.

Lemma resolve_cmap_name_reversed name w :
  endswith name "_d" = true →
  resolve_cmap_name G (PStr name) w
  = (w,
     let base := str_replace name "_d" "_r" in
     if bound G "string_types"
     then if bound G "color_palette"
          then if bound G "blend_palette"
               then Returned (BlendPalette [PStr "#333333"; PaletteColor base 2 0;
                                            PaletteColor base 2 1])
               else Raised (NameError "blend_palette")
          else Raised (NameError "color_palette")
     else Raised (NameError "string_types")).
Proof.
  intros Hd. unfold resolve_cmap_name. rewrite bind_run, load_global_run. cbv zeta.
  destruct (bound G "string_types"); [|reflexivity].
  rewrite Hd. unfold color_palette, blend_palette.
  rewrite !bind_run, load_global_run.
  destruct (bound G "color_palette"); [|reflexivity].
  rewrite mret_run, bind_run, load_global_run.
  by destruct (bound G "blend_palette").
Qed.

(** A name with the reversal suffix: the blend is built by two more
    helpers called by name. *)
Lemma derive_cmap_reversed f dc kw w name :
  kw !! "cmap" = Some (PStr name) → endswith name "_d" = true →
  derive_cmap G f dc kw w
  = (w,
     let color := default dc (kw !! "color") in
     let base := str_replace name "_d" "_r" in
     let cm := BlendPalette [PStr "#333333"; PaletteColor base 2 0; PaletteColor base 2 1] in
     if bound G "string_types"
     then if bound G "color_palette"
          then if bound G "blend_palette"
               then Returned (color, cm,
                              <["cmap" := cm]> (delete "cmap" (delete "color" kw)))
               else Raised (NameError "blend_palette")
          else Raised (NameError "color_palette")
     else Raised (NameError "string_types")).
Proof.
  intros Hcm Hd. unfold derive_cmap, dict_pop.
  rewrite lookup_delete_ne by done. rewrite Hcm.
  change (default PNone (Some (PStr name))) with (PStr name). cbn [is_none].
  rewrite bind_run, ret_run, bind_run, resolve_cmap_name_reversed by done.
  cbv zeta. by destruct (bound G "string_types"), (bound G "color_palette"),
    (bound G "blend_palette").
Qed.

(** When the colour stage raises, so does the call, and nothing was drawn. *)
Lemma _contour_plot_colour_error x y z f fl axl cbar cax ckw ax kwargs w w1 e :
  resolve_colors G f (PStr (next_color (get_axes w ax))) (delete "n_levels" kwargs)
    (set_axes ax (advance_cycle (get_axes w ax)) w) = (w1, Raised e) →
  _contour_plot G x y z f fl axl cbar cax ckw ax kwargs w = (w1, Raised e).
Proof.
  intros Hres. unfold _contour_plot, dict_pop. cbv beta iota zeta.
  by rewrite bind_run, probe_color_run, bind_run, Hres.
Qed.

(** When the colour stage returns, the contour call is the next call
    made, with the keywords the stage answered minus [label]. *)
Lemma _contour_plot_draws x y z f fl axl cbar cax ckw ax kwargs w w1 color cmap kwr :
  resolve_colors G f (PStr (next_color (get_axes w ax))) (delete "n_levels" kwargs)
    (set_axes ax (advance_cycle (get_axes w ax)) w) = (w1, Returned (color, cmap, kwr)) →
  ∃ rest,
    trace (_contour_plot G x y z f fl axl cbar cax ckw ax kwargs w).1
    = trace w1
      ++ CallContour ax f x y z (default (PNum (10 # 1)%Q) (kwargs !! "n_levels"))
           (delete "label" kwr)
      :: rest.
Proof.
  intros Hres. unfold _contour_plot, dict_pop. cbv beta iota zeta.
  rewrite bind_run, probe_color_run, bind_run, Hres. cbv beta iota zeta.
  rewrite bind_run.
  set (c := CallContour _ _ _ _ _ _ _).
  destruct (draw ax f fl x y z _ (delete "label" kwr) w1) as [w3 [cset|e]] eqn:Hd.
  - assert (Htr : trace w3 = trace w1 ++ [c]).
    { rewrite draw_run in Hd. cbv zeta in Hd. fold c in Hd.
      destruct (rejects c); [done|].
      destruct (f && negb fl); [|by injection Hd as <- _].
      destruct (contour_collections _ _ _ _ _ _); [done | by injection Hd as <- _]. }
    destruct (logs_after_draw (λ _, True) (λ _ _ _ _, I) (λ _ _ _ _ _, I) (λ _ _ _ _ _, I)
                cbar cset cax ckw ax x y axl f color cmap
                (default PNone (kwr !! "label")) w3) as (rest & -> & _).
    exists rest. by rewrite Htr, <- app_assoc.
  - exists []. simpl. rewrite draw_run in Hd. cbv zeta in Hd. fold c in Hd.
    destruct (rejects c); [by injection Hd as <- _|].
    destruct (f && negb fl); [|done].
    destruct (contour_collections _ _ _ _ _ _); [by injection Hd as <- _ | done].
Qed.
End Branches.

(** ** Labels, legend proxies and colour lists *)

Section Claims.
Context `{Host}.

Lemma resolve_colors_keeps_label G f dc kw w w2 color cmap kwr :
  resolve_colors G f dc kw w = (w2, Returned (color, cmap, kwr)) →
  kwr !! "label" = kw !! "label".
Proof.
  intros Hres.
  apply resolve_colors_returned in Hres as [(_ & _ & _ & _ & ->)|(_ & _ & m & _ & ->)];
    by rewrite lookup_insert_ne, !lookup_delete_ne.
Qed.

(** C6, as amended.  With a label that is not [None]: whatever the
    outcome, no contour call made by the function carries a [label]
    keyword; and when [x] is not empty and the call returns, the surface
    has gained the contour set followed by exactly one zero-length artist
    that carries the label, a filled area in filled mode and a line
    otherwise. *)
Theorem label_kept_from_contour_and_seeds_one_proxy
    x y z sh lg sl cbar cax ckw ax kwargs w w' out l :
  kwargs !! "label" = Some l → l ≠ PNone →
  contour_plot module_globals x y z sh lg sl cbar cax ckw ax kwargs w = (w', out) →
  (∀ c, c ∈ trace w' → c ∈ trace w ∨ label_free c)
  ∧ (∀ r, out = Returned r → len x ≠ 0 →
       ∃ cs c, artists (get_axes w' r)
               = artists (get_axes w r) ++ [ContourSet sh cs; proxy_artist sh c l]).
Proof.
  intros Hl Hne Hrun. split.
  - intros c Hc.
    destruct (logs_contour_plot module_globals label_free
                (λ _, I) (λ _ _ _ _, I) (λ _ _ _ _ _, I) (λ _ _ _ _ _, I)
                (λ _ _ _ _ _ _ kw Hkw, Hkw)
                x y z sh lg sl cbar cax ckw ax kwargs w) as (new & Htr & Hnew).
    rewrite Hrun in Htr. simpl in Htr. rewrite Htr in Hc.
    apply elem_of_app in Hc as [Hc|Hc]; [by left | right].
    by eapply Forall_forall in Hnew.
  - intros r -> Hx. apply drawing_path in Hrun; [|done].
    apply _contour_plot_returned in Hrun
      as (w2 & c & m & kwr & -> & Hres & _ & _ & Hend).
    cbv zeta in Hend.
    apply resolve_colors_keeps_label in Hres.
    rewrite lookup_delete_ne in Hres by done. rewrite Hres, Hl in Hend.
    change (default PNone (Some l)) with l in Hend.
    rewrite (is_none_false _ Hne) in Hend.
    destruct Hend as [(? & _)|(_ & lc & _ & _ & -> & _)]; [done|].
    autorewrite with axes. rewrite <- app_assoc. eauto.
Qed.

(** C5, as amended.  With a label, no colour list, and a call that drew
    and returned: the proxy is the last artist on the surface and its
    colour is the local [color] -- the keyword [color] when it was given
    and is not [None], the colour of the probe line when the keyword was
    left out -- and is the colormap of the contour call read at 0.95 only
    when [color=None] was passed. *)
Theorem proxy_colour_is_the_base_colour
    x y z sh lg sl cbar cax ckw ax kwargs w w' r l :
  contour_plot module_globals x y z sh lg sl cbar cax ckw ax kwargs w = (w', Returned r) →
  len x ≠ 0 →
  kwargs !! "label" = Some l → l ≠ PNone →
  default PNone (kwargs !! "colors") = PNone →
  ∃ cm kw lc,
    CallContour r sh (as_float64 x) (as_float64 y) (as_float64 z)
      (default (PNum (10 # 1)%Q) (kwargs !! "n_levels")) kw ∈ trace w'
    ∧ kw !! "cmap" = Some cm
    ∧ last (artists (get_axes w' r)) = Some (proxy_artist sh lc l)
    ∧ lc = match kwargs !! "color" with
           | Some c => if is_none c then Sampled cm (95 # 100)%Q else c
           | None => PStr (next_color (get_axes w r))
           end.
Proof.
  intros Hrun Hx Hl Hne Hcs. apply drawing_path in Hrun; [|done].
  apply _contour_plot_returned in Hrun
    as (w2 & c & m & kwr & -> & Hres & _ & _ & Hend).
  cbv zeta in Hend.
  pose proof (resolve_colors_keeps_label _ _ _ _ _ _ _ _ _ Hres) as Hlab.
  rewrite lookup_delete_ne in Hlab by done. rewrite Hlab, Hl in Hend.
  change (default PNone (Some l)) with l in Hend.
  rewrite (is_none_false _ Hne) in Hend.
  destruct Hend as [(? & _)|(_ & lc & Hlc & _ & Hax & Htr)]; [done|].
  apply resolve_colors_returned in Hres
    as [(Hf & _)|(_ & -> & cm & -> & ->)].
  { rewrite lookup_delete_ne, Hcs in Hf by done. done. }
  exists cm, (delete "label" (<["cmap" := cm]>
                (delete "cmap" (delete "color" (delete "colors" (delete "n_levels" kwargs)))))),
    lc.
  split; [rewrite Htr; set_solver|].
  split; [by rewrite lookup_delete_ne, lookup_insert_eq|].
  split; [rewrite Hax; autorewrite with axes; apply last_snoc|].
  rewrite lookup_delete_ne in Hlc by done. unfold legend_color in Hlc.
  destruct (kwargs !! "color") as [c|]; simpl in Hlc.
  - destruct (is_none c); [|by injection Hlc].
    destruct (is_colormap cm); [by injection Hlc | done].
  - by injection Hlc.
Qed.

(** C2, as amended.  With an explicit colour list, a non-empty [x] and
    arguments that reach the body of [_contour_plot] (numpy makes float64
    arrays of [x], [y], [z] and no keyword names a parameter of
    [_contour_plot]): the first recorded call is the contour call -- no
    colormap is looked up or derived before it -- and its keywords are the
    caller's, without [n_levels] and [label]: the colour list is among
    them, and a [cmap] keyword is among them exactly when the caller gave
    one, with the caller's value. *)
Theorem colour_list_forwarded_beside_given_cmap
    x y z sh lg sl cbar cax ckw ax kwargs w cs :
  kwargs !! "colors" = Some cs → cs ≠ PNone → len x ≠ 0 →
  arguments_error x y z kwargs = None →
  let kw := delete "label" (<["colors" := cs]> (delete "colors" (delete "n_levels" kwargs))) in
  kw !! "colors" = Some cs
  ∧ kw !! "cmap" = kwargs !! "cmap"
  ∧ ∃ rest,
      trace (contour_plot module_globals x y z sh lg sl cbar cax ckw ax kwargs w).1
      = trace w
        ++ CallContour (default (current_axes w) ax) sh
             (as_float64 x) (as_float64 y) (as_float64 z)
             (default (PNum (10 # 1)%Q) (kwargs !! "n_levels")) kw
        :: rest.
Proof.
  intros Hcs Hne Hx Hargs kw. subst kw.
  split; [by rewrite lookup_delete_ne, lookup_insert_eq|].
  split; [by rewrite lookup_delete_ne, lookup_insert_ne, !lookup_delete_ne|].
  rewrite contour_plot_drawing by done.
  edestruct (_contour_plot_draws module_globals (as_float64 x) (as_float64 y)
               (as_float64 z) sh sl lg cbar cax ckw (default (current_axes w) ax)
               kwargs w) as [rest Hrest].
  { apply (resolve_colors_discrete _ _ _ _ _ cs); [by rewrite lookup_delete_ne | done]. }
  exists rest. exact Hrest.
Qed.

(** Lines 170-187 once the colour-list branch has left [color] unbound. *)
Lemma unbound_colour_after_draw cbar cset cax ckw tgt x y lg sh l w3 :
  l ≠ PNone →
  (cbar = true → rejects (CallColorbar cset cax tgt (default ∅ ckw)) = None) →
  ∃ w',
    (attach_colorbar cbar cset cax ckw tgt;;
     label_axes tgt x y lg;;
     legend_proxy tgt sh None None l;;
     ret tgt) w3 = (w', Raised (UnboundLocalError "color"))
    ∧ trace w' = trace w3
                 ++ (if cbar then [CallColorbar cset cax tgt (default ∅ ckw)] else [])
    ∧ get_axes w' tgt = relabel lg x y (get_axes w3 tgt).
Proof.
  intros Hl Hcb. rewrite bind_run, attach_colorbar_run.
  set (w4 := if cbar
             then add_colorbar {| cb_mappable := cset; cb_cax := cax; cb_ax := tgt;
                                  cb_kws := default ∅ ckw |}
                    (log_call (CallColorbar cset cax tgt (default ∅ ckw)) w3)
             else w3).
  destruct (label_axes_run tgt x y lg w4) as (w5 & E & Hax5 & _ & Htr5 & _).
  exists w5.
  assert (H4 : get_axes w4 tgt = get_axes w3 tgt
               ∧ trace w4 = trace w3
                   ++ (if cbar then [CallColorbar cset cax tgt (default ∅ ckw)] else [])).
  { subst w4. destruct cbar; autorewrite with world; by rewrite ?app_nil_r. }
  destruct H4 as (Hax4 & Htr4).
  rewrite Hax5, Htr5, Hax4, Htr4. split; [|done].
  destruct cbar.
  - cbv zeta. rewrite Hcb by done. subst w4.
    by rewrite bind_run, E, bind_run, legend_proxy_run, (is_none_false _ Hl).
  - subst w4. by rewrite bind_run, E, bind_run, legend_proxy_run, (is_none_false _ Hl).
Qed.

(** C10, as amended.  With an explicit colour list and a label, in a call
    that reaches the body of [_contour_plot] (a non-empty [x], arguments
    that numpy and line 125 accept) and with matplotlib accepting the
    drawing calls: the call raises the unbound-local error for [color]; by
    then the contour set is on the surface (and the colorbar call was made
    when asked for), and no legend proxy was added. *)
Theorem colour_list_with_label_raises_unbound_local
    x y z sh lg sl cbar cax ckw ax kwargs w cs l :
  len x ≠ 0 → arguments_error x y z kwargs = None →
  kwargs !! "colors" = Some cs → cs ≠ PNone →
  kwargs !! "label" = Some l → l ≠ PNone →
  let tgt := default (current_axes w) ax in
  let kw := delete "label" (<["colors" := cs]> (delete "colors" (delete "n_levels" kwargs))) in
  let lv := default (PNum (10 # 1)%Q) (kwargs !! "n_levels") in
  let cc := CallContour tgt sh (as_float64 x) (as_float64 y) (as_float64 z) lv kw in
  let drawn := contour_collections sh (as_float64 x) (as_float64 y) (as_float64 z) lv kw in
  let cbc := CallColorbar (tgt, length (artists (get_axes w tgt))) cax tgt (default ∅ ckw) in
  rejects cc = None →
  (sh = true → sl = false → drawn ≠ []) →
  (cbar = true → rejects cbc = None) →
  ∃ w',
    contour_plot module_globals x y z sh lg sl cbar cax ckw ax kwargs w
    = (w', Raised (UnboundLocalError "color"))
    ∧ trace w' = trace w ++ cc :: (if cbar then [cbc] else [])
    ∧ artists (get_axes w' tgt)
      = artists (get_axes w tgt)
        ++ [ContourSet sh (if sh && negb sl then hide_lowest drawn else drawn)].
Proof.
  intros Hx Hargs Hcs Hcne Hl Hlne tgt kw lv cc drawn cbc Hcc Hdrawn Hcbc.
  rewrite contour_plot_drawing by done. fold tgt.
  unfold _contour_plot, dict_pop. cbv beta iota zeta.
  rewrite bind_run, probe_color_run, bind_run.
  rewrite (resolve_colors_discrete _ _ _ _ _ cs); [| by rewrite lookup_delete_ne | done].
  cbv beta iota zeta.
  rewrite lookup_insert_ne, !lookup_delete_ne, Hl by done.
  change (default PNone (Some l)) with l.
  rewrite bind_run, draw_run. cbv zeta. fold kw lv cc drawn. rewrite Hcc.
  rewrite get_set_eq.
  set (a1 := advance_cycle (get_axes w tgt)).
  set (w1 := set_axes tgt a1 w).
  assert (Htail : ∀ shown,
    let w3 := set_axes tgt (add_artist (ContourSet sh shown) a1) (log_call cc w1) in
    ∃ w',
      (attach_colorbar cbar (tgt, length (artists a1)) cax ckw tgt;;
       label_axes tgt (as_float64 x) (as_float64 y) lg;;
       legend_proxy tgt sh None None l;;
       ret tgt) w3 = (w', Raised (UnboundLocalError "color"))
      ∧ trace w' = trace w ++ cc :: (if cbar then [cbc] else [])
      ∧ artists (get_axes w' tgt) = artists (get_axes w tgt) ++ [ContourSet sh shown]).
  { intros shown w3.
    destruct (unbound_colour_after_draw cbar (tgt, length (artists a1)) cax ckw tgt
                (as_float64 x) (as_float64 y) lg sh l w3 Hlne Hcbc)
      as (w' & Hrun & Htr & Hax).
    exists w'. split; [exact Hrun|]. rewrite Htr, Hax. subst w3 w1 a1.
    autorewrite with world axes. rewrite <- app_assoc. done. }
  destruct (sh && negb sl) eqn:Hhide.
  - destruct drawn as [|c0 rest] eqn:Hdr.
    { apply andb_true_iff in Hhide as [-> Hsl]. apply negb_true_iff in Hsl.
      by destruct Hdrawn. }
    apply Htail.
  - apply Htail.
Qed.
End Claims.

(** ** The palette helpers are called by names the module never binds *)

Section Helpers.
Context `{Host}.

(** Arguments that numpy or line 125 refuse end the call before the body
    of [_contour_plot] starts. *)
Lemma contour_plot_refused x y z sh lg sl cbar cax ckw ax kwargs w e :
  len x ≠ 0 → arguments_error x y z kwargs = Some e →
  contour_plot module_globals x y z sh lg sl cbar cax ckw ax kwargs w = (w, Raised e).
Proof.
  intros Hx Hargs. rewrite contour_plot_run by reflexivity.
  destruct (decide (len x = 0)); [done|]. by rewrite Hargs.
Qed.

(** With neither a colour list nor a colormap given, a call that reaches
    the colour stage stops at the lookup of the palette helper: nothing
    was drawn, and the probe has used up one colour of the cycle. *)
Lemma base_colour_needs_unbound_helper x y z sh lg sl cbar cax ckw ax kwargs w :
  len x ≠ 0 → arguments_error x y z kwargs = None →
  default PNone (kwargs !! "colors") = PNone →
  default PNone (kwargs !! "cmap") = PNone →
  contour_plot module_globals x y z sh lg sl cbar cax ckw ax kwargs w
  = (set_axes (default (current_axes w) ax)
       (advance_cycle (get_axes w (default (current_axes w) ax))) w,
     Raised (NameError (if sh then "light_palette" else "dark_palette"))).
Proof.
  intros Hx Hargs Hcs Hcm. rewrite contour_plot_drawing by done.
  apply _contour_plot_colour_error.
  rewrite resolve_colors_absent by (by rewrite lookup_delete_ne, Hcs).
  rewrite derive_cmap_from_colour by (by rewrite !lookup_delete_ne, Hcm).
  by destruct sh.
Qed.

Lemma reversed_name_needs_unbound_helper x y z sh lg sl cbar cax ckw ax kwargs w name :
  len x ≠ 0 → arguments_error x y z kwargs = None →
  default PNone (kwargs !! "colors") = PNone →
  kwargs !! "cmap" = Some (PStr name) → endswith name "_d" = true →
  contour_plot module_globals x y z sh lg sl cbar cax ckw ax kwargs w
  = (set_axes (default (current_axes w) ax)
       (advance_cycle (get_axes w (default (current_axes w) ax))) w,
     Raised (NameError "color_palette")).
Proof.
  intros Hx Hargs Hcs Hcm Hd. rewrite contour_plot_drawing by done.
  apply _contour_plot_colour_error.
  rewrite resolve_colors_absent by (by rewrite lookup_delete_ne, Hcs).
  by rewrite (derive_cmap_reversed _ _ _ _ _ name)
    by (by rewrite ?lookup_delete_ne, ?Hcm).
Qed.

(** C1, on the code.  [contour_plot(x, y, z, shade=True, color="r")]
    raises [NameError] for [light_palette], and the unfilled call does for
    [dark_palette]: no colormap is derived and no contour call is made.
    This is so for every [y] and [z] of which numpy makes float64 arrays;
    for the others the call raises numpy's error before that, so no [y] and
    [z] make the call hand a colormap to the contour primitive. *)
Theorem base_colour_call_raises_name_error y z lg sl cbar cax ckw ax w :
  contour_plot module_globals xs y z true lg sl cbar cax ckw ax {["color" := PStr "r"]} w
  = match arguments_error xs y z {["color" := PStr "r"]} with
    | Some e => (w, Raised e)
    | None =>
        (set_axes (default (current_axes w) ax)
           (advance_cycle (get_axes w (default (current_axes w) ax))) w,
         Raised (NameError "light_palette"))
    end
  ∧ contour_plot module_globals xs y z false lg sl cbar cax ckw ax {["color" := PStr "r"]} w
    = match arguments_error xs y z {["color" := PStr "r"]} with
      | Some e => (w, Raised e)
      | None =>
          (set_axes (default (current_axes w) ax)
             (advance_cycle (get_axes w (default (current_axes w) ax))) w,
           Raised (NameError "dark_palette"))
      end.
Proof.
  destruct (arguments_error xs y z {["color" := PStr "r"]}) as [e|] eqn:Hargs.
  - split; by apply contour_plot_refused.
  - split; by apply base_colour_needs_unbound_helper.
Qed.

(** C4, on the code.
    [contour_plot(x, y, z, n_levels=30, cmap="Purples_d")] raises
    [NameError] for [color_palette]: no blend is built and no contour call
    is made.  This is so for every [y] and [z] of which numpy makes float64
    arrays; for the others the call raises numpy's error before that. *)
Theorem reversed_name_call_raises_name_error y z sh lg sl cbar cax ckw ax w :
  contour_plot module_globals xs y z sh lg sl cbar cax ckw ax
    {["n_levels" := PNum (30 # 1)%Q; "cmap" := PStr "Purples_d"]} w
  = match arguments_error xs y z
            {["n_levels" := PNum (30 # 1)%Q; "cmap" := PStr "Purples_d"]} with
    | Some e => (w, Raised e)
    | None =>
        (set_axes (default (current_axes w) ax)
           (advance_cycle (get_axes w (default (current_axes w) ax))) w,
         Raised (NameError "color_palette"))
    end.
Proof.
  destruct (arguments_error xs y z _) as [e|] eqn:Hargs.
  - by apply contour_plot_refused.
  - by apply (reversed_name_needs_unbound_helper _ _ _ _ _ _ _ _ _ _ _ _ "Purples_d").
Qed.
End Helpers.

(** ** The same body in a namespace that binds the helpers *)

Section Repaired.
Context `{Host}.

(** Were the four seaborn helpers bound, a call with a base colour and no
    colormap would hand the contour primitive the light palette of the
    colour in filled mode and the dark palette otherwise. *)
Lemma base_colour_colormap_when_helpers_bound
    x y z (sh : bool) lg sl cbar cax ckw ax kwargs w :
  len x ≠ 0 → arguments_error x y z kwargs = None →
  default PNone (kwargs !! "colors") = PNone →
  default PNone (kwargs !! "cmap") = PNone →
  let tgt := default (current_axes w) ax in
  let color := default (PStr (next_color (get_axes w tgt))) (kwargs !! "color") in
  let cm := if sh then LightPalette color else DarkPalette color in
  let kw := delete "label"
              (<["cmap" := cm]>
                 (delete "cmap" (delete "color" (delete "colors"
                    (delete "n_levels" kwargs))))) in
  kw !! "cmap" = Some cm
  ∧ ∃ rest,
      trace (contour_plot repaired_globals x y z sh lg sl cbar cax ckw ax kwargs w).1
      = trace w
        ++ CallContour tgt sh (as_float64 x) (as_float64 y) (as_float64 z)
             (default (PNum (10 # 1)%Q) (kwargs !! "n_levels")) kw
        :: rest.
Proof.
  intros Hx Hargs Hcs Hcm tgt color cm kw.
  split; [subst kw; by rewrite lookup_delete_ne, lookup_insert_eq|].
  rewrite contour_plot_run by reflexivity.
  destruct (decide (len x = 0)); [done|]. rewrite Hargs. fold tgt.
  destruct (_contour_plot_draws repaired_globals (as_float64 x) (as_float64 y)
              (as_float64 z) sh sl lg cbar cax ckw tgt kwargs w
              (set_axes tgt (advance_cycle (get_axes w tgt)) w)
              (Some color) (Some cm)
              (<["cmap" := cm]>
                 (delete "cmap" (delete "color" (delete "colors"
                    (delete "n_levels" kwargs)))))) as [rest Hrest].
  { rewrite resolve_colors_absent by (by rewrite lookup_delete_ne, Hcs).
    rewrite derive_cmap_from_colour by (by rewrite !lookup_delete_ne, Hcm).
    cbv zeta. rewrite !lookup_delete_ne by done. subst cm color. by destruct sh. }
  exists rest. exact Hrest.
Qed.

(** Were the helpers bound, a colormap name with the reversal suffix
    would reach the contour primitive as a three-stop blend that starts at
    ["#333333"] and goes on with two colours of the reversed palette. *)
Lemma reversed_name_blend_when_helpers_bound
    x y z sh lg sl cbar cax ckw ax kwargs w name :
  len x ≠ 0 → arguments_error x y z kwargs = None →
  default PNone (kwargs !! "colors") = PNone →
  kwargs !! "cmap" = Some (PStr name) → endswith name "_d" = true →
  let tgt := default (current_axes w) ax in
  let base := str_replace name "_d" "_r" in
  let cm := BlendPalette [PStr "#333333"; PaletteColor base 2 0; PaletteColor base 2 1] in
  let kw := delete "label"
              (<["cmap" := cm]>
                 (delete "cmap" (delete "color" (delete "colors"
                    (delete "n_levels" kwargs))))) in
  kw !! "cmap" = Some cm
  ∧ ∃ rest,
      trace (contour_plot repaired_globals x y z sh lg sl cbar cax ckw ax kwargs w).1
      = trace w
        ++ CallContour tgt sh (as_float64 x) (as_float64 y) (as_float64 z)
             (default (PNum (10 # 1)%Q) (kwargs !! "n_levels")) kw
        :: rest.
Proof.
  intros Hx Hargs Hcs Hcm Hd tgt base cm kw.
  split; [subst kw; by rewrite lookup_delete_ne, lookup_insert_eq|].
  rewrite contour_plot_run by reflexivity.
  destruct (decide (len x = 0)); [done|]. rewrite Hargs. fold tgt.
  destruct (_contour_plot_draws repaired_globals (as_float64 x) (as_float64 y)
              (as_float64 z) sh sl lg cbar cax ckw tgt kwargs w
              (set_axes tgt (advance_cycle (get_axes w tgt)) w)
              (Some (default (PStr (next_color (get_axes w tgt))) (kwargs !! "color")))
              (Some cm)
              (<["cmap" := cm]>
                 (delete "cmap" (delete "color" (delete "colors"
                    (delete "n_levels" kwargs)))))) as [rest Hrest].
  { rewrite resolve_colors_absent by (by rewrite lookup_delete_ne, Hcs).
    rewrite (derive_cmap_reversed _ _ _ _ _ name)
      by (by rewrite ?lookup_delete_ne, ?Hcm).
    cbv zeta. by rewrite !lookup_delete_ne. }
  exists rest. exact Hrest.
Qed.
End Repaired.

(** ** Further facts about a call that draws and returns *)

Section Further.
Context `{Host}.

(** X1.  The probe of lines 138-140 leaves no line behind, but it takes
    one colour off the cycle of the surface; the proxy, drawn in an explicit
    colour, takes none. *)
Theorem drawing_call_uses_one_cycle_colour
    x y z sh lg sl cbar cax ckw ax kwargs w w' r :
  contour_plot module_globals x y z sh lg sl cbar cax ckw ax kwargs w = (w', Returned r) →
  len x ≠ 0 →
  cycle_pos (get_axes w' r) = S (cycle_pos (get_axes w r))
  ∧ prop_cycle (get_axes w' r) = prop_cycle (get_axes w r).
Proof.
  intros Hrun Hx. apply drawing_path in Hrun; [|done].
  apply _contour_plot_returned in Hrun
    as (w2 & c & m & kwr & -> & _ & _ & _ & Hend).
  cbv zeta in Hend.
  destruct Hend as [(_ & -> & _)|(_ & lc & _ & _ & -> & _)];
    by autorewrite with axes.
Qed.

(** X2.  The contour primitive gets [n_levels] as its fourth positional
    argument, 10 when the caller gave none, and never as a keyword; the
    keywords the function does not know reach it as the caller wrote them. *)
Theorem contour_call_levels_and_other_keywords
    x y z sh lg sl cbar cax ckw ax kwargs w w' r :
  contour_plot module_globals x y z sh lg sl cbar cax ckw ax kwargs w = (w', Returned r) →
  len x ≠ 0 →
  ∃ kw,
    CallContour r sh (as_float64 x) (as_float64 y) (as_float64 z)
      (default (PNum (10 # 1)%Q) (kwargs !! "n_levels")) kw ∈ trace w'
    ∧ kw !! "n_levels" = None
    ∧ ∀ k, k ∉ ["n_levels"; "colors"; "color"; "cmap"; "label"] →
           kw !! k = kwargs !! k.
Proof.
  intros Hrun Hx. apply drawing_path in Hrun; [|done].
  apply _contour_plot_returned in Hrun
    as (w2 & c & m & kwr & -> & Hres & _ & _ & Hend).
  cbv zeta in Hend. exists (delete "label" kwr). split.
  { destruct Hend as [(_ & _ & ->)|(_ & lc & _ & _ & _ & ->)];
      apply elem_of_app; right; apply elem_of_cons; by left. }
  assert (Hkeys : kwr !! "n_levels" = None
                  ∧ ∀ k, k ∉ ["n_levels"; "colors"; "color"; "cmap"; "label"] →
                         kwr !! k = kwargs !! k).
  { apply resolve_colors_returned in Hres
      as [(_ & _ & _ & _ & ->)|(_ & _ & cm & _ & ->)].
    - split.
      + rewrite lookup_insert_ne by done. rewrite lookup_delete_ne by done.
        apply lookup_delete_eq.
      + intros k Hk. rewrite !not_elem_of_cons in Hk.
        destruct Hk as (? & ? & ? & ? & ? & _).
        rewrite lookup_insert_ne by done. by rewrite !lookup_delete_ne.
    - split.
      + rewrite lookup_insert_ne by done. rewrite !lookup_delete_ne by done.
        apply lookup_delete_eq.
      + intros k Hk. rewrite !not_elem_of_cons in Hk.
        destruct Hk as (? & ? & ? & ? & ? & _).
        rewrite lookup_insert_ne by done. by rewrite !lookup_delete_ne. }
  destruct Hkeys as (Hn & Hother). split.
  - by rewrite lookup_delete_ne.
  - intros k Hk. rewrite lookup_delete_ne; [by apply Hother|].
    rewrite !not_elem_of_cons in Hk. by destruct Hk as (_ & _ & _ & _ & ? & _).
Qed.

(** A colormap object given by the caller is taken as it is. *)
Lemma derive_cmap_object G f dc kw w cm :
  kw !! "cmap" = Some cm → cm ≠ PNone → (∀ name, cm ≠ PStr name) →
  derive_cmap G f dc kw w
  = (w,
     if bound G "string_types"
     then Returned (default dc (kw !! "color"), cm,
                    <["cmap" := cm]> (delete "cmap" (delete "color" kw)))
     else Raised (NameError "string_types")).
Proof.
  intros Hcm Hne Hstr. unfold derive_cmap, dict_pop.
  rewrite lookup_delete_ne by done. rewrite Hcm.
  change (default PNone (Some cm)) with cm. rewrite (is_none_false _ Hne).
  rewrite bind_run, ret_run, bind_run. unfold resolve_cmap_name.
  rewrite bind_run, load_global_run.
  destruct (bound G "string_types"); [|reflexivity].
  destruct cm; try reflexivity. by destruct (Hstr s).
Qed.

(** Lines 170-187 when there is no label to seed. *)
Lemma unlabelled_after_draw cbar cset cax ckw tgt x y lg sh color cmap w3 :
  (cbar = true → rejects (CallColorbar cset cax tgt (default ∅ ckw)) = None) →
  ∃ w',
    (attach_colorbar cbar cset cax ckw tgt;;
     label_axes tgt x y lg;;
     legend_proxy tgt sh color cmap PNone;;
     ret tgt) w3 = (w', Returned tgt).
Proof.
  intros Hcb. rewrite bind_run, attach_colorbar_run.
  set (w4 := if cbar
             then add_colorbar {| cb_mappable := cset; cb_cax := cax; cb_ax := tgt;
                                  cb_kws := default ∅ ckw |}
                    (log_call (CallColorbar cset cax tgt (default ∅ ckw)) w3)
             else w3).
  destruct (label_axes_run tgt x y lg w4) as (w5 & E & _).
  exists w5. destruct cbar.
  - cbv zeta. rewrite Hcb by done. subst w4.
    by rewrite bind_run, E, bind_run, legend_proxy_run.
  - subst w4. by rewrite bind_run, E, bind_run, legend_proxy_run.
Qed.

(** X4.  With a colormap object from the caller, no colour list and no
    label, and arguments that reach the body of [_contour_plot] (numpy
    makes float64 arrays of [x], [y], [z] and no keyword names a parameter
    of [_contour_plot]): the call returns the target surface as soon as
    matplotlib accepts the contour call (and the colorbar call when one is
    asked for) and, where the lowest band is to be hidden, yields a band to
    hide. *)
Theorem call_with_colormap_object_returns
    x y z sh lg sl cbar cax ckw ax kwargs w cm :
  len x ≠ 0 → arguments_error x y z kwargs = None →
  default PNone (kwargs !! "colors") = PNone →
  kwargs !! "cmap" = Some cm → cm ≠ PNone → (∀ name, cm ≠ PStr name) →
  default PNone (kwargs !! "label") = PNone →
  let tgt := default (current_axes w) ax in
  let kw := delete "label"
              (<["cmap" := cm]>
                 (delete "cmap" (delete "color" (delete "colors"
                    (delete "n_levels" kwargs))))) in
  let lv := default (PNum (10 # 1)%Q) (kwargs !! "n_levels") in
  let cc := CallContour tgt sh (as_float64 x) (as_float64 y) (as_float64 z) lv kw in
  let drawn := contour_collections sh (as_float64 x) (as_float64 y) (as_float64 z) lv kw in
  let cbc := CallColorbar (tgt, length (artists (get_axes w tgt))) cax tgt (default ∅ ckw) in
  rejects cc = None →
  (sh = true → sl = false → drawn ≠ []) →
  (cbar = true → rejects cbc = None) →
  ∃ w', contour_plot module_globals x y z sh lg sl cbar cax ckw ax kwargs w
        = (w', Returned tgt).
Proof.
  intros Hx Hargs Hcs Hcm Hne Hstr Hl tgt kw lv cc drawn cbc Hcc Hdrawn Hcbc.
  rewrite contour_plot_drawing by done. fold tgt.
  unfold _contour_plot, dict_pop. cbv beta iota zeta.
  rewrite bind_run, probe_color_run, bind_run.
  rewrite resolve_colors_absent by (by rewrite lookup_delete_ne, Hcs).
  rewrite (derive_cmap_object _ _ _ _ _ cm) by (by rewrite ?lookup_delete_ne).
  change (bound module_globals "string_types") with true. cbv beta iota zeta.
  rewrite lookup_insert_ne, !lookup_delete_ne, Hl by done.
  rewrite bind_run, draw_run. cbv zeta. fold kw lv cc drawn. rewrite Hcc.
  rewrite get_set_eq.
  destruct (sh && negb sl) eqn:Hhide.
  - destruct drawn as [|c0 rest] eqn:Hdr.
    { apply andb_true_iff in Hhide as [-> Hsl]. apply negb_true_iff in Hsl.
      by destruct Hdrawn. }
    by apply unlabelled_after_draw.
  - by apply unlabelled_after_draw.
Qed.

(** X3.  A colorbar is attached exactly when [cbar] is true: bound to the
    contour set just drawn, on [cbar_ax], with [cbar_kws] or no keyword. *)
Theorem colorbar_attached_on_request
    x y z sh lg sl cbar cax ckw ax kwargs w w' r :
  contour_plot module_globals x y z sh lg sl cbar cax ckw ax kwargs w = (w', Returned r) →
  len x ≠ 0 →
  colorbars w'
  = colorbars w
    ++ (if cbar
        then [{| cb_mappable := (r, length (artists (get_axes w r)));
                 cb_cax := cax; cb_ax := r; cb_kws := default ∅ ckw |}]
        else []).
Proof.
  intros Hrun Hx. apply drawing_path in Hrun; [|done].
  pose proof Hrun as Hr.
  apply _contour_plot_returned in Hr as (w2 & c & m & kwr & -> & _).
  by apply _contour_plot_colorbars in Hrun.
Qed.
End Further.

(** * Every outcome of a call *)

Section Endings.
Context `{Host}.
Variable G : list string.

(** A colormap name without the reversal suffix is looked up. *)
Lemma derive_cmap_named f dc kw w name :
  kw !! "cmap" = Some (PStr name) → endswith name "_d" = false →
  derive_cmap G f dc kw w
  = if bound G "string_types"
    then if bound G "mpl"
         then (log_call (CallGetCmap name) w,
               match rejects (CallGetCmap name) with
               | Some e => Raised e
               | None =>
                   Returned (default dc (kw !! "color"), NamedCmap name,
                             <["cmap" := NamedCmap name]>
                               (delete "cmap" (delete "color" kw)))
               end)
         else (w, Raised (NameError "mpl"))
    else (w, Raised (NameError "string_types")).
Proof.
  intros Hcm Hd. unfold derive_cmap, dict_pop.
  rewrite lookup_delete_ne by done. rewrite Hcm.
  change (default PNone (Some (PStr name))) with (PStr name). cbn [is_none].
  rewrite bind_run, ret_run, bind_run. unfold resolve_cmap_name.
  rewrite bind_run, load_global_run.
  destruct (bound G "string_types"); [|reflexivity].
  rewrite Hd, bind_run, load_global_run.
  destruct (bound G "mpl"); [|reflexivity].
  rewrite get_cmap_run. by destruct (rejects (CallGetCmap name)).
Qed.

Lemma is_none_true v : is_none v = true → v = PNone.
Proof. by destruct v. Qed.

(** The colour stage looks a colormap up only for a name the caller gave
    as [cmap], without the reversal suffix and without a colour list. *)
Lemma resolve_colors_lookup f dc kw w w2 r :
  resolve_colors G f dc kw w = (w2, r) →
  w2 = w
  ∨ ∃ n, is_none (default PNone (kw !! "colors")) = true
         ∧ kw !! "cmap" = Some (PStr n) ∧ endswith n "_d" = false
         ∧ w2 = log_call (CallGetCmap n) w.
Proof.
  destruct (is_none (default PNone (kw !! "colors"))) eqn:Hcs.
  2:{ unfold resolve_colors, dict_pop. rewrite Hcs. intros [= <- _]. by left. }
  rewrite resolve_colors_absent by done.
  assert (Hcm : delete "colors" kw !! "cmap" = kw !! "cmap") by (by apply lookup_delete_ne).
  destruct (is_none (default PNone (kw !! "cmap"))) eqn:Hnone.
  { rewrite derive_cmap_from_colour by (by rewrite Hcm). cbv zeta.
    destruct (bound G _); [destruct (bound G _)|]; intros [= <- _]; by left. }
  destruct (kw !! "cmap") as [cm|] eqn:E; [|done].
  change (is_none cm = false) in Hnone.
  destruct cm as [| | |name| | | | | | | |];
    try (rewrite (derive_cmap_object _ _ _ _ _ _ Hcm) by done;
         destruct (bound G _); intros [= <- _]; by left).
  destruct (endswith name "_d") eqn:Hd.
  - rewrite (derive_cmap_reversed _ _ _ _ _ name) by done. cbv zeta.
    destruct (bound G _); [destruct (bound G _); [destruct (bound G _)|]|];
      intros [= <- _]; by left.
  - rewrite (derive_cmap_named _ _ _ _ name) by done.
    destruct (bound G "string_types"); [|intros [= <- _]; by left].
    destruct (bound G "mpl"); [|intros [= <- _]; by left].
    destruct (rejects _); intros [= <- _]; right; by exists name.
Qed.

(** Lines 170-187, whatever their outcome: the colorbar call and the proxy
    call are the only calls recorded, the proxy is the only artist added, and
    the proxy is never there without its call having been accepted. *)
Lemma after_draw_effects cbar cset cax ckw ax x y axl f color cmap label w3 :
  ∃ (cb px : option call) extra,
    let run := (attach_colorbar cbar cset cax ckw ax;;
                label_axes ax x y axl;;
                legend_proxy ax f color cmap label;;
                ret ax) w3 in
    trace run.1 = trace w3 ++ option_list cb ++ option_list px
    ∧ (cb = None ∨ cb = Some (CallColorbar cset cax ax (default ∅ ckw)) ∧ cbar = true)
    ∧ (px = None ∨ is_none label = false ∧ ∃ c, px = Some (proxy_call ax f c label))
    ∧ artists (get_axes run.1 ax) = artists (get_axes w3 ax) ++ extra
    ∧ is_proxy_of f label extra.
Proof.
  rewrite bind_run, attach_colorbar_run.
  set (cbc := CallColorbar cset cax ax (default ∅ ckw)).
  assert (Hrest : ∀ w4,
    ∃ (px : option call) extra,
      let run := (label_axes ax x y axl;;
                  legend_proxy ax f color cmap label;;
                  ret ax) w4 in
      trace run.1 = trace w4 ++ option_list px
      ∧ (px = None ∨ is_none label = false ∧ ∃ c, px = Some (proxy_call ax f c label))
      ∧ artists (get_axes run.1 ax) = artists (get_axes w4 ax) ++ extra
      ∧ is_proxy_of f label extra).
  { intros w4. destruct (label_axes_run ax x y axl w4) as (w5 & E & Hax5 & _ & Htr5 & _).
    rewrite bind_run, E, bind_run, legend_proxy_run.
    assert (Hq : ∃ (px : option call) extra,
              trace w5 = trace w4 ++ option_list px
              ∧ (px = None ∨ is_none label = false ∧ ∃ c, px = Some (proxy_call ax f c label))
              ∧ artists (get_axes w5 ax) = artists (get_axes w4 ax) ++ extra
              ∧ is_proxy_of f label extra).
    { exists None, []. rewrite Htr5, Hax5, artists_relabel, !app_nil_r.
      repeat split; by left. }
    destruct (is_none label) eqn:Hl; [exact Hq|].
    assert (Hd : ∀ lc,
              ∃ (px : option call) extra,
                let run := match draw_proxy ax f lc label w5 with
                           | (w1, Returned _) => ret ax w1
                           | (w1, Raised e) => (w1, Raised e)
                           end in
                trace run.1 = trace w4 ++ option_list px
                ∧ (px = None ∨ is_none label = false ∧ ∃ c, px = Some (proxy_call ax f c label))
                ∧ artists (get_axes run.1 ax) = artists (get_axes w4 ax) ++ extra
                ∧ is_proxy_of f label extra).
    { intros lc. unfold draw_proxy. cbv zeta.
      destruct (rejects (proxy_call ax f lc label)).
      - exists (Some (proxy_call ax f lc label)), []. cbn [fst snd].
        rewrite trace_log, get_log, Htr5, Hax5, artists_relabel, app_nil_r.
        repeat split; [right; eauto | by left].
      - exists (Some (proxy_call ax f lc label)), [proxy_artist f lc label].
        rewrite ret_run. cbn [fst snd].
        rewrite get_set_eq, ?get_log, trace_set, trace_log, Htr5, Hax5.
        autorewrite with axes.
        repeat split; [right; eauto | right; eauto]. }
    rewrite Hl in Hd.
    destruct color as [c|]; [|exact Hq].
    destruct (is_none c); [|apply Hd].
    destruct cmap as [m|]; [|exact Hq].
    destruct (is_colormap m); [apply Hd | exact Hq]. }
  destruct cbar.
  - cbv zeta. fold cbc. destruct (rejects cbc).
    + exists (Some cbc), None, []. cbn [fst snd].
      rewrite trace_log, get_log, !app_nil_r.
      repeat split; [right; by split | by left | by left].
    + set (w4 := add_colorbar _ (log_call cbc w3)).
      destruct (Hrest w4) as (px & extra & Htr & Hpx & Hart & Hex).
      exists (Some cbc), px, extra. cbv zeta in *.
      rewrite Htr, Hart. subst w4. autorewrite with world.
      rewrite <- app_assoc. repeat split; [right; by split | done..].
  - destruct (Hrest w3) as (px & extra & Htr & Hpx & Hart & Hex).
    exists None, px, extra. cbv zeta in *. rewrite Htr, Hart.
    repeat split; [by left | done..].
Qed.

(** The four ways a run of [_contour_plot] can go: it stops in the colour
    stage; matplotlib refuses the contour call; the contour set has no
    band to hide; or the contour set is drawn and lines 170-187 run. *)
Lemma _contour_plot_endings x y z f fl axl cbar cax ckw ax kwargs w :
  let run := _contour_plot G x y z f fl axl cbar cax ckw ax kwargs w in
  let a0 := get_axes w ax in
  let lv := default (PNum (10 # 1)%Q) (kwargs !! "n_levels") in
  let label := default PNone (kwargs !! "label") in
  let cbc := CallColorbar (ax, length (artists a0)) cax ax (default ∅ ckw) in
  ∃ gc : option string,
    (∀ n, gc = Some n →
          is_none (default PNone (kwargs !! "colors")) = true
          ∧ kwargs !! "cmap" = Some (PStr n) ∧ endswith n "_d" = false)
    ∧
    (((∃ e, run.2 = Raised e)
     ∧ trace run.1 = trace w ++ protocol gc None None None
     ∧ get_axes run.1 ax = advance_cycle a0
     ∧ colorbars run.1 = colorbars w)
    ∨ ∃ kw,
        let cc := CallContour ax f x y z lv kw in
        let cs := contour_collections f x y z lv kw in
        kw !! "label" = None
        ∧ (((∃ e, rejects cc = Some e ∧ run.2 = Raised e)
            ∧ trace run.1 = trace w ++ protocol gc (Some cc) None None
            ∧ get_axes run.1 ax = advance_cycle a0
            ∧ colorbars run.1 = colorbars w)
           ∨ ((rejects cc = None ∧ f && negb fl = true ∧ cs = []
               ∧ run.2 = Raised IndexError)
              ∧ trace run.1 = trace w ++ protocol gc (Some cc) None None
              ∧ get_axes run.1 ax = add_artist (ContourSet f []) (advance_cycle a0)
              ∧ colorbars run.1 = colorbars w)
           ∨ (rejects cc = None ∧ (f && negb fl = true → cs ≠ [])
              ∧ ∃ (cb px : option call) extra,
                  trace run.1 = trace w ++ protocol gc (Some cc) cb px
                  ∧ (cb = None ∨ cb = Some cbc ∧ cbar = true)
                  ∧ (px = None ∨ is_none label = false ∧ ∃ c, px = Some (proxy_call ax f c label))
                  ∧ artists (get_axes run.1 ax)
                    = artists a0
                      ++ ContourSet f (if f && negb fl then hide_lowest cs else cs)
                      :: extra
                  ∧ is_proxy_of f label extra))).
Proof.
  cbv zeta. unfold _contour_plot, dict_pop. cbv beta iota zeta.
  rewrite bind_run, probe_color_run, bind_run.
  set (a1 := advance_cycle (get_axes w ax)).
  destruct (resolve_colors G f _ (delete "n_levels" kwargs) (set_axes ax a1 w))
    as [w2 out] eqn:Hres.
  assert (Hfr : ∃ gc : option string,
            (∀ n, gc = Some n →
                  is_none (default PNone (kwargs !! "colors")) = true
                  ∧ kwargs !! "cmap" = Some (PStr n) ∧ endswith n "_d" = false)
            ∧ trace w2 = trace w ++ option_list (CallGetCmap <$> gc)
            ∧ get_axes w2 ax = a1 ∧ colorbars w2 = colorbars w).
  { pose proof Hres as Hlook.
    apply resolve_colors_lookup in Hlook as [->|(n & Hcs & Hcm & Hd & ->)].
    - exists None. simpl. by rewrite app_nil_r, get_set_eq.
    - exists (Some n). rewrite !lookup_delete_ne in * by done.
      rewrite get_log, get_set_eq. split; [|done]. by intros ? [= <-]. }
  destruct Hfr as (gc & Hgc & Htr2 & Hax2 & Hcb2). exists gc. split; [exact Hgc|].
  destruct out as [[[color cmap] kwr]|e].
  2:{ left. cbn [fst snd]. unfold protocol. simpl option_list.
      rewrite ?app_nil_r. (split; [eauto|done]). }
  right. exists (delete "label" kwr).
  apply resolve_colors_keeps_label in Hres.
  rewrite lookup_delete_ne in Hres by done.
  cbv beta iota zeta. split; [apply lookup_delete_eq|].
  rewrite bind_run, draw_run. cbv zeta. rewrite Hax2.
  set (cc := CallContour ax f x y z _ (delete "label" kwr)).
  set (cs := contour_collections f x y z _ (delete "label" kwr)).
  assert (Hp : ∀ cb px, trace w2 ++ [cc] ++ option_list cb ++ option_list px
                        = trace w ++ protocol gc (Some cc) cb px).
  { intros cb px. unfold protocol. by rewrite Htr2, <- !app_assoc. }
  destruct (rejects cc) as [e|] eqn:Hacc.
  { left. cbn [fst snd]. rewrite trace_log, get_log, colorbars_log, Hax2, Hcb2.
    rewrite <- (Hp None None). simpl. rewrite ?app_nil_r. (split; [eauto|done]). }
  right. destruct (f && negb fl) eqn:Hhide.
  - destruct cs as [|c0 rest] eqn:Hcs.
    { left. cbn [fst snd].
      rewrite trace_set, trace_log, get_set_eq, colorbars_set, colorbars_log, Hcb2.
      rewrite <- (Hp None None). simpl. rewrite ?app_nil_r. (split; [eauto|done]). }
    right. split; [done|]. split; [done|].
    set (w3 := set_axes ax _ (log_call cc w2)).
    destruct (after_draw_effects cbar (ax, length (artists a1)) cax ckw ax x y axl f
                color cmap (default PNone (kwr !! "label")) w3)
      as (cb & px & extra & Htr & Hcb & Hpx & Hart & Hex).
    exists cb, px, extra. cbv zeta in *. rewrite Hres in *.
    rewrite Htr, Hart. subst w3. rewrite trace_set, trace_log, get_set_eq.
    autorewrite with axes. rewrite <- (Hp cb px), <- !app_assoc.
    repeat split; done.
  - right. split; [done|]. split; [done|].
    set (w3 := set_axes ax _ (log_call cc w2)).
    destruct (after_draw_effects cbar (ax, length (artists a1)) cax ckw ax x y axl f
                color cmap (default PNone (kwr !! "label")) w3)
      as (cb & px & extra & Htr & Hcb & Hpx & Hart & Hex).
    exists cb, px, extra. cbv zeta in *. rewrite Hres in *.
    rewrite Htr, Hart. subst w3. rewrite trace_set, trace_log, get_set_eq.
    autorewrite with axes. rewrite <- (Hp cb px), <- !app_assoc.
    repeat split; done.
Qed.
End Endings.

(** ** Errors of matplotlib are never swallowed *)

Section Forwards.
Context `{Host}.
Variable G : list string.

Lemma forwards_quiet {A} (m : M A) : (∀ w, trace (m w).1 = trace w) → forwards m.
Proof.
  intros Hq w. exists []. rewrite Hq, app_nil_r. split; [done|].
  intros c e Hin. by apply not_elem_of_nil in Hin.
Qed.

Lemma forwards_ret {A} (a : A) : forwards (ret a).
Proof. by apply forwards_quiet. Qed.

Lemma forwards_mret {A} (a : A) : forwards (mret a : M A).
Proof. by apply forwards_quiet. Qed.

Lemma forwards_raise {A} e : forwards (@raise A e).
Proof. by apply forwards_quiet. Qed.

Lemma forwards_bind {A B} (m : M A) (f : A → M B) :
  forwards m → (∀ a, forwards (f a)) → forwards (m ≫= f).
Proof.
  intros Hm Hf w. rewrite bind_run.
  destruct (Hm w) as (n1 & E1 & F1). destruct (m w) as [w1 [a|e]]; simpl in *.
  - destruct (Hf a w1) as (n2 & E2 & F2). exists (n1 ++ n2).
    rewrite E2, E1, app_assoc. split; [done|].
    intros c e [Hin|Hin]%elem_of_app Hrej.
    + by destruct (F1 c e Hin Hrej).
    + destruct (F2 c e Hin Hrej) as [-> Hl]. split; [done|].
      by rewrite last_app, Hl.
  - exists n1. split; [done|]. intros c e0 Hin Hrej.
    by destruct (F1 c e0 Hin Hrej) as [[= ->] Hl].
Qed.

Lemma forwards_host_call c : forwards (host_call c).
Proof.
  intros w. exists [c]. split; [reflexivity|].
  intros c' e ->%list_elem_of_singleton Hrej. unfold host_call. cbn [snd].
  by rewrite Hrej.
Qed.

Lemma forwards_load_global name : forwards (load_global G name).
Proof. apply forwards_quiet. intros w. by rewrite load_global_run. Qed.

Lemma forwards_probe_color ax : forwards (probe_color ax).
Proof. apply forwards_quiet. intros w. by rewrite probe_color_run. Qed.

Lemma forwards_coerce_list a : forwards (coerce_list G a).
Proof.
  unfold coerce_list. destruct (is_list a); [|apply forwards_ret].
  apply forwards_bind; [apply forwards_load_global | intros _].
  destruct (shape_of a); [apply forwards_ret | apply forwards_raise].
Qed.

Lemma forwards_astype_float64 a : forwards (astype_float64 G a).
Proof.
  destruct a; [apply forwards_raise | |];
    (apply forwards_bind; [apply forwards_load_global | intros _];
     destruct (conversion_error _); [apply forwards_raise | apply forwards_ret]).
Qed.

Lemma forwards_palette_helper {A} name (a : A) :
  forwards (load_global G name;; ret a).
Proof. apply forwards_bind; [apply forwards_load_global | intros; apply forwards_mret]. Qed.

Lemma forwards_resolve_cmap_name cmap : forwards (resolve_cmap_name G cmap).
Proof.
  unfold resolve_cmap_name.
  apply forwards_bind; [apply forwards_load_global | intros _].
  destruct cmap; try apply forwards_ret.
  destruct (endswith _ _).
  - apply forwards_bind; [apply forwards_palette_helper | intros ?].
    apply forwards_palette_helper.
  - apply forwards_bind; [apply forwards_load_global | intros _].
    apply forwards_bind; [apply forwards_host_call | intros _; apply forwards_mret].
Qed.

Lemma forwards_resolve_colors f dc kw : forwards (resolve_colors G f dc kw).
Proof.
  unfold resolve_colors, dict_pop. cbv beta iota zeta.
  destruct (is_none _); [|apply forwards_ret].
  apply forwards_bind; [|intros [[c m] k]; apply forwards_mret].
  unfold derive_cmap, dict_pop. cbv beta iota zeta.
  apply forwards_bind.
  { destruct (is_none _); [|apply forwards_ret].
    destruct f; apply forwards_palette_helper. }
  intros m. apply forwards_bind; [apply forwards_resolve_cmap_name | intros ?].
  apply forwards_mret.
Qed.

Lemma forwards_draw ax f fl x y z lv kw : forwards (draw ax f fl x y z lv kw).
Proof.
  intros w. exists [CallContour ax f x y z lv kw]. rewrite draw_run. cbv zeta.
  split.
  - destruct (rejects _); [done|].
    destruct (f && negb fl); [|done].
    by destruct (contour_collections _ _ _ _ _ _).
  - intros c e ->%list_elem_of_singleton Hrej. by rewrite Hrej.
Qed.

Lemma forwards_attach_colorbar cbar cset cax kws ax :
  forwards (attach_colorbar cbar cset cax kws ax).
Proof.
  unfold attach_colorbar, when. destruct cbar; [|apply forwards_ret].
  apply forwards_bind; [apply forwards_host_call | intros _].
  by apply forwards_quiet.
Qed.

Lemma forwards_label_axes ax x y axl : forwards (label_axes ax x y axl).
Proof.
  apply forwards_quiet. intros w.
  destruct (label_axes_run ax x y axl w) as (w1 & E & _ & _ & Htr & _).
  by rewrite E.
Qed.

Lemma forwards_draw_proxy ax f lc label :
  forwards (draw_proxy ax f lc label).
Proof.
  intros w. exists [proxy_call ax f lc label]. unfold draw_proxy. cbv zeta. split.
  - by destruct (rejects _).
  - intros c e ->%list_elem_of_singleton Hrej. by rewrite Hrej.
Qed.

Lemma forwards_legend_proxy ax f color cmap label :
  forwards (legend_proxy ax f color cmap label).
Proof.
  intros w. rewrite legend_proxy_run.
  assert (Hq : ∀ out : outcome unit, ∃ new,
            trace w = trace w ++ new
            ∧ ∀ c e, c ∈ new → rejects c = Some e → out = Raised e ∧ last new = Some c).
  { intros out. exists []. rewrite app_nil_r. split; [done|].
    intros c e Hin. by apply not_elem_of_nil in Hin. }
  destruct (is_none label); [apply Hq|].
  destruct color as [c|]; [|apply Hq].
  destruct (is_none c); [|apply forwards_draw_proxy].
  destruct cmap as [m|]; [|apply Hq].
  destruct (is_colormap m); [apply forwards_draw_proxy | apply Hq].
Qed.

Lemma forwards__contour_plot x y z f fl axl cbar cax ckw ax kwargs :
  forwards (_contour_plot G x y z f fl axl cbar cax ckw ax kwargs).
Proof.
  unfold _contour_plot, dict_pop. cbv beta iota zeta.
  apply forwards_bind; [apply forwards_probe_color | intros dc].
  apply forwards_bind; [apply forwards_resolve_colors | intros [[color cmap] kwr]].
  cbv beta iota zeta.
  apply forwards_bind; [apply forwards_draw | intros cset].
  apply forwards_bind; [apply forwards_attach_colorbar | intros _].
  apply forwards_bind; [apply forwards_label_axes | intros _].
  apply forwards_bind; [apply forwards_legend_proxy | intros _].
  apply forwards_ret.
Qed.

Lemma forwards_contour_plot x y z sh lg sl cbar cax ckw ax kwargs :
  forwards (contour_plot G x y z sh lg sl cbar cax ckw ax kwargs).
Proof.
  unfold contour_plot.
  apply forwards_bind.
  { destruct ax; [apply forwards_ret|].
    apply forwards_bind; [apply forwards_load_global | intros _; by apply forwards_quiet]. }
  intros tgt. apply forwards_bind; [apply forwards_coerce_list | intros x'].
  destruct (decide (len x' = 0)); [apply forwards_ret|].
  apply forwards_bind; [apply forwards_astype_float64 | intros x''].
  apply forwards_bind; [apply forwards_coerce_list | intros y'].
  apply forwards_bind; [apply forwards_astype_float64 | intros y''].
  apply forwards_bind; [apply forwards_coerce_list | intros z'].
  apply forwards_bind; [apply forwards_astype_float64 | intros z''].
  destruct (collides kwargs); [apply forwards_raise | apply forwards__contour_plot].
Qed.

(** X8.  Whatever the arguments and whatever the namespace, an error that
    matplotlib answers to one of the calls made by [contour_plot] (the
    colormap lookup, the contour call, the colorbar call, the proxy call)
    is the outcome of [contour_plot], and that call is the last one made:
    the function neither swallows the error nor goes on after it. *)
Theorem matplotlib_error_is_the_outcome
    x y z sh lg sl cbar cax ckw ax kwargs w new c e :
  let run := contour_plot G x y z sh lg sl cbar cax ckw ax kwargs w in
  trace run.1 = trace w ++ new →
  c ∈ new → rejects c = Some e →
  run.2 = Raised e ∧ last new = Some c.
Proof.
  cbv zeta. intros Htr Hin Hrej.
  destruct (forwards_contour_plot x y z sh lg sl cbar cax ckw ax kwargs w)
    as (new' & Htr' & Hf).
  rewrite Htr in Htr'. apply app_inv_head in Htr' as <-. by apply Hf.
Qed.
End Forwards.

(** ** Runs of [contour_plot], whatever their outcome *)

Section Calls.
Context `{Host}.

Lemma proxy_is_no_contour_call ax f c l : is_contour_call (proxy_call ax f c l) = false.
Proof. by destruct f. Qed.

Lemma contour_call_in_protocol c gc cc cb px :
  c ∈ protocol gc cc cb px → is_contour_call c = true →
  (∀ c', cb = Some c' → is_contour_call c' = false) →
  (∀ c', px = Some c' → is_contour_call c' = false) →
  cc = Some c.
Proof.
  unfold protocol. rewrite !elem_of_app. intros [Hin|[Hin|[Hin|Hin]]] Hc Hcb Hpx.
  - destruct gc; simpl in Hin.
    + apply list_elem_of_singleton in Hin as ->. done.
    + by apply not_elem_of_nil in Hin.
  - destruct cc; simpl in Hin.
    + by apply list_elem_of_singleton in Hin as ->.
    + by apply not_elem_of_nil in Hin.
  - destruct cb as [c'|]; simpl in Hin.
    + apply list_elem_of_singleton in Hin as ->. by rewrite (Hcb c') in Hc.
    + by apply not_elem_of_nil in Hin.
  - destruct px as [c'|]; simpl in Hin.
    + apply list_elem_of_singleton in Hin as ->. by rewrite (Hpx c') in Hc.
    + by apply not_elem_of_nil in Hin.
Qed.


Lemma last_protocol_contour gc c : last (protocol gc (Some c) None None) = Some c.
Proof. unfold protocol. simpl. by rewrite last_snoc. Qed.

(** A contour call found among the calls of a run of [_contour_plot] is
    the one of line 165, and the run went one of three ways from there. *)
Lemma _contour_plot_made_call G x y z f fl axl cbar cax ckw ax kwargs w new c :
  let run := _contour_plot G x y z f fl axl cbar cax ckw ax kwargs w in
  let a0 := get_axes w ax in
  let lv := default (PNum (10 # 1)%Q) (kwargs !! "n_levels") in
  let label := default PNone (kwargs !! "label") in
  trace run.1 = trace w ++ new → c ∈ new → is_contour_call c = true →
  ∃ kw,
    let cs := contour_collections f x y z lv kw in
    c = CallContour ax f x y z lv kw
    ∧ (((∃ e, rejects c = Some e ∧ run.2 = Raised e)
        ∧ get_axes run.1 ax = advance_cycle a0 ∧ colorbars run.1 = colorbars w)
       ∨ ((rejects c = None ∧ f && negb fl = true ∧ cs = []
           ∧ run.2 = Raised IndexError ∧ last new = Some c)
          ∧ get_axes run.1 ax = add_artist (ContourSet f []) (advance_cycle a0)
          ∧ colorbars run.1 = colorbars w)
       ∨ (rejects c = None ∧ (f && negb fl = true → cs ≠ [])
          ∧ ∃ extra,
              artists (get_axes run.1 ax)
              = artists a0
                ++ ContourSet f (if f && negb fl then hide_lowest cs else cs) :: extra
              ∧ is_proxy_of f label extra)).
Proof.
  cbv zeta. intros Htr Hin Hc.
  destruct (_contour_plot_endings G x y z f fl axl cbar cax ckw ax kwargs w)
    as (gc & _ & [(_ & Htr' & _)|(kw & _ & Hcases)]).
  { rewrite Htr in Htr'. apply app_inv_head in Htr' as ->.
    by apply contour_call_in_protocol in Hin. }
  cbv zeta in Hcases. exists kw.
  destruct Hcases as [(Hrej & Htr' & Hst)|[((Hacc & Hh & Hcs & Hout) & Htr' & Hst)
                     |(Hacc & Hcs & cb & px & extra & Htr' & Hcb & Hpx & Hart & Hex)]];
    rewrite Htr in Htr'; apply app_inv_head in Htr' as ->;
    apply contour_call_in_protocol in Hin as [= <-]; try done.
  - split; [done|]. by left.
  - split; [done|]. right; left. by rewrite last_protocol_contour.
  - split; [done|]. right; right. eauto.
  - intros c' Hc'. destruct Hcb as [->|[-> _]]; [done|]. by injection Hc' as <-.
  - intros c' Hc'. destruct Hpx as [->|(_ & col & ->)]; [done|].
    injection Hc' as <-. apply proxy_is_no_contour_call.
Qed.

(** X9.  Of the four calls that matplotlib accepts or refuses on the
    caller's arguments -- the lookup of a colormap name, the contour call,
    the colorbar call, the call that draws the legend proxy -- one call of
    [contour_plot] makes each at most once, and in this order.  A name is
    looked up only when the caller gave it as [cmap]; the colorbar call and
    the proxy call come only behind an accepted contour call, the former
    only with [cbar], the latter only with a label.  (The probe, the
    accessors and the setters of the body are not among the four.) *)
Theorem calls_follow_the_order_of_the_body x y z sh lg sl cbar cax ckw ax kwargs w :
  let run := contour_plot module_globals x y z sh lg sl cbar cax ckw ax kwargs w in
  let tgt := default (current_axes w) ax in
  let lv := default (PNum (10 # 1)%Q) (kwargs !! "n_levels") in
  let label := default PNone (kwargs !! "label") in
  ∃ gc cc cb px,
    trace run.1 = trace w ++ protocol gc cc cb px
    ∧ (∀ n, gc = Some n → kwargs !! "cmap" = Some (PStr n))
    ∧ (∀ c, cc = Some c →
            ∃ kw, c = CallContour tgt sh (as_float64 x) (as_float64 y) (as_float64 z) lv kw)
    ∧ (∀ c, cb = Some c →
            cbar = true
            ∧ c = CallColorbar (tgt, length (artists (get_axes w tgt))) cax tgt
                    (default ∅ ckw)
            ∧ ∃ c', cc = Some c' ∧ rejects c' = None)
    ∧ (∀ c, px = Some c →
            is_none label = false
            ∧ (∃ col, c = proxy_call tgt sh col label)
            ∧ ∃ c', cc = Some c' ∧ rejects c' = None).
Proof.
  cbv zeta. rewrite contour_plot_run by reflexivity.
  destruct (decide (len x = 0)) as [Hx|Hx].
  { exists None, None, None, None. cbn [fst]. unfold protocol. simpl.
    rewrite app_nil_r. repeat split; done. }
  destruct (arguments_error x y z kwargs) as [e|].
  { exists None, None, None, None. cbn [fst]. unfold protocol. simpl.
    rewrite app_nil_r. repeat split; done. }
  destruct (_contour_plot_endings module_globals (as_float64 x) (as_float64 y)
              (as_float64 z) sh sl lg cbar cax ckw (default (current_axes w) ax) kwargs w)
    as (gc & Hgc & [(_ & Htr & _)|(kw & _ & Hcases)]).
  { exists gc, None, None, None. split; [exact Htr|].
    split; [intros n Hn; by destruct (Hgc n Hn) as (_ & ? & _)|]. repeat split; done. }
  cbv zeta in Hcases.
  set (cc := CallContour _ sh _ _ _ _ kw) in Hcases.
  destruct Hcases as [(_ & Htr & _)|[(_ & Htr & _)
                     |(Hacc & _ & cb & px & extra & Htr & Hcb & Hpx & _)]].
  - exists gc, (Some cc), None, None. split; [exact Htr|].
    split; [intros n Hn; by destruct (Hgc n Hn) as (_ & ? & _)|].
    split; [intros c [= <-]; by exists kw|]. split; done.
  - exists gc, (Some cc), None, None. split; [exact Htr|].
    split; [intros n Hn; by destruct (Hgc n Hn) as (_ & ? & _)|].
    split; [intros c [= <-]; by exists kw|]. split; done.
  - exists gc, (Some cc), cb, px. split; [exact Htr|].
    split; [intros n Hn; by destruct (Hgc n Hn) as (_ & ? & _)|].
    split; [intros c [= <-]; by exists kw|]. split.
    + intros c Hc. destruct Hcb as [->|[-> ->]]; [done|].
      injection Hc as <-. split; [done|]. split; [done|]. by exists cc.
    + intros c Hc. destruct Hpx as [->|(Hl & col & ->)]; [done|].
      injection Hc as <-. split; [done|]. split; [by exists col|]. by exists cc.
Qed.


(** X11.  Once matplotlib has accepted the contour call (and, where the
    lowest band is to be hidden, answered a band to hide), the contour set
    is on the surface whatever happens next: a refused colorbar, an
    unbound local or a refused proxy call ends the call with an error, but
    the surface keeps the contour set, followed by the legend proxy or by
    nothing. *)
Theorem contour_set_stays_whatever_follows
    x y z sh sl lg cbar cax ckw ax kwargs w new tgt' f' x' y' z' lv' kw' :
  let run := contour_plot module_globals x y z sh lg sl cbar cax ckw ax kwargs w in
  let tgt := default (current_axes w) ax in
  let c := CallContour tgt' f' x' y' z' lv' kw' in
  let cs := contour_collections f' x' y' z' lv' kw' in
  trace run.1 = trace w ++ new → c ∈ new → rejects c = None →
  (sh && negb sl = true → cs ≠ []) →
  ∃ extra,
    artists (get_axes run.1 tgt)
    = artists (get_axes w tgt)
      ++ ContourSet sh (if sh && negb sl then hide_lowest cs else cs) :: extra
    ∧ is_proxy_of sh (default PNone (kwargs !! "label")) extra.
Proof.
  cbv zeta. rewrite contour_plot_run by reflexivity.
  destruct (decide (len x = 0)) as [Hx|Hx].
  { cbn [fst]. intros Htr Hin. rewrite <- (app_nil_r (trace w)) in Htr at 1.
    apply app_inv_head in Htr as <-. by apply not_elem_of_nil in Hin. }
  destruct (arguments_error x y z kwargs) as [e|].
  { cbn [fst]. intros Htr Hin. rewrite <- (app_nil_r (trace w)) in Htr at 1.
    apply app_inv_head in Htr as <-. by apply not_elem_of_nil in Hin. }
  intros Htr Hin Hacc Hcs.
  destruct (_contour_plot_made_call _ _ _ _ _ _ _ _ _ _ _ _ _ _ _ Htr Hin eq_refl)
    as (kw & Hc & Hcases). cbv zeta in Hcases. injection Hc as -> -> -> -> -> -> ->.
  destruct Hcases as [((e & Hrej & _) & _)|[((_ & Hh & Hnil & _) & _)
                     |(_ & _ & extra & Hart & Hex)]].
  - by rewrite Hacc in Hrej.
  - by destruct (Hcs Hh).
  - eauto.
Qed.
End Calls.

(** ** Which calls can return *)

Section Returns.
Context `{Host}.

Lemma next_color_same a b :
  prop_cycle a = prop_cycle b → cycle_pos a = cycle_pos b → next_color a = next_color b.
Proof. unfold next_color. by intros -> ->. Qed.

(** A colormap name without the reversal suffix, no colour list: the
    colour stage is the lookup of the name. *)
Lemma resolve_colors_named f dc kw w name :
  is_none (default PNone (kw !! "colors")) = true →
  kw !! "cmap" = Some (PStr name) → endswith name "_d" = false →
  resolve_colors module_globals f dc kw w
  = (log_call (CallGetCmap name) w,
     match rejects (CallGetCmap name) with
     | Some e => Raised e
     | None =>
         Returned (Some (default dc (kw !! "color")), Some (NamedCmap name),
                   <["cmap" := NamedCmap name]>
                     (delete "cmap" (delete "color" (delete "colors" kw))))
     end).
Proof.
  intros Hcs Hcm Hd. rewrite resolve_colors_absent by done.
  rewrite (derive_cmap_named _ _ _ _ _ name) by (by rewrite ?lookup_delete_ne).
  change (bound module_globals "string_types") with true.
  change (bound module_globals "mpl") with true. cbv iota.
  rewrite lookup_delete_ne by done. by destruct (rejects _).
Qed.

(** X5.  Every call that reaches the body of [_contour_plot] (a non-empty
    [x], arguments that numpy and line 125 accept) and leaves the colormap
    to the function -- no colour list, and either no [cmap] (or
    [cmap=None]) or a name that ends in [_d] -- raises [NameError] on a
    seaborn palette helper, a name the module never binds.  By then no
    colormap was looked up and no contour, colorbar or proxy call was made:
    the surface has the artists and labels it had and the figure its
    colorbars. *)
Theorem call_without_usable_colormap_raises_name_error
    x y z sh lg sl cbar cax ckw ax kwargs w :
  let run := contour_plot module_globals x y z sh lg sl cbar cax ckw ax kwargs w in
  let tgt := default (current_axes w) ax in
  len x ≠ 0 → arguments_error x y z kwargs = None →
  default PNone (kwargs !! "colors") = PNone →
  default PNone (kwargs !! "cmap") = PNone
  ∨ (∃ name, kwargs !! "cmap" = Some (PStr name) ∧ endswith name "_d" = true) →
  ∃ helper,
    helper ∈ seaborn_palettes ∧ bound module_globals helper = false
    ∧ run.2 = Raised (NameError helper)
    ∧ trace run.1 = trace w
    ∧ artists (get_axes run.1 tgt) = artists (get_axes w tgt)
    ∧ xlabel (get_axes run.1 tgt) = xlabel (get_axes w tgt)
    ∧ ylabel (get_axes run.1 tgt) = ylabel (get_axes w tgt)
    ∧ colorbars run.1 = colorbars w.
Proof.
  cbv zeta. intros Hx Hargs Hcs [Hcm|(name & Hcm & Hd)].
  - rewrite base_colour_needs_unbound_helper by done.
    exists (if sh then "light_palette" else "dark_palette"). cbn [fst snd].
    rewrite get_set_eq. autorewrite with axes.
    split; [destruct sh; unfold seaborn_palettes; set_solver|].
    split; [by destruct sh|]. done.
  - rewrite (reversed_name_needs_unbound_helper _ _ _ _ _ _ _ _ _ _ _ _ name) by done.
    exists "color_palette". cbn [fst snd].
    rewrite get_set_eq. autorewrite with axes.
    split; [unfold seaborn_palettes; set_solver|]. done.
Qed.

(** X6.  What a call that draws has to bring in order to return: either a
    colour list and no label, or -- without a colour list -- a [cmap] that
    is not [None] and, when it is a name, does not end in [_d] and is a
    name matplotlib knows. *)
Theorem normal_return_needs_colour_list_or_colormap
    x y z sh lg sl cbar cax ckw ax kwargs w w' r :
  contour_plot module_globals x y z sh lg sl cbar cax ckw ax kwargs w = (w', Returned r) →
  len x ≠ 0 →
  (is_none (default PNone (kwargs !! "colors")) = false
   ∧ is_none (default PNone (kwargs !! "label")) = true)
  ∨ (is_none (default PNone (kwargs !! "colors")) = true
     ∧ ∃ cm, kwargs !! "cmap" = Some cm ∧ is_none cm = false
             ∧ ∀ name, cm = PStr name →
                       endswith name "_d" = false ∧ rejects (CallGetCmap name) = None).
Proof.
  intros Hrun Hx. pose proof (returned_arguments _ _ _ _ _ _ _ _ _ _ _ _ _ _ Hrun Hx) as Hargs.
  destruct (is_none (default PNone (kwargs !! "colors"))) eqn:Hcs.
  - right. split; [done|]. apply is_none_true in Hcs.
    destruct (is_none (default PNone (kwargs !! "cmap"))) eqn:Hnone.
    { apply is_none_true in Hnone.
      by rewrite base_colour_needs_unbound_helper in Hrun. }
    destruct (kwargs !! "cmap") as [cm|] eqn:Hcm; [|done].
    exists cm. split; [done|]. split; [exact Hnone|]. intros name ->.
    destruct (endswith name "_d") eqn:Hd.
    { by rewrite (reversed_name_needs_unbound_helper _ _ _ _ _ _ _ _ _ _ _ _ name)
        in Hrun. }
    split; [done|].
    destruct (rejects (CallGetCmap name)) as [e|] eqn:Hrej; [|done].
    rewrite contour_plot_drawing in Hrun by done.
    erewrite _contour_plot_colour_error in Hrun; [done|].
    rewrite (resolve_colors_named _ _ _ _ name), Hrej; [done|..].
    + by rewrite lookup_delete_ne, Hcs.
    + by rewrite lookup_delete_ne.
    + done.
  - left. split; [done|].
    apply drawing_path in Hrun; [|done].
    apply _contour_plot_returned in Hrun
      as (w2 & c & m & kwr & -> & Hres & _ & _ & Hend).
    cbv zeta in Hend.
    pose proof (resolve_colors_keeps_label _ _ _ _ _ _ _ _ _ Hres) as Hlab.
    rewrite lookup_delete_ne in Hlab by done. rewrite Hlab in Hend.
    destruct Hend as [(Hl & _)|(_ & lc & Hlc & _)]; [exact Hl|].
    apply resolve_colors_returned in Hres as [(_ & -> & _)|(Hf & _)].
    + done.
    + rewrite lookup_delete_ne in Hf by done. by rewrite Hcs in Hf.
Qed.

(** X7.  A colormap given by a name that does not end in [_d] (and no
    colour list), in a call that reaches the body of [_contour_plot] (a
    non-empty [x], arguments that numpy and line 125 accept): the lookup
    of the name is the first recorded call.  When matplotlib refuses the
    name, its error is the outcome and nothing was drawn; when it accepts,
    the contour call comes next and carries the colormap that was found in
    place of the name, and neither [color] nor [colors]. *)
Theorem named_colormap_is_looked_up_before_drawing
    x y z sh lg sl cbar cax ckw ax kwargs w name :
  let run := contour_plot module_globals x y z sh lg sl cbar cax ckw ax kwargs w in
  let tgt := default (current_axes w) ax in
  let lv := default (PNum (10 # 1)%Q) (kwargs !! "n_levels") in
  len x ≠ 0 → arguments_error x y z kwargs = None →
  default PNone (kwargs !! "colors") = PNone →
  kwargs !! "cmap" = Some (PStr name) → endswith name "_d" = false →
  match rejects (CallGetCmap name) with
  | Some e =>
      run = (log_call (CallGetCmap name) (set_axes tgt (advance_cycle (get_axes w tgt)) w),
             Raised e)
  | None =>
      ∃ kw rest,
        trace run.1
        = trace w
          ++ CallGetCmap name
          :: CallContour tgt sh (as_float64 x) (as_float64 y) (as_float64 z) lv kw
          :: rest
        ∧ kw !! "cmap" = Some (NamedCmap name)
        ∧ kw !! "color" = None ∧ kw !! "colors" = None
  end.
Proof.
  cbv zeta. intros Hx Hargs Hcs Hcm Hd. rewrite contour_plot_drawing by done.
  set (tgt := default (current_axes w) ax).
  pose proof (resolve_colors_named sh (PStr (next_color (get_axes w tgt)))
                (delete "n_levels" kwargs)
                (set_axes tgt (advance_cycle (get_axes w tgt)) w) name) as Hres.
  rewrite !lookup_delete_ne, Hcs in Hres by done.
  specialize (Hres eq_refl Hcm Hd).
  destruct (rejects (CallGetCmap name)) as [e|].
  - by apply _contour_plot_colour_error.
  - edestruct (_contour_plot_draws module_globals (as_float64 x) (as_float64 y)
                 (as_float64 z) sh sl lg cbar cax ckw tgt kwargs w) as [rest Hrest];
      [exact Hres|].
    eexists _, rest. split.
    { rewrite Hrest, trace_log, trace_set, <- app_assoc. reflexivity. }
    split; [|split].
    + rewrite lookup_delete_ne by done. apply lookup_insert_eq.
    + rewrite lookup_delete_ne by done. rewrite lookup_insert_ne by done.
      rewrite lookup_delete_ne by done. apply lookup_delete_eq.
    + rewrite lookup_delete_ne by done. rewrite lookup_insert_ne by done.
      rewrite !lookup_delete_ne by done. apply lookup_delete_eq.
Qed.

(** The surface after a labelled call that takes its colour from the
    cycle. *)
Lemma labelled_cycle_colour_run x y z sh lg sl cbar cax ckw ax kwargs w w' r l :
  contour_plot module_globals x y z sh lg sl cbar cax ckw ax kwargs w = (w', Returned r) →
  len x ≠ 0 →
  kwargs !! "label" = Some l → l ≠ PNone →
  default PNone (kwargs !! "colors") = PNone → kwargs !! "color" = None →
  r = default (current_axes w) ax
  ∧ ∃ cs,
      get_axes w' r
      = add_artist (proxy_artist sh (PStr (next_color (get_axes w r))) l)
          (relabel lg (as_float64 x) (as_float64 y)
             (add_artist (ContourSet sh cs) (advance_cycle (get_axes w r)))).
Proof.
  intros Hrun Hx Hl Hne Hcs Hc. apply drawing_path in Hrun; [|done].
  apply _contour_plot_returned in Hrun
    as (w2 & c & m & kwr & -> & Hres & _ & _ & Hend).
  split; [done|]. cbv zeta in Hend.
  pose proof (resolve_colors_keeps_label _ _ _ _ _ _ _ _ _ Hres) as Hlab.
  rewrite lookup_delete_ne in Hlab by done. rewrite Hlab, Hl in Hend.
  change (default PNone (Some l)) with l in Hend.
  rewrite (is_none_false _ Hne) in Hend.
  destruct Hend as [(? & _)|(_ & lc & Hlc & _ & Hax & _)]; [done|].
  apply resolve_colors_returned in Hres as [(Hf & _)|(_ & -> & cm & -> & _)].
  { rewrite lookup_delete_ne, Hcs in Hf by done. done. }
  rewrite lookup_delete_ne, Hc in Hlc by done. injection Hlc as <-.
  eexists. exact Hax.
Qed.

(** X12.  Two labelled calls in a row on one surface, neither with a
    [color] nor a colour list: each legend proxy takes the colour the
    cycle of the surface stood at when its call began, so the second proxy
    has the colour that follows the first one's in the cycle.  The surface
    holds, in drawing order, the first contour set and its proxy, then the
    second contour set and its proxy. *)
Theorem successive_calls_take_successive_cycle_colours
    x1 y1 z1 sh1 lg1 sl1 cbar1 cax1 ckw1 kwargs1 l1
    x2 y2 z2 sh2 lg2 sl2 cbar2 cax2 ckw2 kwargs2 l2 ax w w1 w2 r1 r2 :
  contour_plot module_globals x1 y1 z1 sh1 lg1 sl1 cbar1 cax1 ckw1 ax kwargs1 w
  = (w1, Returned r1) →
  contour_plot module_globals x2 y2 z2 sh2 lg2 sl2 cbar2 cax2 ckw2 (Some r1) kwargs2 w1
  = (w2, Returned r2) →
  len x1 ≠ 0 → len x2 ≠ 0 →
  kwargs1 !! "label" = Some l1 → l1 ≠ PNone →
  kwargs2 !! "label" = Some l2 → l2 ≠ PNone →
  default PNone (kwargs1 !! "colors") = PNone → kwargs1 !! "color" = None →
  default PNone (kwargs2 !! "colors") = PNone → kwargs2 !! "color" = None →
  let a0 := get_axes w r1 in
  r2 = r1
  ∧ ∃ cs1 cs2,
      artists (get_axes w2 r1)
      = artists a0
        ++ [ContourSet sh1 cs1; proxy_artist sh1 (PStr (next_color a0)) l1;
            ContourSet sh2 cs2;
            proxy_artist sh2 (PStr (next_color (advance_cycle a0))) l2].
Proof.
  intros Hrun1 Hrun2 Hx1 Hx2 Hl1 Hne1 Hl2 Hne2 Hcs1 Hc1 Hcs2 Hc2 a0.
  destruct (labelled_cycle_colour_run _ _ _ _ _ _ _ _ _ _ _ _ _ _ _
              Hrun1 Hx1 Hl1 Hne1 Hcs1 Hc1) as (_ & cs1 & Hax1).
  destruct (labelled_cycle_colour_run _ _ _ _ _ _ _ _ _ _ _ _ _ _ _
              Hrun2 Hx2 Hl2 Hne2 Hcs2 Hc2) as (Hr & cs2 & Hax2).
  simpl in Hr. subst r2. split; [done|]. exists cs1, cs2.
  rewrite Hax2. autorewrite with axes.
  rewrite (next_color_same (get_axes w1 r1) (advance_cycle a0))
    by (rewrite Hax1; by autorewrite with axes).
  rewrite Hax1. autorewrite with axes. fold a0.
  by rewrite <- !app_assoc.
Qed.
End Returns.

(** ** The colour cycle and the colour-list path *)

Section Cycle.
Context `{Host}.

(** Lines 170-187 leave the colour cycle of the surface alone: the proxy
    is drawn in an explicit colour. *)
Lemma after_draw_cycle cbar cset cax ckw ax x y axl f color cmap label w3 :
  let run := (attach_colorbar cbar cset cax ckw ax;;
              label_axes ax x y axl;;
              legend_proxy ax f color cmap label;;
              ret ax) w3 in
  cycle_pos (get_axes run.1 ax) = cycle_pos (get_axes w3 ax)
  ∧ prop_cycle (get_axes run.1 ax) = prop_cycle (get_axes w3 ax).
Proof.
  cbv zeta. rewrite bind_run, attach_colorbar_run.
  assert (Hrest : ∀ w4,
    let run := (label_axes ax x y axl;;
                legend_proxy ax f color cmap label;;
                ret ax) w4 in
    cycle_pos (get_axes run.1 ax) = cycle_pos (get_axes w4 ax)
    ∧ prop_cycle (get_axes run.1 ax) = prop_cycle (get_axes w4 ax)).
  { intros w4. destruct (label_axes_run ax x y axl w4) as (w5 & E & Hax5 & _).
    cbv zeta. rewrite bind_run, E, bind_run, legend_proxy_run.
    assert (Hq : cycle_pos (get_axes w5 ax) = cycle_pos (get_axes w4 ax)
                 ∧ prop_cycle (get_axes w5 ax) = prop_cycle (get_axes w4 ax))
      by (rewrite Hax5; by autorewrite with axes).
    assert (Hd : ∀ lc,
              let run := match draw_proxy ax f lc label w5 with
                         | (w1, Returned _) => ret ax w1
                         | (w1, Raised e) => (w1, Raised e)
                         end in
              cycle_pos (get_axes run.1 ax) = cycle_pos (get_axes w4 ax)
              ∧ prop_cycle (get_axes run.1 ax) = prop_cycle (get_axes w4 ax)).
    { intros lc. unfold draw_proxy. cbv zeta. destruct (rejects _).
      - cbn [fst]. by rewrite get_log.
      - rewrite ret_run. cbn [fst]. rewrite get_set_eq, ?get_log, Hax5.
        by autorewrite with axes. }
    destruct (is_none label); [exact Hq|].
    destruct color as [c|]; [|exact Hq].
    destruct (is_none c); [|apply Hd].
    destruct cmap as [m|]; [|exact Hq].
    destruct (is_colormap m); [apply Hd | exact Hq]. }
  destruct cbar; [|apply Hrest].
  cbv zeta. destruct (rejects _).
  - cbn [fst]. by rewrite get_log.
  - set (w4 := add_colorbar _ _). destruct (Hrest w4) as [-> ->].
    subst w4. by rewrite get_add_colorbar, get_log.
Qed.

(** X15.  Every call that reaches the body of [_contour_plot] (a
    non-empty [x], arguments that numpy and line 125 accept) takes exactly
    one colour off the cycle of the target surface, however it ends: the
    probe of lines 138-140 comes first in the body, and nothing afterwards
    gives the colour back or takes another.  So a call that raises in the
    body -- the plain [contour_plot(x, y, z)] does -- still shifts the
    colours of whatever is plotted next on that surface. *)
Theorem every_drawing_call_consumes_one_cycle_colour
    x y z sh lg sl cbar cax ckw ax kwargs w :
  let run := contour_plot module_globals x y z sh lg sl cbar cax ckw ax kwargs w in
  let tgt := default (current_axes w) ax in
  len x ≠ 0 → arguments_error x y z kwargs = None →
  cycle_pos (get_axes run.1 tgt) = S (cycle_pos (get_axes w tgt))
  ∧ prop_cycle (get_axes run.1 tgt) = prop_cycle (get_axes w tgt).
Proof.
  cbv zeta. intros Hx Hargs. rewrite contour_plot_drawing by done.
  set (tgt := default (current_axes w) ax).
  unfold _contour_plot, dict_pop. cbv beta iota zeta.
  rewrite bind_run, probe_color_run, bind_run.
  destruct (resolve_colors _ sh _ (delete "n_levels" kwargs) _) as [w2 out] eqn:Hres.
  assert (Hax2 : get_axes w2 tgt = advance_cycle (get_axes w tgt)).
  { apply resolve_colors_frame in Hres as [->|[n ->]];
      by rewrite ?get_log, get_set_eq. }
  destruct out as [[[color cmap] kwr]|e].
  2:{ cbn [fst]. rewrite Hax2. by autorewrite with axes. }
  cbv beta iota zeta. rewrite bind_run, draw_run. cbv zeta. rewrite Hax2.
  destruct (rejects _).
  { cbn [fst]. rewrite get_log, Hax2. by autorewrite with axes. }
  destruct (sh && negb sl).
  - destruct (contour_collections _ _ _ _ _ _).
    { cbn [fst]. rewrite get_set_eq. by autorewrite with axes. }
    match goal with
    | |- context [(attach_colorbar cbar ?cset cax ckw tgt;; _) ?w3] =>
        destruct (after_draw_cycle cbar cset cax ckw tgt (as_float64 x) (as_float64 y)
                    lg sh color cmap (default PNone (kwr !! "label")) w3) as [Hc Hp]
    end.
    cbv zeta in Hc, Hp. rewrite Hc, Hp, get_set_eq. by autorewrite with axes.
  - match goal with
    | |- context [(attach_colorbar cbar ?cset cax ckw tgt;; _) ?w3] =>
        destruct (after_draw_cycle cbar cset cax ckw tgt (as_float64 x) (as_float64 y)
                    lg sh color cmap (default PNone (kwr !! "label")) w3) as [Hc Hp]
    end.
    cbv zeta in Hc, Hp. rewrite Hc, Hp, get_set_eq. by autorewrite with axes.
Qed.

(** With a colour list and no label, a call that reaches the body returns
    once matplotlib accepts what it is asked to draw. *)
Lemma colour_list_call_returns x y z sh lg sl cbar cax ckw ax kwargs w cs :
  len x ≠ 0 → arguments_error x y z kwargs = None →
  kwargs !! "colors" = Some cs → cs ≠ PNone →
  default PNone (kwargs !! "label") = PNone →
  let tgt := default (current_axes w) ax in
  let kw := delete "label"
              (<["colors" := cs]> (delete "colors" (delete "n_levels" kwargs))) in
  let lv := default (PNum (10 # 1)%Q) (kwargs !! "n_levels") in
  let cc := CallContour tgt sh (as_float64 x) (as_float64 y) (as_float64 z) lv kw in
  let drawn := contour_collections sh (as_float64 x) (as_float64 y) (as_float64 z) lv kw in
  let cbc := CallColorbar (tgt, length (artists (get_axes w tgt))) cax tgt (default ∅ ckw) in
  rejects cc = None →
  (sh && negb sl = true → drawn ≠ []) →
  (cbar = true → rejects cbc = None) →
  ∃ w', contour_plot module_globals x y z sh lg sl cbar cax ckw ax kwargs w
        = (w', Returned tgt).
Proof.
  intros Hx Hargs Hcs Hne Hl tgt kw lv cc drawn cbc Hacc Hband Hcb.
  rewrite contour_plot_drawing by done. fold tgt.
  unfold _contour_plot, dict_pop. cbv beta iota zeta.
  rewrite bind_run, probe_color_run, bind_run.
  rewrite (resolve_colors_discrete _ _ _ _ _ cs); [| by rewrite lookup_delete_ne | done].
  cbv beta iota zeta.
  rewrite lookup_insert_ne by done. rewrite !lookup_delete_ne by done.
  rewrite Hl, bind_run, draw_run. cbv zeta. fold kw lv cc drawn.
  rewrite Hacc, get_set_eq.
  destruct (sh && negb sl).
  - destruct drawn as [|c0 rest]; [by destruct Hband|].
    by apply unlabelled_after_draw.
  - by apply unlabelled_after_draw.
Qed.

(** X14.  With a colour list, a call that reaches the body of
    [_contour_plot] (a non-empty [x], arguments that numpy and line 125
    accept) returns exactly when there is no label, matplotlib accepts the
    contour call (and the colorbar call, when one is asked for) and, where
    the lowest band is to be hidden, the contour set has a band to hide.
    Nothing else can stop it, and each of the four does. *)
Theorem colour_list_call_returns_exactly_when_accepted
    x y z sh lg sl cbar cax ckw ax kwargs w cs :
  len x ≠ 0 → arguments_error x y z kwargs = None →
  kwargs !! "colors" = Some cs → cs ≠ PNone →
  let tgt := default (current_axes w) ax in
  let kw := delete "label"
              (<["colors" := cs]> (delete "colors" (delete "n_levels" kwargs))) in
  let lv := default (PNum (10 # 1)%Q) (kwargs !! "n_levels") in
  let cc := CallContour tgt sh (as_float64 x) (as_float64 y) (as_float64 z) lv kw in
  let drawn := contour_collections sh (as_float64 x) (as_float64 y) (as_float64 z) lv kw in
  let cbc := CallColorbar (tgt, length (artists (get_axes w tgt))) cax tgt (default ∅ ckw) in
  (∃ w', contour_plot module_globals x y z sh lg sl cbar cax ckw ax kwargs w
         = (w', Returned tgt))
  ↔ (default PNone (kwargs !! "label") = PNone
     ∧ rejects cc = None
     ∧ (sh && negb sl = true → drawn ≠ [])
     ∧ (cbar = true → rejects cbc = None)).
Proof.
  intros Hx Hargs Hcs Hne tgt kw lv cc drawn cbc.
  assert (Hres : ∀ w0,
            resolve_colors module_globals sh (PStr (next_color (get_axes w tgt)))
              (delete "n_levels" kwargs) w0
            = (w0, Returned (None, None,
                             <["colors" := cs]> (delete "colors" (delete "n_levels" kwargs))))).
  { intros w0. apply resolve_colors_discrete; [by rewrite lookup_delete_ne | done]. }
  assert (Hlab : (<["colors" := cs]> (delete "colors" (delete "n_levels" kwargs)))
                   !! "label" = kwargs !! "label").
  { rewrite lookup_insert_ne by done. by rewrite !lookup_delete_ne. }
  split.
  - intros [w' Hrun].
    pose proof (forwards_contour_plot module_globals x y z sh lg sl cbar cax ckw ax
                  kwargs w) as (new & Htr & Hfw).
    rewrite Hrun in Htr, Hfw. cbn [fst snd] in Htr, Hfw.
    apply drawing_path in Hrun; [|done]. fold tgt in Hrun.
    apply _contour_plot_returned in Hrun
      as (w2 & c & m & kwr & _ & Hres' & Hacc & Hband & Hend).
    rewrite Hres in Hres'. injection Hres' as <- <- <- <-.
    cbv zeta in Hend. rewrite Hlab in Hend. fold kw lv cc drawn in Hacc, Hband.
    fold kw lv cc cbc in Hend.
    destruct Hend as [(Hl & _ & Htr')|(_ & lc & Hlc & _)]; [|done].
    split; [by apply is_none_true|]. split; [exact Hacc|]. split; [exact Hband|].
    intros ->. rewrite trace_set, Htr in Htr'. apply app_inv_head in Htr' as ->.
    destruct (rejects cbc) as [e|] eqn:Hrej; [|done].
    assert (Hin : cbc ∈ [cc; cbc]) by (apply elem_of_cons; right; by apply elem_of_cons; left).
    by destruct (Hfw cbc e Hin Hrej).
  - intros (Hl & Hacc & Hband & Hcb).
    by apply (colour_list_call_returns _ _ _ _ _ _ _ _ _ _ _ _ cs).
Qed.
End Cycle.

(** ** The surface that comes back *)

Section Surface.
Context `{Host}.

End Surface.

(** ** Arguments that do not reach the body *)

Section Arguments.
Context `{Host}.

(** X16.  A keyword that names a parameter of [_contour_plot] -- [filled],
    [fill_lowest] or [axlabel] are the ones a caller can pass -- is a second
    value for that parameter at line 125: with a non-empty [x] and inputs
    numpy converts, the call raises [TypeError] and the session is as it
    was; not even the probe has run. *)
Theorem colliding_keyword_raises_type_error
    x y z sh lg sl cbar cax ckw ax kwargs w k :
  len x ≠ 0 →
  conversion_error x = None → conversion_error y = None → conversion_error z = None →
  k ∈ _contour_plot_params → is_Some (kwargs !! k) →
  contour_plot module_globals x y z sh lg sl cbar cax ckw ax kwargs w
  = (w, Raised TypeError).
Proof.
  intros Hx Hcx Hcy Hcz Hk Hsome. apply contour_plot_refused; [done|].
  unfold arguments_error. rewrite Hcx, Hcy, Hcz.
  assert (Hc : collides kwargs = true).
  { unfold collides. apply existsb_exists. exists k. split.
    - by apply list_elem_of_In.
    - by apply bool_decide_eq_true. }
  by rewrite Hc.
Qed.

(** X17.  An input of which numpy makes no float64 array -- ragged data,
    or a number beyond the range of binary64 -- ends a call with a
    non-empty [x] with numpy's error, the first in the order [x], [y],
    [z], and the session is as it was: nothing was looked up or drawn. *)
Theorem unconvertible_input_raises_numpy_error
    x y z sh lg sl cbar cax ckw ax kwargs w e :
  len x ≠ 0 →
  conversion_error x = Some e
  ∨ (conversion_error x = None ∧ conversion_error y = Some e)
  ∨ (conversion_error x = None ∧ conversion_error y = None
     ∧ conversion_error z = Some e) →
  contour_plot module_globals x y z sh lg sl cbar cax ckw ax kwargs w = (w, Raised e).
Proof.
  intros Hx Hconv. apply contour_plot_refused; [done|]. unfold arguments_error.
  destruct Hconv as [->|[(-> & ->)|(-> & -> & ->)]]; reflexivity.
Qed.
End Arguments.

(** * The concrete session *)

(** C7 at work: an empty list for [x], every option switched on. *)
Lemma empty_input_session :
  len (np_asarray (PyList [])) = 0
  ∧ session_plot (PyList []) ys zs true true false true None None None
      {["label" := PStr "a"]} blank_session
    = (blank_session, Returned 0).
Proof.
  split; [reflexivity|]. unfold session_plot.
  apply (@empty_input_leaves_surface_untouched mpl_host). reflexivity.
Defined.


(** C8 at work: two named sequences label both axes. *)
Lemma axis_labels_session :
  ∃ w', session_plot named_xs named_ys zs false true true false None None None
          {["cmap" := PStr "viridis"]} blank_session = (w', Returned 0)
        ∧ len named_xs ≠ 0
        ∧ xlabel (get_axes w' 0) = Some (PStr "width")
        ∧ ylabel (get_axes w' 0) = Some (PStr "height").
Proof.
  evar (w' : world).
  assert (Hrun : session_plot named_xs named_ys zs false true true false None None None
                   {["cmap" := PStr "viridis"]} blank_session = (w', Returned 0))
    by (subst w'; vm_compute; reflexivity).
  unfold session_plot in Hrun.
  assert (Hx : len named_xs ≠ 0) by discriminate.
  exists w'. split; [exact Hrun|]. split; [exact Hx|].
  exact (axis_labels_follow_names _ _ _ _ _ _ _ _ _ _ _ _ _ _ Hrun Hx).
Defined.

(** C3 at work: of the three bands the host computes, the first ends up
    with opacity zero and the other two untouched. *)
Lemma lowest_band_session :
  ∃ w' kw,
    session_plot xs ys zs true true false false None None None
      {["cmap" := CmapObject 1]} blank_session = (w', Returned 0)
    ∧ len xs ≠ 0
    ∧ CallContour 0 true (as_float64 xs) (as_float64 ys) (as_float64 zs) (PNum (10 # 1)%Q) kw ∈ trace w'
    ∧ artists (get_axes w' 0)
      = [ContourSet true [ {| level := 0%Q; alpha := Some 0%Q |};
                           {| level := 1%Q; alpha := None |};
                           {| level := 2%Q; alpha := None |} ]].
Proof.
  evar (w' : world).
  assert (Hrun : session_plot xs ys zs true true false false None None None
                   {["cmap" := CmapObject 1]} blank_session = (w', Returned 0))
    by (subst w'; vm_compute; reflexivity).
  unfold session_plot in Hrun.
  assert (Hx : len xs ≠ 0) by discriminate.
  destruct (lowest_band_made_transparent _ _ _ _ _ _ _ _ _ _ _ _ Hrun Hx)
    as (kw & c0 & rest & proxies & Hin & _ & _ & _).
  exists w', kw.
  split; [exact Hrun|]. split; [exact Hx|]. split; [exact Hin | reflexivity].
Defined.

(** C10 at work: a colour list with a label.  The contour set and the
    colorbar are in place when the call raises; there is no proxy. *)
Lemma colour_list_with_label_session :
  ∃ w',
    session_plot xs ys zs true true false true None None None
      {["colors" := PList [PStr "r"]; "label" := PStr "a"]} blank_session
    = (w', Raised (UnboundLocalError "color"))
    ∧ length (trace w') = 2
    ∧ artists (get_axes w' 0)
      = [ContourSet true [ {| level := 0%Q; alpha := Some 0%Q |};
                           {| level := 1%Q; alpha := None |};
                           {| level := 2%Q; alpha := None |} ]].
Proof.
  destruct (@colour_list_with_label_raises_unbound_local mpl_host
              xs ys zs true true false true None None None
              {["colors" := PList [PStr "r"]; "label" := PStr "a"]} blank_session
              (PList [PStr "r"]) (PStr "a"))
    as (w' & Hrun & Htr & Hart);
    [discriminate | vm_compute; reflexivity | reflexivity | discriminate | reflexivity
    | discriminate | vm_compute; reflexivity | discriminate | reflexivity |].
  exists w'. split; [exact Hrun|]. split.
  - exact (f_equal length Htr).
  - exact Hart.
Defined.

(** C10, the claim as written, fails on an empty [x]: the call carries a
    colour list and a label, and returns normally at line 115 with nothing
    drawn; no local is read. *)
Lemma colour_list_with_label_returns_on_empty_input :
  session_plot (PyList []) ys zs true true false true None None None
    {["colors" := PList [PStr "r"]; "label" := PStr "a"]} blank_session
  = (blank_session, Returned 0)
  ∧ ∀ name,
      (session_plot (PyList []) ys zs true true false true None None None
         {["colors" := PList [PStr "r"]; "label" := PStr "a"]} blank_session).2
      ≠ Raised (UnboundLocalError name).
Proof.
  split; [vm_compute; reflexivity|]. intros name Heq. vm_compute in Heq. discriminate.
Qed.

(** C6, the claim as written, fails on an empty [x]: the call has a label,
    returns normally, and the surface has gained nothing. *)
Lemma label_on_empty_input_seeds_no_proxy :
  (session_plot (PyList []) ys zs false true true false None None None
     {["label" := PStr "a"]} blank_session).2 = Returned 0
  ∧ ¬ ∃ cs c,
        artists (get_axes
                   (session_plot (PyList []) ys zs false true true false None None None
                      {["label" := PStr "a"]} blank_session).1 0)
        = artists (get_axes blank_session 0)
          ++ [ContourSet false cs; proxy_artist false c (PStr "a")].
Proof.
  split; [reflexivity|]. intros (cs & c & Heq). vm_compute in Heq. discriminate.
Qed.

(** C6 as amended, at work: a labelled line contour gains a contour set
    and one zero-length line that carries the label. *)
Lemma labelled_contour_session :
  ∃ w' cs c,
    session_plot xs ys zs false true true false None None None
      {["cmap" := PStr "viridis"; "label" := PStr "a"]} blank_session = (w', Returned 0)
    ∧ (∀ k, k ∈ trace w' → k ∈ trace blank_session ∨ label_free k)
    ∧ artists (get_axes w' 0) = [ContourSet false cs; Line2D [] [] c (PStr "a")].
Proof.
  evar (w' : world).
  assert (Hrun : session_plot xs ys zs false true true false None None None
                   {["cmap" := PStr "viridis"; "label" := PStr "a"]} blank_session
                 = (w', Returned 0))
    by (subst w'; vm_compute; reflexivity).
  unfold session_plot in Hrun.
  assert (Hl : ({["cmap" := PStr "viridis"; "label" := PStr "a"]} : gmap string pyval)
               !! "label" = Some (PStr "a")) by reflexivity.
  assert (Hne : PStr "a" ≠ PNone) by discriminate.
  destruct (label_kept_from_contour_and_seeds_one_proxy
              _ _ _ _ _ _ _ _ _ _ _ _ _ _ _ Hl Hne Hrun) as (Hfree & Hproxy).
  destruct (Hproxy 0 eq_refl ltac:(discriminate)) as (cs & c & Hart).
  exists w', cs, c.
  split; [exact Hrun|]. split; [exact Hfree | exact Hart].
Defined.

(** C5, the claim as written, fails when no [color] is given: the proxy of
    a labelled contour drawn with the colormap "Blues" takes the first
    colour of the cycle, which is no reading of any colormap. *)
Lemma proxy_without_colour_is_not_colormap_top :
  (session_plot xs ys zs true true true false None None None
     {["cmap" := PStr "Blues"; "label" := PStr "a"]} blank_session).2 = Returned 0
  ∧ last (artists (get_axes
                     (session_plot xs ys zs true true true false None None None
                        {["cmap" := PStr "Blues"; "label" := PStr "a"]} blank_session).1 0))
    = Some (PolyCollection [] [] (PStr "#1f77b4") (PStr "a"))
  ∧ ¬ ∃ cm, PStr "#1f77b4" = Sampled cm (95 # 100)%Q.
Proof.
  split; [vm_compute; reflexivity|]. split; [vm_compute; reflexivity|].
  intros [cm Heq]. discriminate.
Qed.

(** C5 as amended, at work: with [color=None] passed beside a colormap
    object, the proxy takes the colormap read at 0.95. *)
Lemma proxy_colour_session :
  ∃ w' cm,
    session_plot xs ys zs true true true false None None None
      {["cmap" := CmapObject 1; "color" := PNone; "label" := PStr "a"]} blank_session
    = (w', Returned 0)
    ∧ last (artists (get_axes w' 0))
      = Some (PolyCollection [] [] (Sampled cm (95 # 100)%Q) (PStr "a")).
Proof.
  evar (w' : world).
  assert (Hrun : session_plot xs ys zs true true true false None None None
                   {["cmap" := CmapObject 1; "color" := PNone; "label" := PStr "a"]}
                   blank_session = (w', Returned 0))
    by (subst w'; vm_compute; reflexivity).
  unfold session_plot in Hrun.
  assert (Hx : len xs ≠ 0) by discriminate.
  assert (Hl : ({["cmap" := CmapObject 1; "color" := PNone; "label" := PStr "a"]}
                  : gmap string pyval) !! "label" = Some (PStr "a")) by reflexivity.
  assert (Hne : PStr "a" ≠ PNone) by discriminate.
  assert (Hcs : default PNone
                  (({["cmap" := CmapObject 1; "color" := PNone; "label" := PStr "a"]}
                      : gmap string pyval) !! "colors") = PNone) by reflexivity.
  destruct (proxy_colour_is_the_base_colour _ _ _ _ _ _ _ _ _ _ _ _ _ _ _ Hrun Hx Hl Hne Hcs)
    as (cm & kw & lc & _ & _ & Hlast & Hlc).
  exists w', cm. split; [exact Hrun|].
  rewrite Hlast, Hlc. reflexivity.
Defined.

(** C2, the claim as written, fails when the caller gives both: the
    contour call carries the colour list and the colormap keyword, and
    the host refuses it. *)
Lemma colour_list_call_carries_given_cmap :
  ∃ kw,
    trace (session_plot xs ys zs false true true false None None None
             {["colors" := PList [PStr "r"]; "cmap" := PStr "Blues"]} blank_session).1
    = [CallContour 0 false (as_float64 xs) (as_float64 ys) (as_float64 zs) (PNum (10 # 1)%Q) kw]
    ∧ kw !! "colors" = Some (PList [PStr "r"])
    ∧ kw !! "cmap" = Some (PStr "Blues").
Proof.
  eexists. split; [vm_compute; reflexivity|].
  split; vm_compute; reflexivity.
Qed.

(** C2 as amended, at work: without a colormap from the caller, the
    contour call carries the colour list and no [cmap] keyword. *)
Lemma colour_list_session :
  ∃ rest kw,
    trace (session_plot xs ys zs false true true false None None None
             {["colors" := PList [PStr "r"; PStr "g"]; "n_levels" := PNum (5 # 1)%Q]}
             blank_session).1
    = CallContour 0 false (as_float64 xs) (as_float64 ys) (as_float64 zs) (PNum (5 # 1)%Q) kw :: rest
    ∧ kw !! "colors" = Some (PList [PStr "r"; PStr "g"])
    ∧ kw !! "cmap" = None.
Proof.
  assert (Hcs : ({["colors" := PList [PStr "r"; PStr "g"]; "n_levels" := PNum (5 # 1)%Q]}
                   : gmap string pyval) !! "colors" = Some (PList [PStr "r"; PStr "g"]))
    by reflexivity.
  assert (Hne : PList [PStr "r"; PStr "g"] ≠ PNone) by discriminate.
  assert (Hx : len xs ≠ 0) by discriminate.
  assert (Hargs : arguments_error xs ys zs
                    {["colors" := PList [PStr "r"; PStr "g"];
                      "n_levels" := PNum (5 # 1)%Q]} = None)
    by (vm_compute; reflexivity).
  destruct (colour_list_forwarded_beside_given_cmap (H := mpl_host)
              xs ys zs false true true false None None None _ blank_session _
              Hcs Hne Hx Hargs)
    as (Hcol & Hcm & rest & Htr).
  exists rest. eexists. split; [exact Htr|]. split; [exact Hcol | exact Hcm].
Defined.

(** One colour of the cycle is gone after a drawing call. *)
Lemma cycle_colour_session :
  ∃ w',
    session_plot xs ys zs false true true false None None None
      {["cmap" := PStr "viridis"]} blank_session = (w', Returned 0)
    ∧ len xs ≠ 0
    ∧ cycle_pos (get_axes w' 0) = 1
    ∧ prop_cycle (get_axes w' 0) = prop_cycle blank_axes.
Proof.
  evar (w' : world).
  assert (Hrun : session_plot xs ys zs false true true false None None None
                   {["cmap" := PStr "viridis"]} blank_session = (w', Returned 0))
    by (subst w'; vm_compute; reflexivity).
  unfold session_plot in Hrun.
  assert (Hx : len xs ≠ 0) by discriminate.
  exists w'. split; [exact Hrun|]. split; [exact Hx|].
  exact (drawing_call_uses_one_cycle_colour _ _ _ _ _ _ _ _ _ _ _ _ _ _ Hrun Hx).
Defined.

(** Five levels asked for, and a line width the function knows nothing
    about: the first goes positional, the second through as written. *)
Lemma contour_call_session :
  ∃ w' kw,
    session_plot xs ys zs false true true false None None None
      {["cmap" := PStr "viridis"; "n_levels" := PNum (5 # 1)%Q;
        "linewidths" := PNum (2 # 1)%Q]} blank_session = (w', Returned 0)
    ∧ CallContour 0 false (as_float64 xs) (as_float64 ys) (as_float64 zs) (PNum (5 # 1)%Q) kw ∈ trace w'
    ∧ kw !! "n_levels" = None
    ∧ kw !! "linewidths" = Some (PNum (2 # 1)%Q).
Proof.
  evar (w' : world).
  assert (Hrun : session_plot xs ys zs false true true false None None None
                   {["cmap" := PStr "viridis"; "n_levels" := PNum (5 # 1)%Q;
                     "linewidths" := PNum (2 # 1)%Q]} blank_session = (w', Returned 0))
    by (subst w'; vm_compute; reflexivity).
  unfold session_plot in Hrun.
  assert (Hx : len xs ≠ 0) by discriminate.
  destruct (contour_call_levels_and_other_keywords _ _ _ _ _ _ _ _ _ _ _ _ _ _ Hrun Hx)
    as (kw & Hin & Hn & Hother).
  exists w', kw. split; [exact Hrun|]. split; [exact Hin|]. split; [exact Hn|].
  rewrite (Hother "linewidths"); [reflexivity|].
  rewrite !not_elem_of_cons. repeat split; try discriminate. apply not_elem_of_nil.
Defined.

(** A horizontal colorbar asked for on a filled contour. *)
Lemma colorbar_session :
  ∃ w',
    session_plot xs ys zs true true true true None
      (Some {["orientation" := PStr "horizontal"]}) None
      {["cmap" := PStr "viridis"]} blank_session = (w', Returned 0)
    ∧ len xs ≠ 0
    ∧ colorbars w'
      = [{| cb_mappable := (0, 0); cb_cax := None; cb_ax := 0;
            cb_kws := {["orientation" := PStr "horizontal"]} |}].
Proof.
  evar (w' : world).
  assert (Hrun : session_plot xs ys zs true true true true None
                   (Some {["orientation" := PStr "horizontal"]}) None
                   {["cmap" := PStr "viridis"]} blank_session = (w', Returned 0))
    by (subst w'; vm_compute; reflexivity).
  unfold session_plot in Hrun.
  assert (Hx : len xs ≠ 0) by discriminate.
  exists w'. split; [exact Hrun|]. split; [exact Hx|].
  exact (colorbar_attached_on_request _ _ _ _ _ _ _ _ _ _ _ _ _ _ Hrun Hx).
Defined.

(** A colormap object and nothing else: the call goes through. *)
Lemma colormap_object_session :
  ∃ w',
    session_plot xs ys zs true true false true None None None
      {["cmap" := CmapObject 1]} blank_session = (w', Returned 0).
Proof.
  unfold session_plot.
  apply (call_with_colormap_object_returns (H := mpl_host)
           xs ys zs true true false true None None None
           {["cmap" := CmapObject 1]} blank_session (CmapObject 1));
    first [discriminate | vm_compute; reflexivity].
Defined.

(** X5 at work: the plain call [contour_plot(x, y, z)]. *)
Lemma plain_call_session :
  ∃ helper,
    helper ∈ seaborn_palettes
    ∧ (session_plot xs ys zs false true true false None None None ∅ blank_session).2
      = Raised (NameError helper)
    ∧ trace (session_plot xs ys zs false true true false None None None ∅
               blank_session).1 = [].
Proof.
  destruct (@call_without_usable_colormap_raises_name_error mpl_host
              xs ys zs false true true false None None None ∅ blank_session)
    as (helper & Hin & _ & Hout & Htr & _);
    [discriminate | vm_compute; reflexivity | reflexivity | left; reflexivity |].
  exists helper. split; [exact Hin|]. split; [exact Hout | exact Htr].
Defined.

(** X6 at work: a call that returns, with a colour list and no label. *)
Lemma returning_call_session :
  ∃ w',
    session_plot xs ys zs false true true false None None None
      {["colors" := PList [PStr "r"]]} blank_session = (w', Returned 0)
    ∧ is_none (default PNone
                 (({["colors" := PList [PStr "r"]]} : gmap string pyval) !! "colors"))
      = false.
Proof.
  evar (w' : world).
  assert (Hrun : session_plot xs ys zs false true true false None None None
                   {["colors" := PList [PStr "r"]]} blank_session = (w', Returned 0))
    by (subst w'; vm_compute; reflexivity).
  unfold session_plot in Hrun.
  assert (Hx : len xs ≠ 0) by discriminate.
  exists w'. split; [exact Hrun|].
  destruct (normal_return_needs_colour_list_or_colormap _ _ _ _ _ _ _ _ _ _ _ _ _ _
              Hrun Hx) as [(Hcs & _)|(Hcs & _)]; [exact Hcs | discriminate Hcs].
Defined.

(** X7 at work: [cmap="viridis"] is looked up, then the contour call
    carries the colormap. *)
Lemma named_colormap_session :
  ∃ kw rest,
    trace (session_plot xs ys zs false true true false None None None
             {["cmap" := PStr "viridis"]} blank_session).1
    = CallGetCmap "viridis"
      :: CallContour 0 false (as_float64 xs) (as_float64 ys) (as_float64 zs) (PNum (10 # 1)%Q) kw :: rest
    ∧ kw !! "cmap" = Some (NamedCmap "viridis").
Proof.
  destruct (@named_colormap_is_looked_up_before_drawing mpl_host
              xs ys zs false true true false None None None
              {["cmap" := PStr "viridis"]} blank_session "viridis")
    as (kw & rest & Htr & Hcm & _);
    [discriminate | vm_compute; reflexivity | reflexivity | reflexivity | reflexivity |].
  exists kw, rest. split; [exact Htr | exact Hcm].
Defined.

(** X8 at work: matplotlib refuses a contour call that carries both a
    colour list and a colormap; its error is the outcome of the call. *)
Lemma refused_contour_session :
  ∃ c e,
    trace (session_plot xs ys zs true true true true None None None
             {["colors" := PList [PStr "r"]; "cmap" := CmapObject 1]} blank_session).1
    = [c]
    ∧ @rejects mpl_host c = Some e
    ∧ (session_plot xs ys zs true true true true None None None
         {["colors" := PList [PStr "r"]; "cmap" := CmapObject 1]} blank_session).2
      = Raised e.
Proof.
  evar (c : call). evar (e : exn).
  assert (Htr : trace (session_plot xs ys zs true true true true None None None
                         {["colors" := PList [PStr "r"]; "cmap" := CmapObject 1]}
                         blank_session).1
                = trace blank_session ++ [c])
    by (subst c; vm_compute; reflexivity).
  assert (Hrej : @rejects mpl_host c = Some e) by (subst c e; vm_compute; reflexivity).
  assert (Hin : c ∈ [c]) by (apply list_elem_of_singleton; reflexivity).
  unfold session_plot in Htr.
  exists c, e. split; [exact Htr|]. split; [exact Hrej|].
  exact (proj1 (matplotlib_error_is_the_outcome module_globals
                  _ _ _ _ _ _ _ _ _ _ _ _ _ _ _ Htr Hin Hrej)).
Defined.


(** X11 at work: a colour list with a label raises at line 181, and the
    contour set drawn before is still on the surface. *)
Lemma contour_set_stays_session :
  (session_plot xs ys zs false true true false None None None
     {["colors" := PList [PStr "r"]; "label" := PStr "a"]} blank_session).2
  = Raised (UnboundLocalError "color")
  ∧ ∃ cs extra,
      artists (get_axes
                 (session_plot xs ys zs false true true false None None None
                    {["colors" := PList [PStr "r"]; "label" := PStr "a"]}
                    blank_session).1 0)
      = ContourSet false cs :: extra.
Proof.
  split; [vm_compute; reflexivity|].
  evar (kw : gmap string pyval).
  assert (Htr : trace (session_plot xs ys zs false true true false None None None
                         {["colors" := PList [PStr "r"]; "label" := PStr "a"]}
                         blank_session).1
                = trace blank_session
                  ++ [CallContour 0 false (as_float64 xs) (as_float64 ys) (as_float64 zs) (PNum (10 # 1)%Q) kw])
    by (subst kw; vm_compute; reflexivity).
  assert (Hin : CallContour 0 false (as_float64 xs) (as_float64 ys) (as_float64 zs) (PNum (10 # 1)%Q) kw
                ∈ [CallContour 0 false (as_float64 xs) (as_float64 ys) (as_float64 zs) (PNum (10 # 1)%Q) kw])
    by (apply list_elem_of_singleton; reflexivity).
  assert (Hacc : @rejects mpl_host
                   (CallContour 0 false (as_float64 xs) (as_float64 ys) (as_float64 zs) (PNum (10 # 1)%Q) kw) = None)
    by (subst kw; vm_compute; reflexivity).
  unfold session_plot in Htr.
  destruct (contour_set_stays_whatever_follows
              _ _ _ _ _ _ _ _ _ _ _ _ _ _ _ _ _ _ _ _ Htr Hin Hacc)
    as (extra & Hart & _); [discriminate|].
  eexists _, extra. exact Hart.
Defined.

(** X12 at work: two labelled line contours on a blank surface take the
    first two colours of matplotlib's cycle. *)
Lemma two_calls_session :
  ∃ w1 w2 cs1 cs2,
    session_plot xs ys zs false true true false None None None
      {["cmap" := CmapObject 1; "label" := PStr "a"]} blank_session = (w1, Returned 0)
    ∧ session_plot xs ys zs false true true false None None (Some 0)
        {["cmap" := CmapObject 2; "label" := PStr "b"]} w1 = (w2, Returned 0)
    ∧ artists (get_axes w2 0)
      = [ContourSet false cs1; Line2D [] [] (PStr "#1f77b4") (PStr "a");
         ContourSet false cs2; Line2D [] [] (PStr "#ff7f0e") (PStr "b")].
Proof.
  evar (w1 : world). evar (w2 : world).
  assert (Hrun1 : session_plot xs ys zs false true true false None None None
                    {["cmap" := CmapObject 1; "label" := PStr "a"]} blank_session
                  = (w1, Returned 0))
    by (subst w1; vm_compute; reflexivity).
  assert (Hrun2 : session_plot xs ys zs false true true false None None (Some 0)
                    {["cmap" := CmapObject 2; "label" := PStr "b"]} w1
                  = (w2, Returned 0))
    by (subst w1 w2; vm_compute; reflexivity).
  unfold session_plot in Hrun1, Hrun2.
  destruct (successive_calls_take_successive_cycle_colours
              _ _ _ _ _ _ _ _ _ _ (PStr "a") _ _ _ _ _ _ _ _ _ _ (PStr "b") _ _ _ _ _ _
              Hrun1 Hrun2)
    as (_ & cs1 & cs2 & Hart);
    [discriminate | discriminate | reflexivity | discriminate | reflexivity
    | discriminate | reflexivity | reflexivity | reflexivity | reflexivity |].
  exists w1, w2, cs1, cs2. split; [exact Hrun1|]. split; [exact Hrun2 | exact Hart].
Defined.

(** X14 at work: a filled contour in one colour, with a colorbar and no
    label, returns. *)
Lemma colour_list_returns_session :
  ∃ w', session_plot xs ys zs true true false true None None None
          {["colors" := PList [PStr "r"]]} blank_session = (w', Returned 0).
Proof.
  apply (proj2 (@colour_list_call_returns_exactly_when_accepted mpl_host
                  xs ys zs true true false true None None None
                  {["colors" := PList [PStr "r"]]} blank_session (PList [PStr "r"])
                  ltac:(discriminate) ltac:(vm_compute; reflexivity)
                  ltac:(reflexivity) ltac:(discriminate))).
  split; [reflexivity|]. split; [reflexivity|].
  split; [discriminate | reflexivity].
Defined.

(** X15 at work: the plain call raises, and the cycle of the surface has
    moved on by one colour. *)
Lemma failing_call_shifts_cycle_session :
  (session_plot xs ys zs false true true false None None None ∅ blank_session).2
  = Raised (NameError "dark_palette")
  ∧ cycle_pos (get_axes
                 (session_plot xs ys zs false true true false None None None ∅
                    blank_session).1 0) = 1.
Proof.
  split; [vm_compute; reflexivity|].
  assert (Hx : len xs ≠ 0) by discriminate.
  assert (Hargs : arguments_error xs ys zs ∅ = None) by (vm_compute; reflexivity).
  exact (proj1 (@every_drawing_call_consumes_one_cycle_colour mpl_host
                  xs ys zs false true true false None None None ∅ blank_session
                  Hx Hargs)).
Defined.

(** X16 at work: [contour_plot(x, y, z, cmap=..., filled=True)]. *)
Lemma colliding_keyword_session :
  session_plot xs ys zs false true true false None None None
    {["cmap" := CmapObject 1; "filled" := PBool true]} blank_session
  = (blank_session, Raised TypeError).
Proof.
  unfold session_plot.
  apply (@colliding_keyword_raises_type_error mpl_host
           xs ys zs false true true false None None None
           {["cmap" := CmapObject 1; "filled" := PBool true]} blank_session "filled");
    [discriminate | vm_compute; reflexivity | vm_compute; reflexivity
    | vm_compute; reflexivity | |].
  - apply list_elem_of_In. vm_compute. tauto.
  - exists (PBool true). reflexivity.
Defined.

(** X17 at work: a ragged list for [z], and a number too large for
    binary64 in [x]. *)
Lemma unconvertible_input_session :
  session_plot xs ys (PyList [Row [Num 1%Q; Num 2%Q]; Row [Num 3%Q]])
    false true true false None None None {["cmap" := CmapObject 1]} blank_session
  = (blank_session, Raised (ValueError "setting an array element with a sequence"))
  ∧ session_plot (PyList [Num 1%Q; Num 2%Q; Num (Qmake (10 ^ 400) 1)]) ys zs
      false true true false None None None {["cmap" := CmapObject 1]} blank_session
    = (blank_session, Raised OverflowError).
Proof.
  unfold session_plot. split.
  - apply (@unconvertible_input_raises_numpy_error mpl_host); [discriminate|].
    right; right. split; [vm_compute; reflexivity|].
    split; vm_compute; reflexivity.
  - apply (@unconvertible_input_raises_numpy_error mpl_host); [discriminate|].
    left. vm_compute; reflexivity.
Defined.
